(** * TimeTrack attendance: record lifecycle, aggregation and reconciliation

    A shallow embedding of the attendance logic of the employee and manager
    dashboards ([EmployeeDashboard], [ManagerDashboard]) and of the
    application shell ([App]), with the properties of the specification
    stated over it.

    Conventions of the embedding.
    - A JavaScript [Date] and an ISO timestamp string are the instant they
      denote: an integer number of milliseconds since the epoch.  A nullable
      timestamp ([string | null], or an empty form field) is an [option].
    - The actor's time zone is a fixed offset [tz], in minutes east of UTC.
    - A JavaScript [number] is the rational it denotes ([Q]); counts and
      minutes are integers.  A record's [durationHours] is the decimal the
      code stores.  The statistics of the dashboards ([stats],
      [calculateStats]) compute in binary64: every stored duration is read
      as the nearest binary64 value and every sum, quotient and product is
      rounded to binary64 ([Float64]); magnitudes stay below [2^1024], so
      no operation overflows.
    - A record's [date] is the string the code stores, of the form
      [YYYY-MM-DD]. *)

From Stdlib Require Import ZArith QArith Qround Qabs Qpower List String Ascii Bool Lia.
From Stdlib Require Import DecimalString Lqa.
From Stdlib Require Import Sorted Permutation.
From ExtLib Require Import Structures.Monad Structures.MonadState.
From ExtLib Require Import Data.Monads.StateMonad.
Import ListNotations.

Local Open Scope Z_scope.

(** ** The JavaScript runtime: numbers and dates *)

Module JS.

Definition msPerMinute : Z := 60000.
Definition msPerHour : Z := 3600000.
Definition msPerDay : Z := 86400000.

(** [Math.round]: the nearest integer, ties towards plus infinity. *)
Definition Math_round (x : Q) : Z := Qfloor (x + (1 # 2)).

Definition Math_floor (x : Q) : Z := Qfloor x.

(** [Number(x.toFixed(digits))]: the multiple of [10^-digits] nearest to
    [x]; the sign is split off first and a tie takes the larger
    magnitude. *)
Definition toFixed (digits : nat) (x : Q) : Q :=
  let scale := 10 ^ Z.of_nat digits in
  let n := Qfloor (Qabs x * inject_Z scale + (1 # 2)) in
  if Qlt_le_dec x 0
  then Qred (- (inject_Z n / inject_Z scale))
  else Qred (inject_Z n / inject_Z scale).

(** A calendar date, fields as written in [YYYY-MM-DD] (month 1 to 12). *)
Record Civil : Type := mkCivil { year : Z; month : Z; day : Z }.

Definition Civil_eqb (a b : Civil) : bool :=
  (year a =? year b) && (month a =? month b) && (day a =? day b).

Definition InLeapYear (y : Z) : bool :=
  ((y mod 4 =? 0) && negb (y mod 100 =? 0)) || (y mod 400 =? 0).

Definition DaysInMonth (y m : Z) : Z :=
  if m =? 2 then (if InLeapYear y then 29 else 28)
  else if (m =? 4) || (m =? 6) || (m =? 9) || (m =? 11) then 30
  else 31.

(** [DayFromYear]: the day number of the first of January of year [y]. *)
Definition DayFromYear (y : Z) : Z :=
  365 * (y - 1970) + (y - 1969) / 4 - (y - 1901) / 100 + (y - 1601) / 400.

(** Days of the year before the first of month [m]. *)
Definition DaysBeforeMonth (y m : Z) : Z :=
  let leap := if InLeapYear y then 1 else 0 in
  if m <=? 1 then 0
  else if m =? 2 then 31
  else if m =? 3 then 59 + leap
  else if m =? 4 then 90 + leap
  else if m =? 5 then 120 + leap
  else if m =? 6 then 151 + leap
  else if m =? 7 then 181 + leap
  else if m =? 8 then 212 + leap
  else if m =? 9 then 243 + leap
  else if m =? 10 then 273 + leap
  else if m =? 11 then 304 + leap
  else 334 + leap.

(** [MakeDay]: days since the epoch of a calendar date. *)
Definition MakeDay (c : Civil) : Z :=
  DayFromYear (year c) + DaysBeforeMonth (year c) (month c) + (day c - 1).

(** The calendar date of a day number (the inverse of [MakeDay]). *)
Definition civilFromDays (n : Z) : Civil :=
  let z := n + 719468 in
  let era := z / 146097 in
  let doe := z - era * 146097 in
  let yoe := (doe - doe / 1460 + doe / 36524 - doe / 146096) / 365 in
  let doy := doe - (365 * yoe + yoe / 4 - yoe / 100) in
  let mp := (5 * doy + 2) / 153 in
  let d := doy - (153 * mp + 2) / 5 + 1 in
  let m := if mp <? 10 then mp + 3 else mp - 9 in
  let y := yoe + era * 400 + (if m <=? 2 then 1 else 0) in
  mkCivil y m d.

Definition validCivil (c : Civil) : bool :=
  (1 <=? month c) && (month c <=? 12) &&
  (1 <=? day c) && (day c <=? DaysInMonth (year c) (month c)).

(** *** Local time *)

Section LocalTime.

Variable tz : Z.

Definition toLocal (t : Z) : Z := t + tz * msPerMinute.
Definition fromLocal (l : Z) : Z := l - tz * msPerMinute.

(** [Date.prototype.getHours]: the hour of the day in local time. *)
Definition getHours (t : Z) : Z := (toLocal t / msPerHour) mod 24.

Definition localDay (t : Z) : Z := toLocal t / msPerDay.

Definition localCivil (t : Z) : Civil := civilFromDays (localDay t).

(** Local midnight at the start of a calendar date. *)
Definition localMidnight (c : Civil) : Z := fromLocal (MakeDay c * msPerDay).

End LocalTime.

(** *** Decimal digits *)

Definition digitChar (n : Z) : ascii := ascii_of_nat (48 + Z.to_nat (n mod 10)).

Definition pad2 (n : Z) : string :=
  String (digitChar (n / 10)) (String (digitChar n) EmptyString).

Definition pad4 (n : Z) : string :=
  String (digitChar (n / 1000)) (String (digitChar (n / 100)) (pad2 n)).

Definition digitVal (c : ascii) : option Z :=
  let n := nat_of_ascii c in
  if (48 <=? n)%nat && (n <=? 57)%nat then Some (Z.of_nat (n - 48)) else None.

Definition isDash (c : ascii) : bool := Ascii.eqb c "-"%char.

(** The date-only ISO form [YYYY-MM-DD] of a valid calendar date, the form
    [types.ts] gives for the [date] of a record.  Any other string is taken
    as an [Invalid Date]: the further forms that [parseISO] and [new Date]
    read (a time part, a week or an ordinal date) are outside the
    embedding. *)
Definition parseCivil (s : string) : option Civil :=
  match list_ascii_of_string s with
  | [y1; y2; y3; y4; s1; m1; m2; s2; d1; d2] =>
      match digitVal y1, digitVal y2, digitVal y3, digitVal y4,
            digitVal m1, digitVal m2, digitVal d1, digitVal d2 with
      | Some a, Some b, Some c, Some d, Some e, Some f, Some g, Some h =>
          let r := mkCivil (1000 * a + 100 * b + 10 * c + d)
                           (10 * e + f) (10 * g + h) in
          if isDash s1 && isDash s2 && validCivil r then Some r else None
      | _, _, _, _, _, _, _, _ => None
      end
  | _ => None
  end.

(** [new Date("YYYY-MM-DD").getTime()]: a date-only string is UTC
    midnight; [None] is the time value [NaN] of an invalid date. *)
Definition Date_parse (s : string) : option Z :=
  match parseCivil s with
  | Some c => Some (MakeDay c * msPerDay)
  | None => None
  end.

(** [a > b] on time values, false when the left one is [NaN]. *)
Definition timeGt (a : option Z) (b : Z) : bool :=
  match a with
  | Some x => b <? x
  | None => false
  end.

End JS.

(** ** Binary64 arithmetic

    The value of an arithmetic operation on two [number]s is the exact
    result rounded to the nearest binary64 value, a tie going to the even
    significand.  A finite binary64 value is an integer of magnitude below
    [2^53] times a power of two whose exponent is at least [-1074]. *)

Module Float64.

Local Open Scope Q_scope.

(** The precision, and the exponent of the smallest positive value. *)
Definition prec : Z := 53.
Definition emin : Z := -1074.

Definition pow2 (e : Z) : Q := 2 ^ e.

(** The floor of the binary logarithm of a positive rational. *)
Definition ilog2 (x : Q) : Z :=
  let l := (Z.log2 (Qnum x) - Z.log2 (Zpos (Qden x)))%Z in
  if Qle_bool (pow2 l) x then l else (l - 1)%Z.

(** The nearest integer, a tie going to the even one. *)
Definition rne (m : Q) : Z :=
  let f := Qfloor m in
  match Qcompare (m - inject_Z f) (1 # 2) with
  | Lt => f
  | Gt => (f + 1)%Z
  | Eq => if Z.even f then f else (f + 1)%Z
  end.

(** The exponent of the unit in the last place of the binary64 values
    around [x]. *)
Definition ulpExp (x : Q) : Z := Z.max (ilog2 (Qabs x) - (prec - 1)) emin.

(** The binary64 value nearest to [x]. *)
Definition round (x : Q) : Q :=
  let x := Qred x in
  if Qeq_bool x 0 then 0
  else let e := ulpExp x in Qred (inject_Z (rne (x / pow2 e)) * pow2 e).

(** [a + b], [a * b] and [a / b] on [number]s. *)
Definition add (a b : Q) : Q := round (a + b).
Definition mul (a b : Q) : Q := round (a * b).
Definition div (a b : Q) : Q := round (a / b).

End Float64.

(** ** The date-fns functions the dashboards import *)

Module DateFns.

Import JS.

(** [differenceInMinutes(dateLeft, dateRight)]: whole minutes between two
    instants, the fraction truncated towards zero. *)
Definition differenceInMinutes (dateLeft dateRight : Z) : Z :=
  Z.quot (dateLeft - dateRight) msPerMinute.

Definition monthName (m : Z) : string :=
  if m =? 1 then "Jan" else if m =? 2 then "Feb" else if m =? 3 then "Mar"
  else if m =? 4 then "Apr" else if m =? 5 then "May" else if m =? 6 then "Jun"
  else if m =? 7 then "Jul" else if m =? 8 then "Aug" else if m =? 9 then "Sep"
  else if m =? 10 then "Oct" else if m =? 11 then "Nov" else "Dec".

Section LocalTime.

Variable tz : Z.

(** [parseISO] of a date-only string: local midnight of that date. *)
Definition parseISO (s : string) : option Z :=
  match parseCivil s with
  | Some c => Some (localMidnight tz c)
  | None => None
  end.

(** [format(d, 'yyyy-MM-dd')]. *)
Definition format_yyyy_MM_dd (t : Z) : string :=
  let c := localCivil tz t in
  (pad4 (year c) ++ "-" ++ pad2 (month c) ++ "-" ++ pad2 (day c))%string.

(** [format(d, 'dd MMM')]. *)
Definition format_dd_MMM (t : Z) : string :=
  let c := localCivil tz t in
  (pad2 (day c) ++ " " ++ monthName (month c))%string.

Definition isSameMonth (a b : Z) : bool :=
  let ca := localCivil tz a in
  let cb := localCivil tz b in
  (year ca =? year cb) && (month ca =? month cb).

Definition startOfMonth (t : Z) : Z :=
  let c := localCivil tz t in
  localMidnight tz (mkCivil (year c) (month c) 1).

(** The first instant of the month after the one of [t]. *)
Definition startOfNextMonth (t : Z) : Z :=
  let c := localCivil tz t in
  if month c =? 12
  then localMidnight tz (mkCivil (year c + 1) 1 1)
  else localMidnight tz (mkCivil (year c) (month c + 1) 1).

(** [endOfMonth]: the last millisecond of the month. *)
Definition endOfMonth (t : Z) : Z := startOfNextMonth t - 1.

(** [subMonths(d, 1)]: the same day and time of day one month earlier, the
    day clamped to the length of that month. *)
Definition subMonths1 (t : Z) : Z :=
  let c := localCivil tz t in
  let y := if month c =? 1 then year c - 1 else year c in
  let m := if month c =? 1 then 12 else month c - 1 in
  let d := Z.min (day c) (DaysInMonth y m) in
  localMidnight tz (mkCivil y m d) + (toLocal tz t) mod msPerDay.

(** [isWithinInterval(d, { start, end })]. *)
Definition isWithinInterval (d start_ end_ : Z) : bool :=
  (start_ <=? d) && (d <=? end_).

End LocalTime.

End DateFns.

(** ** [types.ts] *)

Inductive AttendanceStatus : Type :=
| PRESENT
| ABSENT
| LATE
| HALF_DAY
| ON_LEAVE.

Definition AttendanceStatus_eqb (a b : AttendanceStatus) : bool :=
  match a, b with
  | PRESENT, PRESENT | ABSENT, ABSENT | LATE, LATE
  | HALF_DAY, HALF_DAY | ON_LEAVE, ON_LEAVE => true
  | _, _ => false
  end.

Record AttendanceRecord : Type := mkRecord {
  id : string;
  employeeId : string;
  date : string;
  checkIn : option Z;
  checkOut : option Z;
  status : AttendanceStatus;
  durationHours : Q
}.

(** [{ ...r, checkOut: co, durationHours: h }]. *)
Definition withCheckOut (r : AttendanceRecord) (co : option Z) (h : Q)
  : AttendanceRecord :=
  mkRecord (id r) (employeeId r) (date r) (checkIn r) co (status r) h.

(** [Array.prototype.find]. *)
Definition find_ {A : Type} (p : A -> bool) (l : list A) : option A :=
  List.find p l.

(** [arr.reduce((acc, curr) => acc + curr.durationHours, 0)], as the sum
    of the decimals. *)
Definition sumDurationHours (recs : list AttendanceRecord) : Q :=
  fold_left (fun acc curr => acc + durationHours curr)%Q recs 0%Q.

(** The same [reduce] as the dashboards evaluate it: each [durationHours]
    is a binary64 value and each addition is rounded. *)
Definition sumDurationHours64 (recs : list AttendanceRecord) : Q :=
  fold_left
    (fun acc curr => Float64.add acc (Float64.round (durationHours curr)))
    recs 0%Q.

(** [arr.sort((a, b) => new Date(b.date).getTime() - new Date(a.date).getTime())]:
    a stable sort, most recent date first.  A comparison that involves an
    invalid date is [NaN] and keeps the order. *)
Definition compareDateDesc (a b : AttendanceRecord) : Z :=
  match JS.Date_parse (date b), JS.Date_parse (date a) with
  | Some tb, Some ta => tb - ta
  | _, _ => 0
  end.

Fixpoint insertDateDesc (x : AttendanceRecord) (l : list AttendanceRecord)
  : list AttendanceRecord :=
  match l with
  | [] => [x]
  | y :: l' =>
      if 0 <? compareDateDesc x y then y :: insertDateDesc x l'
      else x :: y :: l'
  end.

Definition sortDateDesc (l : list AttendanceRecord) : list AttendanceRecord :=
  fold_right insertDateDesc [] l.

Inductive SelectedMonth : Type := current | previous.

(** [format(parseISO(date), 'dd MMM')]; [None] when the date is invalid and
    [format] throws. *)
Definition dayLabel (tz : Z) (d : string) : option string :=
  match DateFns.parseISO tz d with
  | Some t => Some (DateFns.format_dd_MMM tz t)
  | None => None
  end.

(** [arr.map(f)] for an [f] that may throw. *)
Fixpoint mapOption {A B : Type} (f : A -> option B) (l : list A)
  : option (list B) :=
  match l with
  | [] => Some []
  | x :: l' =>
      match f x, mapOption f l' with
      | Some y, Some ys => Some (y :: ys)
      | _, _ => None
      end
  end.

(** ** [EmployeeDashboard] *)

Module EmployeeDashboard.

Import JS DateFns.

(** The state of the edit form: the date as typed, the two
    [datetime-local] fields as the instants they denote ([None] when
    empty). *)
Module EditForm.
Record t : Type := mk {
  date : string;
  checkIn : option Z;
  checkOut : option Z
}.
End EditForm.

(** What a click on "Save Changes" does: a silent [return], an [alert]
    followed by [return], or [onUpdateRecord(newRecord)]. *)
Inductive SaveOutcome : Type :=
| Ignored
| Rejected (alert : string)
| Saved (newRecord : AttendanceRecord).

Definition alertFutureDate : string :=
  "Cannot add records for future dates.".
Definition alertExists : string :=
  "A record already exists for this date. Please edit the existing record instead.".
Definition alertTimeRange : string :=
  "Check-out time cannot be before check-in time.".

(** The control of the "Today's Status" card. *)
Inductive TodayControl : Type :=
| CheckInButton
| CheckOutButton
| CompletedBadge.

Record Stats : Type := mkStats {
  totalHours : Z;
  avgHours : Q;
  attendanceRate : Z;
  late : nat;
  present : nat
}.

Definition isNull {A : Type} (o : option A) : bool :=
  match o with
  | Some _ => false
  | None => true
  end.

Definition countStatus (s : AttendanceStatus) (recs : list AttendanceRecord)
  : nat :=
  List.length (filter (fun r => AttendanceStatus_eqb (status r) s) recs).

(** The [stats] memo, as a function of [filteredRecords]; [avgHours] is the
    number its string shows. *)
Definition stats (filteredRecords : list AttendanceRecord) : Stats :=
  let totalRecords := List.length filteredRecords in
  let present := countStatus PRESENT filteredRecords in
  let late := countStatus LATE filteredRecords in
  let totalHours := sumDurationHours64 filteredRecords in
  let avgHours :=
    if (0 <? totalRecords)%nat
    then toFixed 1 (Float64.div totalHours (inject_Z (Z.of_nat totalRecords)))
    else 0%Q in
  let attendanceRate :=
    if (0 <? totalRecords)%nat
    then Math_round
           (Float64.mul
              (Float64.div (inject_Z (Z.of_nat (present + late)))
                           (inject_Z (Z.of_nat totalRecords)))
              100)
    else 0 in
  mkStats (Math_round totalHours) avgHours attendanceRate late present.

Section Component.

(** The actor's time zone and the props and clock of one render. *)
Variable tz : Z.
Variable currentUser_id : string.
Variable records : list AttendanceRecord.
Variable today : Z.

Definition todayStr : string := format_yyyy_MM_dd tz today.
Definition previousMonthDate : Z := subMonths1 tz today.
Definition previousMonthStart : Z := startOfMonth tz previousMonthDate.
Definition previousMonthEnd : Z := endOfMonth tz previousMonthDate.

Definition myRecords : list AttendanceRecord :=
  filter (fun record => String.eqb (employeeId record) currentUser_id) records.

Definition todayRecord : option AttendanceRecord :=
  find_ (fun r => String.eqb (date r) todayStr) myRecords.

Definition inSelectedMonth (selectedMonth : SelectedMonth)
  (record : AttendanceRecord) : bool :=
  match parseISO tz (date record) with
  | Some recordDate =>
      match selectedMonth with
      | current => isSameMonth tz recordDate today
      | previous => isWithinInterval recordDate previousMonthStart previousMonthEnd
      end
  | None => false
  end.

Definition filteredRecords (selectedMonth : SelectedMonth)
  : list AttendanceRecord :=
  sortDateDesc (filter (inSelectedMonth selectedMonth) myRecords).

(** [chartData]: the ten most recent records, oldest first; [None] is the
    [RangeError] of formatting an invalid date. *)
Definition chartData (selectedMonth : SelectedMonth)
  : option (list (string * Q)) :=
  mapOption (fun record =>
               match dayLabel tz (date record) with
               | Some d => Some (d, durationHours record)
               | None => None
               end)
            (rev (firstn 10 (filteredRecords selectedMonth))).

Definition recordId (d : string) : string :=
  (currentUser_id ++ "-" ++ d)%string.

Definition handleCheckIn (now : Z) : AttendanceRecord :=
  mkRecord (recordId todayStr) currentUser_id todayStr
           (Some now) None
           (if 10 <=? getHours tz now then LATE else PRESENT)
           0%Q.

(** [None]: the early [return] when there is no record for today. *)
Definition handleCheckOut (now : Z) : option AttendanceRecord :=
  match todayRecord with
  | None => None
  | Some todayRecord =>
      let checkInTime :=
        match checkIn todayRecord with
        | Some t => t
        | None => now
        end in
      let diffMinutes := differenceInMinutes now checkInTime in
      let hours := toFixed 2 (inject_Z diffMinutes / 60) in
      Some (withCheckOut todayRecord (Some now) hours)
  end.

(** The duration and status of a manual entry; [None] is the rejected
    time range. *)
Definition manualDurationStatus (ci co : option Z)
  : option (Q * AttendanceStatus) :=
  match ci, co with
  | Some start_, Some end_ =>
      if end_ <? start_ then None
      else
        let diff := differenceInMinutes end_ start_ in
        let duration :=
          if 0 <? diff then toFixed 2 (inject_Z diff / 60) else 0%Q in
        Some (duration, if 10 <=? getHours tz start_ then LATE else PRESENT)
  | _, _ => Some (0%Q, PRESENT)
  end.

(** The guards that open [handleSaveEdit]: no edit target, no date, a
    future date, a record that exists already.  [None]: all passed. *)
Definition saveGuards (isCreating : bool)
  (editingRecord : option AttendanceRecord) (editForm : EditForm.t) (now : Z)
  : option SaveOutcome :=
  if negb isCreating && isNull editingRecord then Some Ignored
  else if isCreating && String.eqb (EditForm.date editForm) "" then Some Ignored
  else if timeGt (Date_parse (EditForm.date editForm)) now
  then Some (Rejected alertFutureDate)
  else if isCreating &&
          negb (isNull (find_ (fun r => String.eqb (id r)
                                          (recordId (EditForm.date editForm)))
                              records))
  then Some (Rejected alertExists)
  else None.

Definition handleSaveEdit (isCreating : bool)
  (editingRecord : option AttendanceRecord) (editForm : EditForm.t) (now : Z)
  : SaveOutcome :=
  match saveGuards isCreating editingRecord editForm now with
  | Some early => early
  | None =>
      match manualDurationStatus (EditForm.checkIn editForm)
                                 (EditForm.checkOut editForm) with
      | None => Rejected alertTimeRange
      | Some (duration, status) =>
          Saved (mkRecord
                   (if isCreating then recordId (EditForm.date editForm)
                    else match editingRecord with
                         | Some r => id r
                         | None => EmptyString (* excluded by the first guard *)
                         end)
                   currentUser_id
                   (EditForm.date editForm)
                   (EditForm.checkIn editForm)
                   (EditForm.checkOut editForm)
                   status
                   duration)
      end
  end.

(** Which control the card renders: check-in only without a record for
    today, check-out while that record has no [checkOut]. *)
Definition todayControl : TodayControl :=
  match todayRecord with
  | None => CheckInButton
  | Some r => if isNull (checkOut r) then CheckOutButton else CompletedBadge
  end.

(** The record handed to [onUpdateRecord] by a click on the rendered
    control, if any. *)
Definition clickTodayControl (now : Z) : option AttendanceRecord :=
  match todayControl with
  | CheckInButton => Some (handleCheckIn now)
  | CheckOutButton => handleCheckOut now
  | CompletedBadge => None
  end.

End Component.

End EmployeeDashboard.

(** ** [ManagerDashboard] *)

Module ManagerDashboard.

Import JS DateFns.

Definition showZ (z : Z) : string := DecimalString.NilZero.string_of_int (Z.to_int z).

(** [formatDuration]: whole hours and the remaining minutes, rounded. *)
Definition formatDuration (hours : Q) : string :=
  let h := Math_floor hours in
  let m := Math_round ((hours - inject_Z h) * 60) in
  (showZ h ++ "h " ++ showZ m ++ "m")%string.

Record Stats : Type := mkStats {
  totalHours : string;
  avgHours : string;
  attendanceRate : Z;
  late : nat;
  present : nat
}.

Definition countStatus (s : AttendanceStatus) (recs : list AttendanceRecord)
  : nat :=
  List.length (filter (fun r => AttendanceStatus_eqb (status r) s) recs).

(** The constants of [calculateStats], then the function itself. *)
Definition totalHoursDecimal (recs : list AttendanceRecord) : Q :=
  sumDurationHours64 recs.

Definition avgHoursDecimal (recs : list AttendanceRecord) : Q :=
  let totalRecords := List.length recs in
  if (0 <? totalRecords)%nat
  then Float64.div (totalHoursDecimal recs) (inject_Z (Z.of_nat totalRecords))
  else 0%Q.

Definition calculateStats (recs : list AttendanceRecord) : Stats :=
  let totalRecords := List.length recs in
  let present := countStatus PRESENT recs in
  let late := countStatus LATE recs in
  let attendanceRate :=
    if (0 <? totalRecords)%nat
    then Math_round
           (Float64.mul
              (Float64.div (inject_Z (Z.of_nat (present + late)))
                           (inject_Z (Z.of_nat totalRecords)))
              100)
    else 0 in
  mkStats (formatDuration (totalHoursDecimal recs))
          (formatDuration (avgHoursDecimal recs))
          attendanceRate late present.

(** One point of the chart. *)
Record DayPoint : Type := mkPoint {
  point_date : string;
  point_hours : Q;
  point_present : Z
}.

(** [dailyStats]: an object keyed by the day label; its values are
    enumerated in the order the keys were first written. *)
Definition DailyStats : Type := list (string * DayPoint).

Fixpoint hasKey (d : string) (o : DailyStats) : bool :=
  match o with
  | [] => false
  | (k, _) :: o' => String.eqb k d || hasKey d o'
  end.

Fixpoint updateKey (d : string) (f : DayPoint -> DayPoint) (o : DailyStats)
  : DailyStats :=
  match o with
  | [] => []
  | (k, v) :: o' =>
      if String.eqb k d then (k, f v) :: o' else (k, v) :: updateKey d f o'
  end.

Definition Object_values (o : DailyStats) : list DayPoint := map snd o.

Definition isAttended (s : AttendanceStatus) : bool :=
  AttendanceStatus_eqb s PRESENT || AttendanceStatus_eqb s LATE.

(** The body of the [forEach] of [chartData], for a record whose day label
    is [d]. *)
Definition addToDay (d : string) (record : AttendanceRecord) (o : DailyStats)
  : DailyStats :=
  let o1 := if hasKey d o then o else o ++ [(d, mkPoint d 0%Q 0)] in
  updateKey d
    (fun p => mkPoint (point_date p)
                      (point_hours p + durationHours record)%Q
                      (if isAttended (status record)
                       then point_present p + 1 else point_present p))
    o1.

Section Component.

Variable tz : Z.
Variable records : list AttendanceRecord.
Variable today : Z.

Definition previousMonthDate : Z := subMonths1 tz today.
Definition previousMonthStart : Z := startOfMonth tz previousMonthDate.
Definition previousMonthEnd : Z := endOfMonth tz previousMonthDate.

Definition inSelectedMonth (selectedMonth : SelectedMonth)
  (record : AttendanceRecord) : bool :=
  match parseISO tz (date record) with
  | Some recordDate =>
      match selectedMonth with
      | current => isSameMonth tz recordDate today
      | previous => isWithinInterval recordDate previousMonthStart previousMonthEnd
      end
  | None => false
  end.

Definition filteredRecords (selectedMonth : SelectedMonth)
  : list AttendanceRecord :=
  sortDateDesc (filter (inSelectedMonth selectedMonth) records).

(** The [forEach] over the records; [None] when a day label throws. *)
Fixpoint aggregateByDay (recs : list AttendanceRecord) (o : DailyStats)
  : option DailyStats :=
  match recs with
  | [] => Some o
  | record :: recs' =>
      match dayLabel tz (date record) with
      | Some d => aggregateByDay recs' (addToDay d record o)
      | None => None
      end
  end.

(** [Object.values(dailyStats).reverse().slice(0, 14)]. *)
Definition chartDataOf (recs : list AttendanceRecord) : option (list DayPoint) :=
  match aggregateByDay recs [] with
  | Some dailyStats => Some (firstn 14 (rev (Object_values dailyStats)))
  | None => None
  end.

Definition chartData (selectedMonth : SelectedMonth) : option (list DayPoint) :=
  chartDataOf (filteredRecords selectedMonth).

End Component.

End ManagerDashboard.

(** ** [App]: the local record set and the remote store *)

Module App.

Import MonadNotation.
Local Open Scope monad_scope.

(** A call to the remote store. *)
Inductive Request : Type :=
| Upsert (dbRecord : AttendanceRecord)
| DeleteById (recordId : string).

(** The [error] object of a response, and a thrown value: an object whose
    [message] reads as [msg], a string, [null] or [undefined], or any other
    value, whose [message] is [undefined]. *)
Record PgError : Type := mkError { message : string }.

Inductive Thrown : Type :=
| ThrownError (msg : string)
| ThrownString (s : string)
| ThrownNullish
| ThrownOther.

(** How the promise of a handler ends: fulfilled, or rejected by the
    [TypeError] of a property read on [null] or [undefined]. *)
Inductive Completion : Type :=
| Resolved
| RejectedTypeError.

(** How an awaited call ends: with a response (its [error] null or not),
    or by throwing. *)
Inductive Settled : Type :=
| Fulfilled (error : option PgError)
| Failed (reason : Thrown).

(** The [attendanceRecords] state, with the calls sent to the store and the
    alerts shown so far (oldest first). *)
Record AppState : Type := mkApp {
  attendanceRecords : list AttendanceRecord;
  requests : list Request;
  alerts : list string
}.

Definition setAttendanceRecords
  (f : list AttendanceRecord -> list AttendanceRecord) : state AppState unit :=
  s <- get ;;
  put (mkApp (f (attendanceRecords s)) (requests s) (alerts s)).

Definition send (r : Request) : state AppState unit :=
  s <- get ;;
  put (mkApp (attendanceRecords s) (requests s ++ [r]) (alerts s)).

Definition alert (msg : string) : state AppState unit :=
  s <- get ;;
  put (mkApp (attendanceRecords s) (requests s) (alerts s ++ [msg])).

(** [a || b] on strings. *)
Definition orElse (a b : string) : string :=
  if String.eqb a "" then b else a.

(** The updater of the optimistic update: replace the record of the same
    id, or append. *)
Definition applyUpdate (updatedRecord : AttendanceRecord)
  (prevRecords : list AttendanceRecord) : list AttendanceRecord :=
  match find_ (fun r => String.eqb (id r) (id updatedRecord)) prevRecords with
  | Some _ =>
      map (fun r => if String.eqb (id r) (id updatedRecord)
                    then updatedRecord else r) prevRecords
  | None => prevRecords ++ [updatedRecord]
  end.

(** [handleUpdateRecord] up to its [await]: the optimistic update, then the
    upsert is sent. *)
Definition handleUpdateRecord_send (updatedRecord : AttendanceRecord)
  : state AppState unit :=
  setAttendanceRecords (applyUpdate updatedRecord) ;;
  send (Upsert updatedRecord).

(** [handleUpdateRecord] after its [await]. *)
Definition handleUpdateRecord_settle (res : Settled) : state AppState unit :=
  match res with
  | Fulfilled None => ret tt
  | Fulfilled (Some error) =>
      alert ("Failed to save record: " ++ orElse (message error) "Unknown error")
  | Failed _ => alert "An unexpected error occurred while saving."
  end.

Definition handleUpdateRecord (updatedRecord : AttendanceRecord) (res : Settled)
  : state AppState unit :=
  handleUpdateRecord_send updatedRecord ;;
  handleUpdateRecord_settle res.

(** The updater of the optimistic delete. *)
Definition applyDelete (recordId : string)
  (prevRecords : list AttendanceRecord) : list AttendanceRecord :=
  filter (fun r => negb (String.eqb (id r) recordId)) prevRecords.

Definition handleDeleteRecord_send (recordId : string) : state AppState unit :=
  setAttendanceRecords (applyDelete recordId) ;;
  send (DeleteById recordId).

(** [handleDeleteRecord] after its [await].  The [catch] reads
    [error.message]: on a thrown [null] or [undefined] that read throws
    inside the [catch], so no alert is shown and the handler rejects. *)
Definition handleDeleteRecord_settle (res : Settled)
  : state AppState Completion :=
  match res with
  | Fulfilled None => ret Resolved
  | Fulfilled (Some error) =>
      alert ("Failed to delete record: " ++ orElse (message error) "Unknown error") ;;
      ret Resolved
  | Failed (ThrownError msg) =>
      alert ("Failed to delete record: " ++ orElse msg "Unknown error") ;;
      ret Resolved
  | Failed (ThrownString s) =>
      alert ("Failed to delete record: " ++ s) ;; ret Resolved
  | Failed ThrownNullish => ret RejectedTypeError
  | Failed ThrownOther =>
      alert "Failed to delete record: Unknown error" ;; ret Resolved
  end.

Definition handleDeleteRecord (recordId : string) (res : Settled)
  : state AppState Completion :=
  handleDeleteRecord_send recordId ;;
  handleDeleteRecord_settle res.

(** *** The employee's actions, wired to [App] as in its render

    [EmployeeDashboard] receives [records = attendanceRecords],
    [onUpdateRecord = handleUpdateRecord] and
    [onDeleteRecord = handleDeleteRecord]. *)

Section Session.

Variable tz : Z.
Variable currentUser_id : string.
(** The clock at the last render and at the click. *)
Variable today now : Z.
(** How the store call of this action will end. *)
Variable res : Settled.

Definition clickCheckIn : state AppState unit :=
  handleUpdateRecord
    (EmployeeDashboard.handleCheckIn tz currentUser_id today now) res.

Definition clickCheckOut : state AppState unit :=
  s <- get ;;
  match EmployeeDashboard.handleCheckOut tz currentUser_id
          (attendanceRecords s) today now with
  | Some updatedRecord => handleUpdateRecord updatedRecord res
  | None => ret tt
  end.

(** A click on whichever control the "Today's Status" card shows. *)
Definition clickTodayControl : state AppState unit :=
  s <- get ;;
  match EmployeeDashboard.clickTodayControl tz currentUser_id
          (attendanceRecords s) today now with
  | Some r => handleUpdateRecord r res
  | None => ret tt
  end.

Definition clickSaveEdit (isCreating : bool)
  (editingRecord : option AttendanceRecord)
  (editForm : EmployeeDashboard.EditForm.t) : state AppState unit :=
  s <- get ;;
  match EmployeeDashboard.handleSaveEdit tz currentUser_id
          (attendanceRecords s) isCreating editingRecord editForm now with
  | EmployeeDashboard.Saved newRecord => handleUpdateRecord newRecord res
  | EmployeeDashboard.Rejected msg => alert msg
  | EmployeeDashboard.Ignored => ret tt
  end.

End Session.

End App.

(** ** The vocabulary of the specification *)

Module Spec.

Local Open Scope Q_scope.

(** [y] is [x] rounded to [digits] decimal places: a multiple of
    [10^-digits] at most half a unit away from [x]. *)
Definition roundedTo (digits : nat) (x y : Q) : Prop :=
  exists k : Z,
    y == inject_Z k / inject_Z (10 ^ Z.of_nat digits)
    /\ Qabs (y - x) <= 1 / inject_Z (2 * 10 ^ Z.of_nat digits).

(** [n] is [round(x)]: the nearest integer, a tie going up. *)
Definition isRound (x : Q) (n : Z) : Prop :=
  inject_Z n - (1 # 2) <= x /\ x < inject_Z n + (1 # 2).

(** The elapsed time between two instants, in hours. *)
Definition elapsedHours (checkIn checkOut : Z) : Q :=
  inject_Z (checkOut - checkIn) / inject_Z JS.msPerHour.

(** The whole minutes elapsed between two instants, seconds dropped. *)
Definition wholeMinutes (checkIn checkOut : Z) : Z :=
  ((checkOut - checkIn) / JS.msPerMinute)%Z.

(** The sum of a list of hours. *)
Fixpoint sumQ (l : list Q) : Q :=
  match l with
  | [] => 0
  | x :: l' => x + sumQ l'
  end.

(** The duration rule as the code keeps it: with both timestamps in order,
    the whole minutes elapsed, in hours, rounded to two decimals and not
    negative; with a timestamp missing, zero. *)
Definition durationOfWholeMinutes (r : AttendanceRecord) : Prop :=
  match checkIn r, checkOut r with
  | Some ci, Some co =>
      (ci <= co)%Z ->
      roundedTo 2 (inject_Z (wholeMinutes ci co) / 60) (durationHours r)
      /\ 0 <= durationHours r
  | _, _ => durationHours r == 0
  end.

(** The duration rule as the claim words it: the elapsed time itself,
    rounded to two decimals. *)
Definition durationOfElapsedTime (r : AttendanceRecord) : Prop :=
  match checkIn r, checkOut r with
  | Some ci, Some co =>
      (ci <= co)%Z ->
      roundedTo 2 (elapsedHours ci co) (durationHours r)
      /\ 0 <= durationHours r
  | _, _ => durationHours r == 0
  end.

(** How many records of a set have a given status. *)
Definition statusCount (s : AttendanceStatus) (recs : list AttendanceRecord)
  : nat :=
  List.length (filter (fun r => AttendanceStatus_eqb (status r) s) recs).


(** The month of [c] is the calendar month just before the month of
    [tc]. *)
Definition isPreviousMonthOf (c tc : JS.Civil) : Prop :=
  (12 * JS.year c + JS.month c = 12 * JS.year tc + JS.month tc - 1)%Z.

(** The records of a set that belong to an employee and a date. *)
Definition hasRecordFor (records : list AttendanceRecord)
  (employee day : string) : Prop :=
  exists r, In r records /\ employeeId r = employee /\ date r = day.

(** [l'] is [l] without the records of id [recordId], the others kept in
    place. *)
Inductive RemovedById (recordId : string)
  : list AttendanceRecord -> list AttendanceRecord -> Prop :=
| removed_nil : RemovedById recordId [] []
| removed_drop r l l' :
    id r = recordId -> RemovedById recordId l l' ->
    RemovedById recordId (r :: l) l'
| removed_keep r l l' :
    id r <> recordId -> RemovedById recordId l l' ->
    RemovedById recordId (r :: l) (r :: l').

(** *** Claims as they are worded *)

(** A second check-in on a set that holds a checked-in record of the
    employee for today fails with an error and leaves the set as it was. *)
Definition secondCheckInIsRejected (tz : Z) (uid : string) (today now : Z)
  (res : App.Settled) (s : App.AppState) : Prop :=
  (exists r, In r (App.attendanceRecords s) /\ employeeId r = uid
             /\ date r = EmployeeDashboard.todayStr tz today
             /\ checkIn r <> None) ->
  App.attendanceRecords
    (execState (App.clickCheckIn tz uid today now res) s)
  = App.attendanceRecords s
  /\ exists msg,
       App.alerts (execState (App.clickCheckIn tz uid today now res) s)
       = (App.alerts s ++ [msg])%list.

(** A manual entry whose [checkOut] precedes its [checkIn] gets the
    time-range rejection. *)
Definition invertedRangeGetsTimeRangeError (tz : Z) (uid : string)
  (records : list AttendanceRecord) (isCreating : bool)
  (editingRecord : option AttendanceRecord)
  (editForm : EmployeeDashboard.EditForm.t) (now : Z) : Prop :=
  forall ci co,
    EmployeeDashboard.EditForm.checkIn editForm = Some ci ->
    EmployeeDashboard.EditForm.checkOut editForm = Some co ->
    (co < ci)%Z ->
    EmployeeDashboard.handleSaveEdit tz uid records isCreating editingRecord
      editForm now
    = EmployeeDashboard.Rejected EmployeeDashboard.alertTimeRange.



(** Check-out on today's record fails when its [checkIn] is null: nothing
    is handed over, so neither [checkOut] nor [durationHours] is set. *)
Definition checkOutFailsWithoutCheckIn (tz : Z) (uid : string)
  (records : list AttendanceRecord) (today now : Z) : Prop :=
  forall t,
    EmployeeDashboard.todayRecord tz uid records today = Some t ->
    checkIn t = None ->
    EmployeeDashboard.handleCheckOut tz uid records today now = None.

End Spec.

(** ** Scenarios *)

Module Scenario.

Import JS.

(** The instant of a UTC date and time of day. *)
Definition utc (y m d hh mm ss : Z) : Z :=
  MakeDay (mkCivil y m d) * msPerDay + hh * msPerHour + mm * msPerMinute
  + ss * 1000.

Definition alice : string := "u1".

(** An employee in UTC who checked in at 09:00:30 and checks out at
    17:00:29 of the same day. *)
Definition checkedIn0900 : AttendanceRecord :=
  mkRecord "u1-2024-03-15" alice "2024-03-15"
           (Some (utc 2024 3 15 9 0 30)) None PRESENT 0.

(** A late arrival at 10:30, not checked out yet. *)
Definition lateArrival : AttendanceRecord :=
  mkRecord "u1-2024-03-15" alice "2024-03-15"
           (Some (utc 2024 3 15 10 30 0)) None LATE 0.

(** A record for today entered by hand with both times left empty. *)
Definition emptyToday : AttendanceRecord :=
  mkRecord "u1-2024-03-15" alice "2024-03-15" None None PRESENT 0.

(** A record of 24 minutes. *)
Definition shortDay : AttendanceRecord :=
  mkRecord "u1-2024-03-14" alice "2024-03-14"
           (Some (utc 2024 3 14 9 0 0)) (Some (utc 2024 3 14 9 24 0))
           PRESENT (2 # 5).

(** One full day of March 2024 for [alice]. *)
Definition marchDay (i : Z) : AttendanceRecord :=
  mkRecord ("u1-2024-03-" ++ pad2 i) alice ("2024-03-" ++ pad2 i)
           (Some (utc 2024 3 i 9 0 0)) (Some (utc 2024 3 i 17 0 0))
           PRESENT 8.



(** Three days of 0.7, 1.4 and 1.4 hours, and three of 0.03, 2.05 and 0.92
    hours. *)
Definition shift (i : Z) (hours : Q) : AttendanceRecord :=
  mkRecord ("u1-2024-03-" ++ pad2 i) alice ("2024-03-" ++ pad2 i)
           None None PRESENT hours.

Definition threeShifts : list AttendanceRecord :=
  [shift 11 (7 # 10); shift 12 (14 # 10); shift 13 (14 # 10)].

Definition threeVisits : list AttendanceRecord :=
  [shift 11 (3 # 100); shift 12 (205 # 100); shift 13 (92 # 100)].

(** Fifteen days with activity, the first to the fifteenth of March. *)
Definition fifteenDays : list AttendanceRecord :=
  map marchDay [1; 2; 3; 4; 5; 6; 7; 8; 9; 10; 11; 12; 13; 14; 15].

(** A manual entry typed at 12:00: arrival at 11:00, no departure. *)
Definition arrivalOnly : EmployeeDashboard.EditForm.t :=
  EmployeeDashboard.EditForm.mk "2024-03-15"
    (Some (utc 2024 3 15 11 0 0)) None.

(** A manual entry for tomorrow whose departure precedes its arrival. *)
Definition tomorrowInverted : EmployeeDashboard.EditForm.t :=
  EmployeeDashboard.EditForm.mk "2024-03-16"
    (Some (utc 2024 3 16 17 0 0)) (Some (utc 2024 3 16 9 0 0)).

(** The same inverted times in a new entry whose date field is empty. *)
Definition undatedInverted : EmployeeDashboard.EditForm.t :=
  EmployeeDashboard.EditForm.mk ""
    (Some (utc 2024 3 16 17 0 0)) (Some (utc 2024 3 16 9 0 0)).

(** New York in winter, five hours west of UTC, at 23:00 of the first of
    January 2024; and an entry for the second of January. *)
Definition newYork : Z := -300.
Definition lateEvening : Z := utc 2024 1 2 4 0 0.
Definition entryForTomorrow : EmployeeDashboard.EditForm.t :=
  EmployeeDashboard.EditForm.mk "2024-01-02" None None.

Definition emptyApp (records : list AttendanceRecord) : App.AppState :=
  App.mkApp records [] [].

(** Instants of the fifteenth of March 2024, UTC. *)
Definition noon : Z := utc 2024 3 15 12 0 0.
Definition afternoon : Z := utc 2024 3 15 14 0 0.
Definition fivePm : Z := utc 2024 3 15 17 0 0.
Definition sixPm : Z := utc 2024 3 15 18 0 0.

(** Today's record edited to leave at 09:00 after arriving at 17:00. *)
Definition invertedToday : EmployeeDashboard.EditForm.t :=
  EmployeeDashboard.EditForm.mk "2024-03-15"
    (Some (utc 2024 3 15 17 0 0)) (Some (utc 2024 3 15 9 0 0)).

(** The manager's clock: noon of the twentieth of March 2024, UTC. *)
Definition march20 : Z := utc 2024 3 20 12 0 0.

(** A store that accepts the call, and one that refuses it. *)
Definition stored : App.Settled := App.Fulfilled None.
Definition refused : App.Settled :=
  App.Fulfilled (Some (App.mkError "permission denied")).

End Scenario.


(** ** The edit modal of [EmployeeDashboard] *)

Module EditModal.

Import JS EmployeeDashboard.

(** [isEditModalOpen], [isCreating], [editingRecord] and [editForm]. *)
Record State : Type := mkState {
  isEditModalOpen : bool;
  isCreating : bool;
  editingRecord : option AttendanceRecord;
  editForm : EditForm.t
}.

(** [new Date(format(parseISO(t), "yyyy-MM-dd'T'HH:mm"))]: the instant a
    timestamp denotes once written to a [datetime-local] field, which keeps
    the minute and drops seconds and milliseconds. *)
Definition minuteOf (t : Z) : Z := t - t mod msPerMinute.

Definition openEditModal (record : AttendanceRecord) : State :=
  mkState true false (Some record)
    (EditForm.mk (date record)
       (option_map minuteOf (checkIn record))
       (option_map minuteOf (checkOut record))).

Definition handleAddNew (tz today : Z) : State :=
  mkState true true None (EditForm.mk (todayStr tz today) None None).

(** What the user can do in the open modal: change a field, or close it
    (the X and Cancel buttons). *)
Inductive FormEvent : Type :=
| ChangeDate (value : string)
| ChangeCheckIn (value : option Z)
| ChangeCheckOut (value : option Z)
| Close.

(** The [onChange] and [onClick] handlers of the modal; the date input is
    [disabled] unless creating, so it then fires no change. *)
Definition onEvent (e : FormEvent) (m : State) : State :=
  match e with
  | ChangeDate value =>
      if isCreating m
      then mkState (isEditModalOpen m) (isCreating m) (editingRecord m)
             (EditForm.mk value (EditForm.checkIn (editForm m))
                (EditForm.checkOut (editForm m)))
      else m
  | ChangeCheckIn value =>
      mkState (isEditModalOpen m) (isCreating m) (editingRecord m)
        (EditForm.mk (EditForm.date (editForm m)) value
           (EditForm.checkOut (editForm m)))
  | ChangeCheckOut value =>
      mkState (isEditModalOpen m) (isCreating m) (editingRecord m)
        (EditForm.mk (EditForm.date (editForm m))
           (EditForm.checkIn (editForm m)) value)
  | Close => mkState false (isCreating m) (editingRecord m) (editForm m)
  end.

Definition onEvents (es : list FormEvent) (m : State) : State :=
  fold_left (fun acc e => onEvent e acc) es m.

(** "Save Changes": [handleSaveEdit] on the state of the modal. *)
Definition save (tz : Z) (uid : string) (records : list AttendanceRecord)
  (now : Z) (m : State) : SaveOutcome :=
  handleSaveEdit tz uid records (isCreating m) (editingRecord m) (editForm m)
    now.

End EditModal.

(** ** [App]: loading the session *)

Inductive Role : Type := MANAGER | EMPLOYEE.

Module User.
Record t : Type := mk {
  id : string;
  name : string;
  email : string;
  role : Role;
  avatar : string;
  department : option string;
  roleTitle : option string
}.
End User.

Module Employee.
Record t : Type := mk {
  id : string;
  name : string;
  role : string;
  department : string;
  avatar : string
}.
End Employee.

(** A row of the [profiles] table, as [fetchAppData] reads it. *)
Module ProfileRow.
Record t : Type := mk {
  id : string;
  name : string;
  role : string;
  department : option string;
  avatar : string
}.
End ProfileRow.

(** A row of the [attendance_records] table. *)
Module DbRecord.
Record t : Type := mk {
  id : string;
  employee_id : string;
  date : string;
  check_in : option Z;
  check_out : option Z;
  status : AttendanceStatus;
  duration_hours : Q
}.
End DbRecord.

(** How an awaited query ends: with its [data] (null or not), or by
    throwing. *)
Inductive QueryReply (A : Type) : Type :=
| Data (data : option A)
| Throws.
Arguments Data {A} data.
Arguments Throws {A}.

(** How the [profiles] query for one user ends. *)
Inductive ProfileReply : Type :=
| ProfileData (data : User.t)
| ProfileError
| ProfileNone
| ProfileThrows.

Inductive AuthView : Type :=
| LANDING
| LOGIN_EMPLOYEE
| LOGIN_MANAGER
| REGISTER_EMPLOYEE
| REGISTER_MANAGER.

Module Load.

Import MonadNotation.
Local Open Scope monad_scope.

(** The state of [App], with the number of profile queries sent. *)
Record AppState : Type := mkApp {
  user : option User.t;
  authView : AuthView;
  attendanceRecords : list AttendanceRecord;
  employees : list Employee.t;
  loading : bool;
  profileQueries : nat
}.

(** The [useState] initial values. *)
Definition initial : AppState := mkApp None LANDING [] [] true 0.

Definition setUser (u : option User.t) : state AppState unit :=
  s <- get ;;
  put (mkApp u (authView s) (attendanceRecords s) (employees s) (loading s)
         (profileQueries s)).

Definition setAttendanceRecords (l : list AttendanceRecord)
  : state AppState unit :=
  s <- get ;;
  put (mkApp (user s) (authView s) l (employees s) (loading s)
         (profileQueries s)).

Definition setEmployees (l : list Employee.t) : state AppState unit :=
  s <- get ;;
  put (mkApp (user s) (authView s) (attendanceRecords s) l (loading s)
         (profileQueries s)).

Definition setLoading (b : bool) : state AppState unit :=
  s <- get ;;
  put (mkApp (user s) (authView s) (attendanceRecords s) (employees s) b
         (profileQueries s)).

Definition queryProfile : state AppState unit :=
  s <- get ;;
  put (mkApp (user s) (authView s) (attendanceRecords s) (employees s)
         (loading s) (S (profileQueries s))).

(** [p.department || 'General']. *)
Definition departmentOf (p : ProfileRow.t) : string :=
  match ProfileRow.department p with
  | Some d => App.orElse d "General"
  | None => "General"
  end.

Definition toEmployee (p : ProfileRow.t) : Employee.t :=
  Employee.mk (ProfileRow.id p) (ProfileRow.name p) (ProfileRow.role p)
    (departmentOf p) (ProfileRow.avatar p).

(** The snake_case row as the camelCase record. *)
Definition toRecord (r : DbRecord.t) : AttendanceRecord :=
  mkRecord (DbRecord.id r) (DbRecord.employee_id r) (DbRecord.date r)
    (DbRecord.check_in r) (DbRecord.check_out r) (DbRecord.status r)
    (DbRecord.duration_hours r).

(** [fetchAppData]: the employees, then the records; a throw skips what
    follows it, and [finally] turns [loading] off. *)
Definition fetchAppData (empReply : QueryReply (list ProfileRow.t))
  (recordReply : QueryReply (list DbRecord.t)) : state AppState unit :=
  match empReply with
  | Throws => ret tt
  | Data empData =>
      match empData with
      | Some rows => setEmployees (map toEmployee rows)
      | None => ret tt
      end ;;
      match recordReply with
      | Throws => ret tt
      | Data (Some rows) => setAttendanceRecords (map toRecord rows)
      | Data None => ret tt
      end
  end ;;
  setLoading false.

Section FetchProfile.

(** How the profile query of each attempt ends, and how the two queries
    of [fetchAppData] end. *)
Variable reply : nat -> ProfileReply.
Variable empReply : QueryReply (list ProfileRow.t).
Variable recordReply : QueryReply (list DbRecord.t).

(** [fetchProfile(userId, retries)], at its attempt number [attempt]; the
    retry runs after its one-second timer. *)
Fixpoint fetchProfile (attempt retries : nat) : state AppState unit :=
  queryProfile ;;
  match reply attempt with
  | ProfileData data =>
      setUser (Some data) ;;
      fetchAppData empReply recordReply
  | _ =>
      match retries with
      | S retries' => fetchProfile (S attempt) retries'
      | O => setLoading false
      end
  end.

(** The earlier [App]: an error response retries, a throw does not, and a
    reply with neither data nor error does nothing. *)
Fixpoint fetchProfile_earlier (attempt retries : nat) : state AppState unit :=
  queryProfile ;;
  match reply attempt with
  | ProfileData data =>
      setUser (Some data) ;;
      fetchAppData empReply recordReply
  | ProfileError =>
      match retries with
      | S retries' => fetchProfile_earlier (S attempt) retries'
      | O => setLoading false
      end
  | ProfileNone => ret tt
  | ProfileThrows =>
      match retries with
      | S _ => ret tt
      | O => setLoading false
      end
  end.

End FetchProfile.

End Load.

(** ** [geminiService]: the figures sent for the report *)

Module Report.

Import JS.

Record EmployeeStat : Type := mkStat {
  name : string;
  role : string;
  presentCount : nat;
  lateCount : nat;
  avgHours : Q
}.

(** The entry of one employee; [avgHours] is the number its text shows. *)
Definition statOf (records : list AttendanceRecord) (emp : Employee.t)
  : EmployeeStat :=
  let empRecords :=
    filter (fun r => String.eqb (employeeId r) (Employee.id emp)) records in
  let presentCount :=
    List.length (filter (fun r => AttendanceStatus_eqb (status r) PRESENT)
                   empRecords) in
  let lateCount :=
    List.length (filter (fun r => AttendanceStatus_eqb (status r) LATE)
                   empRecords) in
  let totalHours := sumDurationHours empRecords in
  mkStat (Employee.name emp) (Employee.role emp) presentCount lateCount
    (if (0 <? List.length empRecords)%nat
     then toFixed 1 (totalHours / inject_Z (Z.of_nat (List.length empRecords)))
     else 0%Q).


End Report.

(** ** Vocabulary of the further properties *)

Module Facts.

Local Open Scope Q_scope.

(** [a] may stand before [b] in the order of [sortDateDesc]. *)
Definition notOlder (a b : AttendanceRecord) : Prop :=
  (compareDateDesc a b <= 0)%Z.

(** Both dates are dates of the calendar and [a] is not earlier than
    [b]. *)
Definition newerOrSame (a b : AttendanceRecord) : Prop :=
  exists ta tb,
    JS.Date_parse (date a) = Some ta /\ JS.Date_parse (date b) = Some tb
    /\ (tb <= ta)%Z.

(** Every date of the list is a date of the calendar. *)
Definition datesParse (l : list AttendanceRecord) : Prop :=
  forall r, In r l -> exists c, JS.parseCivil (date r) = Some c.




(** The form [YYYY-MM-DD] that [types.ts] gives for the [date] of a
    record: ten characters, digits but for the two dashes. *)
Definition isDigit (c : ascii) : bool :=
  match JS.digitVal c with
  | Some _ => true
  | None => false
  end.

Definition plainDate (s : string) : bool :=
  match list_ascii_of_string s with
  | [y1; y2; y3; y4; s1; m1; m2; s2; d1; d2] =>
      forallb isDigit [y1; y2; y3; y4; m1; m2; d1; d2]
      && JS.isDash s1 && JS.isDash s2
  | _ => false
  end.

Definition plainDates (l : list AttendanceRecord) : Prop :=
  forall r, In r l -> plainDate (date r) = true.

(** The [date] of the record is a date of the calendar in the month of
    [tc], or in the month before it. *)
Definition inChosenMonth (selectedMonth : SelectedMonth) (tc : JS.Civil)
  (r : AttendanceRecord) : Prop :=
  exists c,
    JS.parseCivil (date r) = Some c
    /\ match selectedMonth with
       | current => JS.year c = JS.year tc /\ JS.month c = JS.month tc
       | previous => Spec.isPreviousMonthOf c tc
       end.


(** [dailyStats[k]]. *)
Fixpoint pointAt (k : string) (o : ManagerDashboard.DailyStats)
  : option ManagerDashboard.DayPoint :=
  match o with
  | [] => None
  | (k', p) :: o' => if String.eqb k' k then Some p else pointAt k o'
  end.

(** The profile query of no attempt from [attempt] to [attempt + n - 1]
    returns a profile. *)
Definition noProfile (reply : nat -> ProfileReply) (attempt n : nat) : Prop :=
  forall i, (i < n)%nat -> forall data, reply (attempt + i)%nat <> ProfileData data.

(** How many records of the employee [emp] pass [p]. *)
Definition countOf (p : AttendanceRecord -> bool)
  (recs : list AttendanceRecord) (emp : Employee.t) : nat :=
  List.length
    (filter p (filter (fun r => String.eqb (employeeId r) (Employee.id emp))
                 recs)).

(** The test of [todayRecord], as one predicate on the whole set. *)
Definition isToday (tz : Z) (uid : string) (today : Z) (r : AttendanceRecord)
  : bool :=
  String.eqb (employeeId r) uid
  && String.eqb (date r) (EmployeeDashboard.todayStr tz today).

(** The ids of a set are pairwise distinct. *)
Definition uniqueIds (l : list AttendanceRecord) : Prop := NoDup (map id l).


End Facts.
(** ** Rounding *)

Section Rounding.

Local Open Scope Q_scope.

(** The two inequalities that define the floor. *)
Lemma floor_bounds (y : Q) :
  inject_Z (Qfloor y) <= y /\ y < inject_Z (Qfloor y) + 1.
Proof.
  split.
  - apply Qfloor_le.
  - pose proof (Qlt_floor y) as H. now rewrite inject_Z_plus in H.
Qed.

(** A value within half a unit of [x * s] is, divided by [s], within
    [1 / (2 s)] of [x]. *)
Lemma scaled_error (s : Z) (x q : Q) :
  (0 < s)%Z ->
  - (1 # 2) <= q - x * inject_Z s <= 1 # 2 ->
  Qabs (q / inject_Z s - x) <= 1 / inject_Z (2 * s).
Proof.
  intros Hs [Hlo Hhi].
  assert (Hsq : 0 < inject_Z s)
    by (change 0 with (inject_Z 0); now rewrite <- Zlt_Qlt).
  assert (Hinv : 0 < / inject_Z s) by now apply Qinv_lt_0_compat.
  assert (Hne : ~ inject_Z s == 0) by lra.
  setoid_replace (q / inject_Z s - x) with ((q - x * inject_Z s) * / inject_Z s)
    by (field; exact Hne).
  setoid_replace (1 / inject_Z (2 * s)) with ((1 # 2) * / inject_Z s)
    by (rewrite inject_Z_mult; field; exact Hne).
  apply Qabs_Qle_condition. split.
  - setoid_replace (- ((1 # 2) * / inject_Z s)) with ((- (1 # 2)) * / inject_Z s)
      by ring.
    apply Qmult_le_compat_r; [exact Hlo | lra].
  - apply Qmult_le_compat_r; [exact Hhi | lra].
Qed.

(** [toFixed] rounds to the number of decimals it is given. *)
Lemma toFixed_roundedTo (digits : nat) (x : Q) :
  Spec.roundedTo digits x (JS.toFixed digits x).
Proof.
  unfold Spec.roundedTo, JS.toFixed.
  assert (Hs : (0 < 10 ^ Z.of_nat digits)%Z) by (apply Z.pow_pos_nonneg; lia).
  set (s := (10 ^ Z.of_nat digits)%Z) in *. clearbody s.
  assert (Hne : ~ inject_Z s == 0).
  { intros Heq. unfold Qeq in Heq. cbn in Heq. lia. }
  destruct (floor_bounds (Qabs x * inject_Z s + (1 # 2))) as [Hlo Hhi].
  set (n := Qfloor (Qabs x * inject_Z s + (1 # 2))) in *. clearbody n.
  destruct (Qlt_le_dec x 0) as [Hneg | Hpos].
  - exists (- n)%Z. rewrite Qred_correct.
    rewrite (Qabs_neg x) in Hlo, Hhi by lra.
    assert (Heq : - (inject_Z n / inject_Z s) == inject_Z (- n) / inject_Z s)
      by (rewrite inject_Z_opp; field; exact Hne).
    split; [exact Heq |]. rewrite Heq. apply scaled_error; [exact Hs |].
    rewrite inject_Z_opp. split; lra.
  - exists n. rewrite Qred_correct.
    rewrite (Qabs_pos x) in Hlo, Hhi by lra.
    split; [reflexivity |]. apply scaled_error; [exact Hs |]. split; lra.
Qed.

Lemma toFixed_nonneg (digits : nat) (x : Q) : 0 <= x -> 0 <= JS.toFixed digits x.
Proof.
  intros Hx. unfold JS.toFixed.
  destruct (Qlt_le_dec x 0) as [Hneg | _]; [lra |].
  rewrite Qred_correct.
  assert (Hs : (0 < 10 ^ Z.of_nat digits)%Z) by (apply Z.pow_pos_nonneg; lia).
  assert (Hn : (0 <= Qfloor (Qabs x * inject_Z (10 ^ Z.of_nat digits) + (1 # 2)))%Z).
  { change 0%Z with (Qfloor 0). apply Qfloor_resp_le.
    rewrite (Qabs_pos x) by exact Hx.
    assert (0 <= x * inject_Z (10 ^ Z.of_nat digits)).
    { apply Qmult_le_0_compat; [exact Hx |].
      change 0 with (inject_Z 0). rewrite <- Zle_Qle. lia. }
    lra. }
  apply Qle_shift_div_l.
  - change 0 with (inject_Z 0). rewrite <- Zlt_Qlt. exact Hs.
  - rewrite Qmult_0_l. change 0 with (inject_Z 0). rewrite <- Zle_Qle. exact Hn.
Qed.

Lemma roundedTo_zero (digits : nat) : Spec.roundedTo digits 0 0.
Proof.
  exists 0%Z. split.
  - unfold Qdiv. now rewrite Qmult_0_l.
  - apply Qabs_Qle_condition.
    assert (Hs : (0 < 2 * 10 ^ Z.of_nat digits)%Z).
    { assert (0 < 10 ^ Z.of_nat digits)%Z by (apply Z.pow_pos_nonneg; lia). lia. }
    assert (Hq : 0 <= 1 / inject_Z (2 * 10 ^ Z.of_nat digits)).
    { apply Qle_shift_div_l.
      - change 0 with (inject_Z 0). now rewrite <- Zlt_Qlt.
      - rewrite Qmult_0_l. discriminate. }
    split; lra.
Qed.

End Rounding.

(** ** Duration of a record (C1) *)

Section Duration.

Import EmployeeDashboard.
Local Open Scope Q_scope.

Lemma differenceInMinutes_wholeMinutes (ci co : Z) :
  (ci <= co)%Z -> DateFns.differenceInMinutes co ci = Spec.wholeMinutes ci co.
Proof.
  intros H. unfold DateFns.differenceInMinutes, Spec.wholeMinutes, JS.msPerMinute.
  apply Z.quot_div_nonneg; lia.
Qed.

Lemma differenceInMinutes_nonneg (ci co : Z) :
  (ci <= co)%Z -> (0 <= DateFns.differenceInMinutes co ci)%Z.
Proof.
  intros H. rewrite differenceInMinutes_wholeMinutes by exact H.
  unfold Spec.wholeMinutes, JS.msPerMinute. apply Z.div_pos; lia.
Qed.

Lemma minutes_as_hours_nonneg (m : Z) : (0 <= m)%Z -> 0 <= inject_Z m / 60.
Proof.
  intros H. apply Qle_shift_div_l; [reflexivity |].
  rewrite Qmult_0_l. change 0 with (inject_Z 0). now rewrite <- Zle_Qle.
Qed.

(** The early guards of [handleSaveEdit] never save. *)
Lemma saveGuards_not_saved uid records isCreating editingRecord editForm now o :
  saveGuards uid records isCreating editingRecord editForm now = Some o ->
  o = Ignored \/ exists msg, o = Rejected msg.
Proof.
  unfold saveGuards.
  repeat match goal with
         | |- context [if ?b then _ else _] => destruct b
         end; intros H; inversion H; subst; eauto.
Qed.

(** What [handleCheckOut] hands to [onUpdateRecord]. *)
Lemma handleCheckOut_inv tz uid records today now r :
  handleCheckOut tz uid records today now = Some r ->
  exists t,
    todayRecord tz uid records today = Some t
    /\ r = withCheckOut t (Some now)
             (JS.toFixed 2
                (inject_Z (DateFns.differenceInMinutes now
                             (match checkIn t with Some c => c | None => now end))
                 / 60)).
Proof.
  unfold handleCheckOut. destruct (todayRecord tz uid records today) as [t |].
  - intros H. inversion H. exists t. split; reflexivity.
  - discriminate.
Qed.

Lemma handleCheckOut_duration tz uid records today now r :
  handleCheckOut tz uid records today now = Some r ->
  Spec.durationOfWholeMinutes r.
Proof.
  intros H. apply handleCheckOut_inv in H. destruct H as (t & _ & ->).
  unfold Spec.durationOfWholeMinutes. cbn [withCheckOut checkIn checkOut durationHours].
  destruct (checkIn t) as [ci |].
  - intros Hle. rewrite differenceInMinutes_wholeMinutes by exact Hle. split.
    + apply toFixed_roundedTo.
    + apply toFixed_nonneg, minutes_as_hours_nonneg.
      rewrite <- differenceInMinutes_wholeMinutes by exact Hle.
      now apply differenceInMinutes_nonneg.
  - unfold DateFns.differenceInMinutes. rewrite Z.sub_diag. reflexivity.
Qed.

Lemma manualDurationStatus_duration tz ci co d s :
  manualDurationStatus tz ci co = Some (d, s) ->
  match ci, co with
  | Some start_, Some end_ =>
      (start_ <= end_)%Z /\
      Spec.roundedTo 2 (inject_Z (Spec.wholeMinutes start_ end_) / 60) d /\ 0 <= d
  | _, _ => d = 0
  end.
Proof.
  unfold manualDurationStatus.
  destruct ci as [start_ |], co as [end_ |];
    try (intros H; inversion H; reflexivity).
  destruct (Z.ltb_spec end_ start_) as [Hlt | Hle]; [discriminate |].
  intros H. inversion H as [[Hd Hs]]. clear H Hs. split; [exact Hle |].
  rewrite <- differenceInMinutes_wholeMinutes by exact Hle.
  destruct (Z.ltb_spec 0 (DateFns.differenceInMinutes end_ start_)) as [Hpos | Hzero].
  - split.
    + apply toFixed_roundedTo.
    + apply toFixed_nonneg, minutes_as_hours_nonneg. lia.
  - assert (Hm : DateFns.differenceInMinutes end_ start_ = 0%Z).
    { pose proof (differenceInMinutes_nonneg start_ end_ Hle). lia. }
    rewrite Hm. split.
    + exists 0%Z. split; [reflexivity |]. vm_compute. discriminate.
    + discriminate.
Qed.

(** What [handleSaveEdit] hands to [onUpdateRecord]. *)
Lemma handleSaveEdit_inv tz uid records isCreating editingRecord editForm now r :
  handleSaveEdit tz uid records isCreating editingRecord editForm now = Saved r ->
  saveGuards uid records isCreating editingRecord editForm now = None
  /\ employeeId r = uid
  /\ date r = EditForm.date editForm
  /\ checkIn r = EditForm.checkIn editForm
  /\ checkOut r = EditForm.checkOut editForm
  /\ manualDurationStatus tz (EditForm.checkIn editForm) (EditForm.checkOut editForm)
     = Some (durationHours r, status r).
Proof.
  unfold handleSaveEdit.
  destruct (saveGuards uid records isCreating editingRecord editForm now)
    as [early |] eqn:Hg.
  - intros ->. apply saveGuards_not_saved in Hg.
    destruct Hg as [Hg | [msg Hg]]; discriminate.
  - destruct (manualDurationStatus tz (EditForm.checkIn editForm)
                (EditForm.checkOut editForm)) as [[d s] |]; [| discriminate].
    intros H. inversion H. cbn. repeat split; reflexivity.
Qed.

Lemma handleSaveEdit_duration tz uid records isCreating editingRecord editForm now r :
  handleSaveEdit tz uid records isCreating editingRecord editForm now = Saved r ->
  Spec.durationOfWholeMinutes r.
Proof.
  intros H. apply handleSaveEdit_inv in H.
  destruct H as (_ & _ & _ & Hci & Hco & Hm).
  apply manualDurationStatus_duration in Hm.
  unfold Spec.durationOfWholeMinutes. rewrite Hci, Hco.
  destruct (EditForm.checkIn editForm), (EditForm.checkOut editForm);
    try (rewrite Hm; reflexivity).
  intros _. apply Hm.
Qed.

End Duration.

(** C1 (amended).  A record produced by check-out or by a manual entry has
    [durationHours] equal to the whole minutes elapsed between [checkIn]
    and [checkOut] (seconds dropped), expressed in hours and rounded to two
    decimal places, and not negative, when both timestamps are present and
    in order; when a timestamp is absent, [durationHours] is 0. *)
Theorem C1_duration_counts_whole_minutes :
  forall tz uid records today now isCreating editingRecord editForm r,
    EmployeeDashboard.handleCheckOut tz uid records today now = Some r
    \/ EmployeeDashboard.handleSaveEdit tz uid records isCreating editingRecord
         editForm now = EmployeeDashboard.Saved r ->
    Spec.durationOfWholeMinutes r.
Proof.
  intros tz uid records today now isCreating editingRecord editForm r [H | H].
  - eapply handleCheckOut_duration; eassumption.
  - eapply handleSaveEdit_duration; eassumption.
Qed.

(** Check-out at 17:00:29 after a check-in at 09:00:30: 479 whole minutes,
    stored as 7.98 hours. *)
Lemma C1_duration_counts_whole_minutes_witness :
  Spec.roundedTo 2 (inject_Z 479 / 60) (399 # 50) /\ (0 <= 399 # 50)%Q.
Proof.
  refine (C1_duration_counts_whole_minutes 0 Scenario.alice
            [Scenario.checkedIn0900] Scenario.fivePm
            (Scenario.utc 2024 3 15 17 0 29) false None Scenario.arrivalOnly
            (withCheckOut Scenario.checkedIn0900
               (Some (Scenario.utc 2024 3 15 17 0 29)) (399 # 50))
            (or_introl _) _).
  - vm_compute. reflexivity.
  - vm_compute. discriminate.
Defined.

(** C1 (as stated) fails: 7 h 59 min 59 s elapsed round to 8.00 hours, but
    the check-out stores 7.98. *)
Lemma C1_elapsed_time_counterexample :
  exists r,
    EmployeeDashboard.handleCheckOut 0 Scenario.alice [Scenario.checkedIn0900]
      Scenario.fivePm (Scenario.utc 2024 3 15 17 0 29) = Some r
    /\ durationHours r = (399 # 50)%Q
    /\ ~ Spec.durationOfElapsedTime r.
Proof.
  eexists. split; [vm_compute; reflexivity |]. split; [reflexivity |].
  unfold Spec.durationOfElapsedTime. cbn [checkIn checkOut durationHours].
  intros H. destruct H as [[k [_ Habs]] _]; [vm_compute; discriminate |].
  vm_compute in Habs. apply Habs. reflexivity.
Qed.

(** ** Status of a record (C2) *)

Section Status.

Import EmployeeDashboard.

(** Automatic check-in: Late exactly from 10:00 local time on. *)
Lemma handleCheckIn_status tz uid today now :
  (10 <= JS.getHours tz now ->
   status (handleCheckIn tz uid today now) = LATE)
  /\ (JS.getHours tz now < 10 ->
      status (handleCheckIn tz uid today now) = PRESENT).
Proof.
  unfold handleCheckIn. cbn [status].
  destruct (Z.leb_spec 10 (JS.getHours tz now)); split; intros; (reflexivity || lia).
Qed.

(** Manual entry with both times: the same threshold. *)
Lemma handleSaveEdit_status_both tz uid records isCreating editingRecord editForm
  now r ci co :
  handleSaveEdit tz uid records isCreating editingRecord editForm now = Saved r ->
  EditForm.checkIn editForm = Some ci ->
  EditForm.checkOut editForm = Some co ->
  status r = if 10 <=? JS.getHours tz ci then LATE else PRESENT.
Proof.
  intros H Hci Hco. apply handleSaveEdit_inv in H.
  destruct H as (_ & _ & _ & _ & _ & Hm). rewrite Hci, Hco in Hm.
  unfold manualDurationStatus in Hm.
  destruct (co <? ci); [discriminate |]. now inversion Hm.
Qed.

(** Manual entry with a time missing: always Present. *)
Lemma handleSaveEdit_status_partial tz uid records isCreating editingRecord
  editForm now r :
  handleSaveEdit tz uid records isCreating editingRecord editForm now = Saved r ->
  EditForm.checkIn editForm = None \/ EditForm.checkOut editForm = None ->
  status r = PRESENT.
Proof.
  intros H Hnone. apply handleSaveEdit_inv in H.
  destruct H as (_ & _ & _ & _ & _ & Hm).
  unfold manualDurationStatus in Hm.
  destruct (EditForm.checkIn editForm), (EditForm.checkOut editForm);
    try (now inversion Hm).
  destruct Hnone; discriminate.
Qed.

End Status.

(** C2 (the code at the failing input).  A manual entry with an arrival at
    11:00 local time and no departure is saved with status Present, where
    an automatic check-in at the same instant is Late. *)
Theorem C2_manual_arrival_without_departure_is_present :
  exists r,
    EmployeeDashboard.handleSaveEdit 0 Scenario.alice [] true None
      Scenario.arrivalOnly (Scenario.utc 2024 3 15 12 0 0)
    = EmployeeDashboard.Saved r
    /\ checkIn r = Some (Scenario.utc 2024 3 15 11 0 0)
    /\ checkOut r = None
    /\ JS.getHours 0 (Scenario.utc 2024 3 15 11 0 0) = 11
    /\ status r = PRESENT
    /\ status (EmployeeDashboard.handleCheckIn 0 Scenario.alice
                 (Scenario.utc 2024 3 15 11 0 0)
                 (Scenario.utc 2024 3 15 11 0 0)) = LATE.
Proof.
  eexists. repeat split; vm_compute; reflexivity.
Qed.

(** ** Check-in and check-out on today's record (C3, C9) *)

Section TodayRecord.

Import EmployeeDashboard.

(** A record of the employee for today makes [todayRecord] non-null. *)
Lemma todayRecord_found tz uid records today :
  Spec.hasRecordFor records uid (todayStr tz today) ->
  exists t, todayRecord tz uid records today = Some t.
Proof.
  intros (r & Hin & Hemp & Hdate). unfold todayRecord, find_.
  destruct (find (fun r0 => String.eqb (date r0) (todayStr tz today))
              (myRecords uid records)) as [t |] eqn:Hfind.
  - now exists t.
  - exfalso.
    assert (Hmine : In r (myRecords uid records)).
    { unfold myRecords. apply filter_In. split; [exact Hin |].
      rewrite Hemp. apply String.eqb_refl. }
    pose proof (find_none _ _ Hfind r Hmine) as Hno. cbv beta in Hno.
    rewrite Hdate, String.eqb_refl in Hno. discriminate.
Qed.

(** [todayRecord] is a record of the set, of this employee, for today. *)
Lemma todayRecord_spec tz uid records today t :
  todayRecord tz uid records today = Some t ->
  In t records /\ employeeId t = uid /\ date t = todayStr tz today.
Proof.
  unfold todayRecord, find_. intros H. apply find_some in H.
  destruct H as [Hin Hdate]. unfold myRecords in Hin.
  apply filter_In in Hin. destruct Hin as [Hin Hemp].
  repeat split; [exact Hin | now apply String.eqb_eq | now apply String.eqb_eq].
Qed.

(** Check-out on a record without [checkIn]: no failure, the record leaves
    with [checkOut = now] and a duration of zero. *)
Lemma handleCheckOut_without_checkIn tz uid records today now t :
  todayRecord tz uid records today = Some t ->
  checkIn t = None ->
  handleCheckOut tz uid records today now = Some (withCheckOut t (Some now) 0).
Proof.
  intros Ht Hci. unfold handleCheckOut. rewrite Ht, Hci.
  unfold DateFns.differenceInMinutes. rewrite Z.sub_diag. reflexivity.
Qed.

End TodayRecord.

(** C3 (amended).  When the local set already holds a record of the
    employee for today, the dashboard does not offer check-in.  With [t]
    today's record: while [t] has no [checkOut] the control of the card is
    the check-out button, and a click on it hands over [t] with [checkOut]
    set to the instant of the click, its id, employee, date, check-in time
    and status kept; once [t] has a [checkOut] the control is the completed
    badge, and a click hands over nothing.  No duplicate-record error
    exists. *)
Theorem C3_checkin_not_offered_when_today_has_a_record :
  forall tz uid records today,
    Spec.hasRecordFor records uid (EmployeeDashboard.todayStr tz today) ->
    exists t,
      EmployeeDashboard.todayRecord tz uid records today = Some t
      /\ In t records /\ employeeId t = uid
      /\ date t = EmployeeDashboard.todayStr tz today
      /\ EmployeeDashboard.todayControl tz uid records today
         <> EmployeeDashboard.CheckInButton
      /\ (checkOut t = None ->
          EmployeeDashboard.todayControl tz uid records today
          = EmployeeDashboard.CheckOutButton
          /\ forall now,
               exists r',
                 EmployeeDashboard.clickTodayControl tz uid records today now
                 = Some r'
                 /\ checkOut r' = Some now
                 /\ id r' = id t /\ employeeId r' = employeeId t
                 /\ date r' = date t /\ checkIn r' = checkIn t
                 /\ status r' = status t)
      /\ (checkOut t <> None ->
          EmployeeDashboard.todayControl tz uid records today
          = EmployeeDashboard.CompletedBadge
          /\ forall now,
               EmployeeDashboard.clickTodayControl tz uid records today now
               = None).
Proof.
  intros tz uid records today Hhas.
  destruct (todayRecord_found tz uid records today Hhas) as [t Ht].
  destruct (todayRecord_spec tz uid records today t Ht) as (Hin & Hemp & Hdate).
  exists t. split; [exact Ht |]. split; [exact Hin |]. split; [exact Hemp |].
  split; [exact Hdate |].
  unfold EmployeeDashboard.clickTodayControl, EmployeeDashboard.todayControl.
  rewrite Ht. split; [| split].
  - destruct (EmployeeDashboard.isNull (checkOut t)); discriminate.
  - intros Hco. rewrite Hco. cbn [EmployeeDashboard.isNull].
    split; [reflexivity |]. intros now.
    unfold EmployeeDashboard.handleCheckOut. rewrite Ht.
    eexists. split; [reflexivity |]. cbn. repeat split.
  - intros Hco. destruct (checkOut t) as [co |]; [| congruence].
    cbn [EmployeeDashboard.isNull]. split; reflexivity.
Qed.

(** A late arrival at 10:30, not checked out: at 14:00 the card shows the
    check-out button. *)
Lemma C3_checkin_not_offered_when_today_has_a_record_witness :
  EmployeeDashboard.todayControl 0 Scenario.alice [Scenario.lateArrival]
    Scenario.afternoon
  = EmployeeDashboard.CheckOutButton.
Proof.
  destruct (C3_checkin_not_offered_when_today_has_a_record 0 Scenario.alice
              [Scenario.lateArrival] Scenario.afternoon)
    as (t & Ht & _ & _ & _ & _ & Hopen & _).
  - exists Scenario.lateArrival. repeat split. left. reflexivity.
  - apply Hopen. vm_compute in Ht. now injection Ht as <-.
Defined.

(** C3 (as stated) fails on the handler: [handleCheckIn], run at 14:00 on a
    set that holds the 10:30 check-in of the day, shows no alert and
    replaces that record by a check-in at 14:00. *)
Lemma C3_second_checkin_counterexample :
  ~ Spec.secondCheckInIsRejected 0 Scenario.alice Scenario.afternoon
      Scenario.afternoon Scenario.stored
      (Scenario.emptyApp [Scenario.lateArrival]).
Proof.
  intros Hclaim. destruct Hclaim as [Hsame _].
  - exists Scenario.lateArrival.
    split; [left; reflexivity |]. split; [reflexivity |].
    split; [reflexivity | discriminate].
  - vm_compute in Hsame. discriminate.
Qed.

(** C9 (amended).  Check-out on a record of today whose [checkIn] is null
    does not fail: it hands over that record with [checkOut] set to the
    current instant and [durationHours] 0. *)
Theorem C9_checkout_without_checkin_sets_checkout :
  forall tz uid records today now t,
    EmployeeDashboard.todayRecord tz uid records today = Some t ->
    checkIn t = None ->
    exists r,
      EmployeeDashboard.handleCheckOut tz uid records today now = Some r
      /\ checkOut r = Some now
      /\ durationHours r = 0%Q
      /\ checkIn r = None.
Proof.
  intros tz uid records today now t Ht Hci.
  exists (withCheckOut t (Some now) 0). split.
  - now apply handleCheckOut_without_checkIn.
  - cbn. repeat split. exact Hci.
Qed.

(** The record entered by hand without times, checked out at 17:00. *)
Lemma C9_checkout_without_checkin_sets_checkout_witness :
  exists r,
    EmployeeDashboard.handleCheckOut 0 Scenario.alice [Scenario.emptyToday]
      Scenario.fivePm Scenario.fivePm = Some r
    /\ checkOut r = Some Scenario.fivePm
    /\ durationHours r = 0%Q
    /\ checkIn r = None.
Proof.
  apply (C9_checkout_without_checkin_sets_checkout 0 Scenario.alice
           [Scenario.emptyToday] Scenario.fivePm Scenario.fivePm
           Scenario.emptyToday).
  - reflexivity.
  - reflexivity.
Defined.

(** C9 (as stated) fails: the record entered by hand without times is
    today's record, its [checkIn] is null, and a check-out at 17:00 hands
    it over with [checkOut] set. *)
Lemma C9_checkout_without_checkin_counterexample :
  ~ Spec.checkOutFailsWithoutCheckIn 0 Scenario.alice [Scenario.emptyToday]
      Scenario.fivePm Scenario.fivePm.
Proof.
  intros Hclaim.
  specialize (Hclaim Scenario.emptyToday eq_refl eq_refl).
  vm_compute in Hclaim. discriminate.
Qed.

(** ** Rejected edits leave the local set alone (C4) *)

Section Rejection.

Import EmployeeDashboard.

Lemma manualDurationStatus_inverted tz ci co :
  co < ci -> manualDurationStatus tz (Some ci) (Some co) = None.
Proof.
  intros H. unfold manualDurationStatus.
  destruct (Z.ltb_spec co ci); [reflexivity | lia].
Qed.

(** One run of a click on "Save Changes". *)
Lemma clickSaveEdit_run tz uid now res isCreating editingRecord editForm s :
  execState (App.clickSaveEdit tz uid now res isCreating editingRecord editForm) s
  = match handleSaveEdit tz uid (App.attendanceRecords s) isCreating
            editingRecord editForm now with
    | Saved newRecord => execState (App.handleUpdateRecord newRecord res) s
    | Rejected msg => execState (App.alert msg) s
    | Ignored => s
    end.
Proof.
  unfold App.clickSaveEdit, execState. cbn.
  destruct (handleSaveEdit tz uid (App.attendanceRecords s) isCreating
              editingRecord editForm now); reflexivity.
Qed.

(** A click on "Save Changes" whose outcome is not [Saved] changes neither
    the local set nor the calls sent to the store. *)
Lemma clickSaveEdit_not_saved tz uid now res isCreating editingRecord editForm s :
  (forall r, handleSaveEdit tz uid (App.attendanceRecords s) isCreating
               editingRecord editForm now <> Saved r) ->
  let s' := execState (App.clickSaveEdit tz uid now res isCreating editingRecord
                         editForm) s in
  App.attendanceRecords s' = App.attendanceRecords s
  /\ App.requests s' = App.requests s.
Proof.
  intros Hns. rewrite clickSaveEdit_run.
  destruct (handleSaveEdit tz uid (App.attendanceRecords s) isCreating
              editingRecord editForm now) as [| msg | r] eqn:Ho.
  - split; reflexivity.
  - split; reflexivity.
  - exfalso. now apply (Hns r).
Qed.

End Rejection.

(** C4.  A manual entry with both timestamps supplied and [checkOut]
    before [checkIn] is rejected before any optimistic change.  Once the
    entry has passed the validations that run first (an edit target, a date
    when creating, a date not in the future, no record of that id when
    creating), the rejection is the time-range alert, shown once.  In every
    case nothing is saved: the local set and the calls sent to the store
    are what they were, and no clamped record is produced; an entry stopped
    by an earlier validation gets the outcome of that validation. *)
Theorem C4_inverted_time_range_is_never_saved :
  forall tz uid now res isCreating editingRecord editForm s,
    let records := App.attendanceRecords s in
    let outcome :=
      EmployeeDashboard.handleSaveEdit tz uid records isCreating editingRecord
        editForm now in
    let s' :=
      execState (App.clickSaveEdit tz uid now res isCreating editingRecord
                   editForm) s in
    (EmployeeDashboard.saveGuards uid records isCreating editingRecord
       editForm now = None ->
     Spec.invertedRangeGetsTimeRangeError tz uid records isCreating
       editingRecord editForm now)
    /\ forall ci co,
         EmployeeDashboard.EditForm.checkIn editForm = Some ci ->
         EmployeeDashboard.EditForm.checkOut editForm = Some co ->
         co < ci ->
         (forall r, outcome <> EmployeeDashboard.Saved r)
         /\ App.attendanceRecords s' = App.attendanceRecords s
         /\ App.requests s' = App.requests s
         /\ (EmployeeDashboard.saveGuards uid records isCreating editingRecord
               editForm now = None ->
             outcome = EmployeeDashboard.Rejected EmployeeDashboard.alertTimeRange
             /\ App.alerts s'
                = (App.alerts s ++ [EmployeeDashboard.alertTimeRange])%list)
         /\ outcome
            = match EmployeeDashboard.saveGuards uid records isCreating
                      editingRecord editForm now with
              | Some early => early
              | None =>
                  EmployeeDashboard.Rejected EmployeeDashboard.alertTimeRange
              end.
Proof.
  intros tz uid now res isCreating editingRecord editForm s. cbv zeta.
  assert (Hout : forall ci co,
    EmployeeDashboard.EditForm.checkIn editForm = Some ci ->
    EmployeeDashboard.EditForm.checkOut editForm = Some co ->
    co < ci ->
    EmployeeDashboard.handleSaveEdit tz uid (App.attendanceRecords s)
      isCreating editingRecord editForm now
    = match EmployeeDashboard.saveGuards uid (App.attendanceRecords s)
              isCreating editingRecord editForm now with
      | Some early => early
      | None => EmployeeDashboard.Rejected EmployeeDashboard.alertTimeRange
      end).
  { intros ci co Hci Hco Hlt. unfold EmployeeDashboard.handleSaveEdit.
    rewrite Hci, Hco, (manualDurationStatus_inverted tz ci co Hlt). reflexivity. }
  split.
  - intros Hguards ci co Hci Hco Hlt.
    rewrite (Hout ci co Hci Hco Hlt), Hguards. reflexivity.
  - intros ci co Hci Hco Hlt.
    assert (Hns : forall r,
      EmployeeDashboard.handleSaveEdit tz uid (App.attendanceRecords s)
        isCreating editingRecord editForm now <> EmployeeDashboard.Saved r).
    { intros r Hr. apply handleSaveEdit_inv in Hr.
      destruct Hr as (_ & _ & _ & _ & _ & Hm).
      rewrite Hci, Hco, (manualDurationStatus_inverted tz ci co Hlt) in Hm.
      discriminate. }
    split; [exact Hns |].
    destruct (clickSaveEdit_not_saved tz uid now res isCreating editingRecord
                editForm s Hns) as [Hrec Hreq].
    split; [exact Hrec |]. split; [exact Hreq |].
    split; [| exact (Hout ci co Hci Hco Hlt)].
    intros Hguards.
    assert (Hrej :
      EmployeeDashboard.handleSaveEdit tz uid (App.attendanceRecords s)
        isCreating editingRecord editForm now
      = EmployeeDashboard.Rejected EmployeeDashboard.alertTimeRange)
      by (rewrite (Hout ci co Hci Hco Hlt), Hguards; reflexivity).
    split; [exact Hrej |].
    rewrite clickSaveEdit_run, Hrej. reflexivity.
Qed.

(** Today's record edited at 18:00 to leave at 09:00 after arriving at
    17:00: the time-range alert, and the set is unchanged. *)
Lemma C4_inverted_time_range_is_never_saved_witness :
  EmployeeDashboard.handleSaveEdit 0 Scenario.alice [Scenario.lateArrival]
    false (Some Scenario.lateArrival) Scenario.invertedToday Scenario.sixPm
  = EmployeeDashboard.Rejected EmployeeDashboard.alertTimeRange
  /\ App.attendanceRecords
       (execState (App.clickSaveEdit 0 Scenario.alice Scenario.sixPm
                     Scenario.stored false (Some Scenario.lateArrival)
                     Scenario.invertedToday)
          (Scenario.emptyApp [Scenario.lateArrival]))
     = [Scenario.lateArrival]
  /\ App.alerts
       (execState (App.clickSaveEdit 0 Scenario.alice Scenario.sixPm
                     Scenario.stored false (Some Scenario.lateArrival)
                     Scenario.invertedToday)
          (Scenario.emptyApp [Scenario.lateArrival]))
     = [EmployeeDashboard.alertTimeRange].
Proof.
  destruct (C4_inverted_time_range_is_never_saved 0 Scenario.alice
              Scenario.sixPm Scenario.stored false (Some Scenario.lateArrival)
              Scenario.invertedToday
              (Scenario.emptyApp [Scenario.lateArrival])) as [_ Hall].
  destruct (Hall (Scenario.utc 2024 3 15 17 0 0) (Scenario.utc 2024 3 15 9 0 0)
              eq_refl eq_refl eq_refl) as (_ & Hrec & _ & Halert & _).
  destruct (Halert eq_refl) as [Hout Hshown].
  split; [exact Hout |]. split; [exact Hrec | exact Hshown].
Defined.

(** An inverted entry that an earlier validation stops: at noon of the
    15th, a new entry for the 16th gets the future-date alert, and a new
    entry without a date is dropped by the silent [return]. *)
Lemma inverted_entry_stopped_by_an_earlier_validation :
  EmployeeDashboard.handleSaveEdit 0 Scenario.alice [] true None
    Scenario.tomorrowInverted Scenario.noon
  = EmployeeDashboard.Rejected EmployeeDashboard.alertFutureDate
  /\ EmployeeDashboard.handleSaveEdit 0 Scenario.alice [] true None
       Scenario.undatedInverted Scenario.noon
     = EmployeeDashboard.Ignored.
Proof. split; reflexivity. Qed.

(** ** Optimistic update and delete (C5, C10) *)

Section Reconciliation.

Import App.

Lemma applyUpdate_In (updatedRecord : AttendanceRecord) prevRecords :
  In updatedRecord (applyUpdate updatedRecord prevRecords).
Proof.
  unfold applyUpdate, find_.
  destruct (find (fun r => String.eqb (id r) (id updatedRecord)) prevRecords)
    as [x |] eqn:Hfind.
  - apply find_some in Hfind. destruct Hfind as [Hin Hid].
    apply in_map_iff. exists x. cbn in Hid. rewrite Hid. split; [reflexivity | exact Hin].
  - apply in_or_app. right. left. reflexivity.
Qed.

(** The records of another id are the ones of before. *)
Lemma applyUpdate_others (updatedRecord : AttendanceRecord) prevRecords r :
  id r <> id updatedRecord ->
  (In r (applyUpdate updatedRecord prevRecords) <-> In r prevRecords).
Proof.
  intros Hid. unfold applyUpdate, find_.
  destruct (find (fun r0 => String.eqb (id r0) (id updatedRecord)) prevRecords).
  - rewrite in_map_iff. split.
    + intros (x & Hx & Hin).
      destruct (String.eqb_spec (id x) (id updatedRecord)); subst; [tauto | exact Hin].
    + intros Hin. exists r.
      destruct (String.eqb_spec (id r) (id updatedRecord)); [tauto | now split].
  - rewrite in_app_iff. split; [| tauto].
    intros [Hin | [Heq | []]]; [exact Hin | subst; tauto].
Qed.

Lemma applyDelete_In recordId prevRecords r :
  In r (applyDelete recordId prevRecords) <-> In r prevRecords /\ id r <> recordId.
Proof.
  unfold applyDelete. rewrite filter_In.
  destruct (String.eqb_spec (id r) recordId); cbn; intuition congruence.
Qed.

Lemma applyDelete_removed recordId prevRecords :
  Spec.RemovedById recordId prevRecords (applyDelete recordId prevRecords).
Proof.
  induction prevRecords as [| r l IH]; cbn.
  - constructor.
  - destruct (String.eqb_spec (id r) recordId) as [Heq | Hne]; cbn.
    + now apply Spec.removed_drop.
    + now apply Spec.removed_keep.
Qed.

Lemma applyDelete_absent recordId prevRecords :
  (forall r, In r prevRecords -> id r <> recordId) ->
  applyDelete recordId prevRecords = prevRecords.
Proof.
  induction prevRecords as [| r l IH]; intros Habs; cbn; [reflexivity |].
  destruct (String.eqb_spec (id r) recordId) as [Heq | Hne]; cbn.
  - exfalso. apply (Habs r); [now left | exact Heq].
  - f_equal. apply IH. intros x Hx. apply Habs. now right.
Qed.

Lemma applyDelete_idempotent recordId prevRecords :
  applyDelete recordId (applyDelete recordId prevRecords)
  = applyDelete recordId prevRecords.
Proof.
  apply applyDelete_absent. intros r Hr. now apply applyDelete_In in Hr.
Qed.

End Reconciliation.

(** C5.  A mutation reaches the local set before its call to the store
    completes: once [handleUpdateRecord] has sent the upsert, the mutated
    record is in the set and the records of other ids are those of before;
    once [handleDeleteRecord] has sent the delete, the set is the one of
    before without the records of that id, every other record kept in
    place.  However the call ends, the set stays as the optimistic step
    left it (no rollback) and no further call is sent (no retry).  A call
    that fails, by an error response or by throwing, is surfaced: one alert
    is shown and the handler completes, except for a delete whose call
    throws [null] or [undefined], where the read of [error.message] in the
    [catch] throws, no alert is shown and the handler itself rejects. *)
Theorem C5_optimistic_mutation_survives_failed_persistence :
  forall (updatedRecord : AttendanceRecord) (recordId : string)
         (res : App.Settled) (s : App.AppState),
    let u1 := execState (App.handleUpdateRecord_send updatedRecord) s in
    let u2 := execState (App.handleUpdateRecord updatedRecord res) s in
    let d1 := execState (App.handleDeleteRecord_send recordId) s in
    let d2 := execState (App.handleDeleteRecord recordId res) s in
    (In updatedRecord (App.attendanceRecords u1)
     /\ (forall r, id r <> id updatedRecord ->
                   (In r (App.attendanceRecords u1) <-> In r (App.attendanceRecords s)))
     /\ App.requests u1 = App.requests s ++ [App.Upsert updatedRecord]
     /\ App.alerts u1 = App.alerts s)
    /\ (u2 = execState (App.handleUpdateRecord_settle res) u1
        /\ App.attendanceRecords u2 = App.attendanceRecords u1
        /\ In updatedRecord (App.attendanceRecords u2)
        /\ (forall r, id r <> id updatedRecord ->
                      (In r (App.attendanceRecords u2)
                       <-> In r (App.attendanceRecords s)))
        /\ App.requests u2 = App.requests s ++ [App.Upsert updatedRecord]
        /\ match res with
           | App.Fulfilled None => App.alerts u2 = App.alerts s
           | _ => exists msg, App.alerts u2 = App.alerts s ++ [msg]
           end)
    /\ (App.attendanceRecords d1
        = filter (fun r => negb (String.eqb (id r) recordId))
            (App.attendanceRecords s)
        /\ (forall r, In r (App.attendanceRecords d1)
                      <-> In r (App.attendanceRecords s) /\ id r <> recordId)
        /\ Spec.RemovedById recordId (App.attendanceRecords s)
             (App.attendanceRecords d1)
        /\ App.requests d1 = App.requests s ++ [App.DeleteById recordId]
        /\ App.alerts d1 = App.alerts s)
    /\ (d2 = execState (App.handleDeleteRecord_settle res) d1
        /\ App.attendanceRecords d2 = App.attendanceRecords d1
        /\ App.requests d2 = App.requests s ++ [App.DeleteById recordId]
        /\ match res with
           | App.Fulfilled None =>
               App.alerts d2 = App.alerts s
               /\ evalState (App.handleDeleteRecord recordId res) s
                  = App.Resolved
           | App.Failed App.ThrownNullish =>
               App.alerts d2 = App.alerts s
               /\ evalState (App.handleDeleteRecord recordId res) s
                  = App.RejectedTypeError
           | _ =>
               (exists msg, App.alerts d2 = App.alerts s ++ [msg])
               /\ evalState (App.handleDeleteRecord recordId res) s
                  = App.Resolved
           end).
Proof.
  intros updatedRecord recordId res s. cbv zeta.
  split; [| split; [| split]].
  - split; [apply applyUpdate_In |]. split; [| split; reflexivity].
    intros r Hr. cbn. now apply applyUpdate_others.
  - split; [reflexivity |].
    split; [destruct res as [[e |] | t]; reflexivity |].
    split; [destruct res as [[e |] | t]; cbn; apply applyUpdate_In |].
    split; [destruct res as [[e |] | t]; intros r Hr; cbn;
            now apply applyUpdate_others |].
    split; [destruct res as [[e |] | t]; reflexivity |].
    destruct res as [[e |] | t]; cbn; eauto.
  - split; [reflexivity |].
    split; [intros r; cbn; apply applyDelete_In |].
    split; [cbn; apply applyDelete_removed |].
    split; reflexivity.
  - split; [destruct res as [[e |] | [m | m | |]]; reflexivity |].
    split; [destruct res as [[e |] | [m | m | |]]; reflexivity |].
    split; [destruct res as [[e |] | [m | m | |]]; reflexivity |].
    destruct res as [[e |] | [m | m | |]]; cbn; eauto.
Qed.

(** A check-in whose upsert is refused by the store: the record is in the
    local set, one call was sent, one alert is shown. *)
Lemma C5_optimistic_mutation_survives_failed_persistence_witness :
  In Scenario.lateArrival
    (App.attendanceRecords
       (execState (App.handleUpdateRecord Scenario.lateArrival Scenario.refused)
          (Scenario.emptyApp [])))
  /\ App.requests
       (execState (App.handleUpdateRecord Scenario.lateArrival Scenario.refused)
          (Scenario.emptyApp []))
     = [App.Upsert Scenario.lateArrival]
  /\ exists msg,
       App.alerts
         (execState (App.handleUpdateRecord Scenario.lateArrival Scenario.refused)
            (Scenario.emptyApp []))
       = [msg].
Proof.
  destruct (C5_optimistic_mutation_survives_failed_persistence
              Scenario.lateArrival "u1-2024-03-15" Scenario.refused
              (Scenario.emptyApp []))
    as (_ & (_ & _ & Hin & _ & Hreq & Halert) & _).
  split; [exact Hin |]. split; [exact Hreq | exact Halert].
Defined.

(** C10.  The optimistic delete removes exactly the records whose id is the
    given one and keeps every other record in place; on a set without that
    id it returns the set unchanged, and shows no alert when the store
    accepts the call; deleting twice is deleting once. *)
Theorem C10_optimistic_delete_removes_exactly_the_id :
  forall (recordId : string) (prevRecords : list AttendanceRecord),
    Spec.RemovedById recordId prevRecords (App.applyDelete recordId prevRecords)
    /\ (forall r, In r (App.applyDelete recordId prevRecords)
                  <-> In r prevRecords /\ id r <> recordId)
    /\ ((forall r, In r prevRecords -> id r <> recordId) ->
        App.applyDelete recordId prevRecords = prevRecords)
    /\ App.applyDelete recordId (App.applyDelete recordId prevRecords)
       = App.applyDelete recordId prevRecords
    /\ (forall res s,
          App.attendanceRecords (execState (App.handleDeleteRecord recordId res) s)
          = App.applyDelete recordId (App.attendanceRecords s))
    /\ (forall s,
          App.alerts (execState (App.handleDeleteRecord recordId
                                   (App.Fulfilled None)) s)
          = App.alerts s).
Proof.
  intros recordId prevRecords.
  split; [apply applyDelete_removed |].
  split; [intros r; apply applyDelete_In |].
  split; [apply applyDelete_absent |].
  split; [apply applyDelete_idempotent |].
  split.
  - intros res s. destruct res as [[e |] | [m | m | |]]; reflexivity.
  - intros s. reflexivity.
Qed.

(** Deleting the record of the 14th from a set that holds only the record
    of the 15th changes nothing. *)
Lemma C10_optimistic_delete_removes_exactly_the_id_witness :
  App.applyDelete "u1-2024-03-14" [Scenario.lateArrival] = [Scenario.lateArrival].
Proof.
  destruct (C10_optimistic_delete_removes_exactly_the_id "u1-2024-03-14"
              [Scenario.lateArrival]) as (_ & _ & Habsent & _).
  apply Habsent. intros r [<- | []]. cbn. discriminate.
Defined.

(** ** Binary64 rounding *)

Section Binary64.

Import Float64.

Local Open Scope Q_scope.

Lemma pow2_pos e : 0 < pow2 e.
Proof. apply Qpower_0_lt. reflexivity. Qed.

Lemma pow2_plus a b : pow2 (a + b) == pow2 a * pow2 b.
Proof. apply Qpower_plus. discriminate. Qed.

Lemma pow2_le a b : (a <= b)%Z -> pow2 a <= pow2 b.
Proof. intros H. apply Qpower_le_compat_l; [exact H | discriminate]. Qed.

Lemma pow2_lt a b : (a < b)%Z -> pow2 a < pow2 b.
Proof. intros H. apply Qpower_lt_compat_l; [exact H | reflexivity]. Qed.

Lemma pow2_Z e : (0 <= e)%Z -> pow2 e == inject_Z (2 ^ e).
Proof. intros H. unfold pow2. now rewrite Zpower_Qpower. Qed.

Lemma pow2_minus a b : pow2 (a - b) == pow2 a / pow2 b.
Proof. apply Qpower_minus. discriminate. Qed.

(** The bounds of [Z.log2], for a fraction. *)
Lemma ilog2_candidate (n : Z) (d : positive) :
  (0 < n)%Z ->
  let l := (Z.log2 n - Z.log2 (Zpos d))%Z in
  pow2 (l - 1) <= n # d /\ n # d < pow2 (l + 1).
Proof.
  intros Hn l.
  destruct (Z.log2_spec n Hn) as [Hn1 Hn2].
  destruct (Z.log2_spec (Zpos d) (Pos2Z.is_pos d)) as [Hd1 Hd2].
  pose proof (Z.log2_nonneg n) as Ha. pose proof (Z.log2_nonneg (Zpos d)) as Hb.
  set (a := Z.log2 n) in *. set (b := Z.log2 (Zpos d)) in *.
  clearbody a b.
  assert (HA : (0 < 2 ^ a)%Z) by (apply Z.pow_pos_nonneg; lia).
  assert (HB : (0 < 2 ^ b)%Z) by (apply Z.pow_pos_nonneg; lia).
  assert (HA' : (2 ^ Z.succ a = 2 * 2 ^ a)%Z) by (apply Z.pow_succ_r; lia).
  assert (HB' : (2 ^ Z.succ b = 2 * 2 ^ b)%Z) by (apply Z.pow_succ_r; lia).
  split.
  - replace (l - 1)%Z with (a - Z.succ b)%Z by (unfold l; lia).
    rewrite pow2_minus, !pow2_Z by lia.
    apply Qle_shift_div_r.
    + change 0 with (inject_Z 0). rewrite <- Zlt_Qlt. lia.
    + unfold Qle, Qmult, inject_Z. cbn [Qnum Qden].
      rewrite HB', Pos.mul_1_r, Z.mul_1_r.
      generalize dependent (2 ^ a)%Z. generalize dependent (2 ^ b)%Z.
      intros. nia.
  - replace (l + 1)%Z with (Z.succ a - b)%Z by (unfold l; lia).
    rewrite pow2_minus, !pow2_Z by lia.
    apply Qlt_shift_div_l.
    + change 0 with (inject_Z 0). rewrite <- Zlt_Qlt. lia.
    + unfold Qlt, Qmult, inject_Z. cbn [Qnum Qden].
      rewrite HA', Pos.mul_1_r, Z.mul_1_r.
      generalize dependent (2 ^ a)%Z. generalize dependent (2 ^ b)%Z.
      intros. nia.
Qed.

Lemma ilog2_spec x : 0 < x -> pow2 (ilog2 x) <= x /\ x < pow2 (ilog2 x + 1).
Proof.
  intros Hx. destruct x as [n d].
  assert (Hn : (0 < n)%Z) by (unfold Qlt in Hx; cbn in Hx; lia).
  destruct (ilog2_candidate n d Hn) as [Hlo Hhi]. cbv zeta in Hlo, Hhi.
  unfold ilog2. cbn [Qnum Qden].
  set (l := (Z.log2 n - Z.log2 (Zpos d))%Z) in *.
  destruct (Qle_bool (pow2 l) (n # d)) eqn:Hb.
  - apply Qle_bool_iff in Hb. split; assumption.
  - split; [exact Hlo |].
    replace (l - 1 + 1)%Z with l by lia.
    apply Qnot_le_lt. intros Hle. apply Qle_bool_iff in Hle. congruence.
Qed.

Lemma ilog2_le x L : 0 < x -> x < pow2 (L + 1) -> (ilog2 x <= L)%Z.
Proof.
  intros Hx Hlt. destruct (ilog2_spec x Hx) as [Hlo _].
  assert (H : pow2 (ilog2 x) < pow2 (L + 1)) by (eapply Qle_lt_trans; eassumption).
  apply Qpower_lt_compat_l_inv in H; [lia | reflexivity].
Qed.

Lemma ilog2_ge x L : 0 < x -> pow2 L <= x -> (L <= ilog2 x)%Z.
Proof.
  intros Hx Hle. destruct (ilog2_spec x Hx) as [_ Hhi].
  assert (H : pow2 L < pow2 (ilog2 x + 1)) by (eapply Qle_lt_trans; eassumption).
  apply Qpower_lt_compat_l_inv in H; [lia | reflexivity].
Qed.

Lemma rne_cases m :
  (rne m = Qfloor m /\ m - inject_Z (Qfloor m) <= 1 # 2)
  \/ (rne m = (Qfloor m + 1)%Z /\ 1 # 2 <= m - inject_Z (Qfloor m)).
Proof.
  unfold rne.
  destruct (Qcompare_spec (m - inject_Z (Qfloor m)) (1 # 2)) as [Heq | Hlt | Hgt].
  - destruct (Z.even (Qfloor m)); [left | right]; split; try reflexivity;
      rewrite Heq; apply Qle_refl.
  - left. split; [reflexivity | now apply Qlt_le_weak].
  - right. split; [reflexivity | now apply Qlt_le_weak].
Qed.

Lemma rne_error m : Qabs (inject_Z (rne m) - m) <= 1 # 2.
Proof.
  destruct (floor_bounds m) as [Hlo Hhi].
  apply Qabs_Qle_condition.
  destruct (rne_cases m) as [[-> H] | [-> H]].
  - generalize dependent (inject_Z (Qfloor m)). intros f Hlo Hhi H. split; lra.
  - rewrite inject_Z_plus.
    generalize dependent (inject_Z (Qfloor m)). intros f Hlo Hhi H.
    change (inject_Z 1) with 1. split; lra.
Qed.

Lemma rne_le m N : m <= inject_Z N -> (rne m <= N)%Z.
Proof.
  intros Hm. destruct (floor_bounds m) as [Hlo Hhi].
  assert (Hf : (Qfloor m <= N)%Z).
  { rewrite Zle_Qle. eapply Qle_trans; eassumption. }
  destruct (rne_cases m) as [[-> H] | [-> H]]; [exact Hf |].
  destruct (Z.eq_dec (Qfloor m) N) as [Heq | Hne]; [| lia].
  exfalso. rewrite Heq in H. lra.
Qed.

Lemma rne_ge m N : inject_Z N <= m -> (N <= rne m)%Z.
Proof.
  intros Hm. destruct (floor_bounds m) as [Hlo Hhi].
  assert (Hf : (N <= Qfloor m)%Z).
  { apply Z.lt_succ_r. rewrite Zlt_Qlt. unfold Z.succ. rewrite inject_Z_plus.
    eapply Qle_lt_trans; [exact Hm | exact Hhi]. }
  destruct (rne_cases m) as [[-> H] | [-> H]]; lia.
Qed.

Lemma rne_Z k : rne (inject_Z k) = k.
Proof.
  apply Z.le_antisymm; [apply rne_le | apply rne_ge]; apply Qle_refl.
Qed.


Lemma round_compat x y : x == y -> round x = round y.
Proof. intros H. unfold round. now rewrite (Qred_complete x y H). Qed.

Lemma round_zero x : x == 0 -> round x = 0.
Proof. intros H. rewrite (round_compat x 0 H). reflexivity. Qed.

(** [round x] on its grid: an integer number of units in the last place. *)
Lemma round_unfold x :
  ~ x == 0 ->
  round x == inject_Z (rne (Qred x / pow2 (ulpExp (Qred x))))
             * pow2 (ulpExp (Qred x)).
Proof.
  intros Hx. unfold round.
  destruct (Qeq_bool (Qred x) 0) eqn:Hz.
  - apply Qeq_bool_iff in Hz. rewrite Qred_correct in Hz. contradiction.
  - apply Qred_correct.
Qed.

Lemma round_nonneg x : 0 <= x -> 0 <= round x.
Proof.
  intros Hx. destruct (Qeq_dec x 0) as [Hz | Hnz].
  - rewrite (round_zero x Hz). apply Qle_refl.
  - rewrite (round_unfold x Hnz).
    apply Qmult_le_0_compat; [| apply Qlt_le_weak, pow2_pos].
    change 0 with (inject_Z 0). rewrite <- Zle_Qle. apply rne_ge.
    change (inject_Z 0) with 0. apply Qle_shift_div_l; [apply pow2_pos |].
    rewrite Qmult_0_l, Qred_correct. exact Hx.
Qed.

(** The rounding error is at most half a unit in the last place. *)
Lemma round_error x :
  Qabs (round x - x) <= pow2 (ulpExp (Qred x)) * (1 # 2).
Proof.
  destruct (Qeq_dec x 0) as [Hz | Hnz].
  - rewrite (round_zero x Hz).
    assert (H0 : Qabs (0 - x) == 0) by (rewrite Hz; reflexivity).
    rewrite H0.
    apply Qmult_le_0_compat; [apply Qlt_le_weak, pow2_pos | discriminate].
  - rewrite (round_unfold x Hnz).
    set (p := pow2 (ulpExp (Qred x))).
    assert (Hp : 0 < p) by apply pow2_pos.
    pose proof (rne_error (Qred x / p)) as Herr.
    setoid_replace (inject_Z (rne (Qred x / p)) * p - x)
      with ((inject_Z (rne (Qred x / p)) - Qred x / p) * p).
    + rewrite Qabs_Qmult, (Qabs_pos p) by now apply Qlt_le_weak.
      rewrite (Qmult_comm p). apply Qmult_le_compat_r; [exact Herr |].
      now apply Qlt_le_weak.
    + rewrite <- (Qred_correct x) at 2. field. intros H. rewrite H in Hp.
      discriminate.
Qed.

Lemma ilog2_compat x y : 0 < x -> x == y -> ilog2 x = ilog2 y.
Proof.
  intros Hx Heq. assert (Hy : 0 < y) by now rewrite <- Heq.
  assert (Hxy : x <= y) by (rewrite Heq; apply Qle_refl).
  assert (Hyx : y <= x) by (rewrite Heq; apply Qle_refl).
  destruct (ilog2_spec x Hx) as [Hx1 Hx2].
  destruct (ilog2_spec y Hy) as [Hy1 Hy2].
  apply Z.le_antisymm.
  - apply ilog2_le; [exact Hx |]. eapply Qle_lt_trans; eassumption.
  - apply ilog2_le; [exact Hy |]. eapply Qle_lt_trans; eassumption.
Qed.

Lemma ilog2_mono x y : 0 < x -> x <= y -> (ilog2 x <= ilog2 y)%Z.
Proof.
  intros Hx Hle. assert (Hy : 0 < y) by exact (Qlt_le_trans 0 x y Hx Hle).
  destruct (ilog2_spec y Hy) as [_ Hy2].
  apply ilog2_le; [exact Hx |]. eapply Qle_lt_trans; eassumption.
Qed.

Lemma ilog2_Qabs x : 0 < x -> ilog2 (Qabs x) = ilog2 x.
Proof.
  intros Hx. assert (H : Qabs x == x) by (apply Qabs_pos; now apply Qlt_le_weak).
  apply ilog2_compat; [now rewrite H | exact H].
Qed.

(** The exponent of the last place of a positive number below [2^(L+1)]. *)
Lemma ulpExp_le x L :
  0 < x -> x < pow2 (L + 1) -> (emin <= L - 52)%Z -> (ulpExp x <= L - 52)%Z.
Proof.
  intros Hx Hlt Hmin. unfold ulpExp, prec.
  rewrite (ilog2_Qabs x Hx).
  pose proof (ilog2_le x L Hx Hlt). lia.
Qed.

Lemma round_error_below x L :
  0 <= x -> x < pow2 (L + 1) -> (emin <= L - 52)%Z ->
  Qabs (round x - x) <= pow2 (L - 53).
Proof.
  intros Hx Hlt Hmin.
  destruct (Qeq_dec x 0) as [Hz | Hnz].
  - rewrite (round_zero x Hz).
    assert (H0 : Qabs (0 - x) == 0) by (rewrite Hz; reflexivity).
    rewrite H0. apply Qlt_le_weak, pow2_pos.
  - assert (Hpos : 0 < Qred x).
    { rewrite Qred_correct. apply Qle_lteq in Hx. destruct Hx as [H | H]; [exact H |].
      exfalso. apply Hnz. now symmetry. }
    eapply Qle_trans; [apply round_error |].
    assert (He : (ulpExp (Qred x) <= L - 52)%Z).
    { apply ulpExp_le; [exact Hpos | now rewrite Qred_correct | exact Hmin]. }
    replace (L - 53)%Z with ((L - 52) + (-1))%Z by lia.
    rewrite pow2_plus. change (pow2 (-1)) with (1 # 2).
    apply Qmult_le_compat_r; [now apply pow2_le | discriminate].
Qed.

(** Rounding does not pass a number of the grid: for [c] an integer number
    of units in its own last place, a smaller positive number rounds to at
    most [c]. *)
Lemma round_le_grid x c N :
  0 < x -> x <= c -> c == inject_Z N * pow2 (ulpExp c) -> round x <= c.
Proof.
  intros Hx Hle Hc.
  assert (Hnz : ~ x == 0) by (intros H; rewrite H in Hx; exact (Qlt_irrefl 0 Hx)).
  assert (Hy : 0 < Qred x) by now rewrite Qred_correct.
  assert (Hcpos : 0 < c) by exact (Qlt_le_trans 0 x c Hx Hle).
  rewrite (round_unfold x Hnz).
  set (y := Qred x) in *. assert (Hyx : y == x) by apply Qred_correct.
  assert (Hyc : y <= c) by now rewrite Hyx.
  destruct (ilog2_spec y Hy) as [Hy1 Hy2].
  destruct (ilog2_spec c Hcpos) as [Hc1 Hc2].
  pose proof (ilog2_mono y c Hy Hyc) as Hl.
  unfold ulpExp in *. rewrite (ilog2_Qabs y Hy).
  rewrite (ilog2_Qabs c Hcpos) in Hc.
  set (lx := ilog2 y) in *. set (lc := ilog2 c) in *.
  set (ex := Z.max (lx - (prec - 1)) emin) in *.
  set (ec := Z.max (lc - (prec - 1)) emin) in *.
  assert (Hpx : 0 < pow2 ex) by apply pow2_pos.
  destruct (Z.eq_dec ex ec) as [Heq | Hne].
  - (* the same last place *)
    apply Qle_trans with (inject_Z N * pow2 ex);
      [| rewrite Heq, <- Hc; apply Qle_refl].
    apply Qmult_le_compat_r; [| now apply Qlt_le_weak].
    rewrite <- Zle_Qle. apply rne_le.
    apply Qle_shift_div_r; [exact Hpx |].
    rewrite Heq, <- Hc. exact Hyc.
  - (* [x] lies in a lower binade *)
    assert (Hex : (ex < ec)%Z) by (unfold ex, ec in *; lia).
    assert (Hlc : (ec = lc - (prec - 1))%Z) by (unfold ex, ec, emin in *; lia).
    assert (Hlx : (lx + 1 <= lc)%Z) by (unfold ex, ec, prec in *; lia).
    set (k := Z.max (lx + 1 - ex) 0).
    assert (Hk : (0 <= k)%Z) by (unfold k; lia).
    assert (Hm : (rne (y / pow2 ex) <= 2 ^ k)%Z).
    { apply rne_le. rewrite <- pow2_Z by exact Hk.
      apply Qle_shift_div_r; [exact Hpx |].
      rewrite <- pow2_plus. apply Qlt_le_weak.
      eapply Qlt_le_trans; [exact Hy2 |]. apply pow2_le. unfold k. lia. }
    apply Qle_trans with (inject_Z (2 ^ k) * pow2 ex).
    + apply Qmult_le_compat_r; [| now apply Qlt_le_weak].
      now rewrite <- Zle_Qle.
    + rewrite <- pow2_Z, <- pow2_plus by exact Hk.
      apply Qle_trans with (pow2 lc); [| exact Hc1].
      apply pow2_le. unfold k, prec in *. lia.
Qed.

Lemma round_le_1 x : 0 <= x -> x <= 1 -> round x <= 1.
Proof.
  intros H0 H1. destruct (Qeq_dec x 0) as [Hz | Hnz].
  - rewrite (round_zero x Hz). discriminate.
  - apply (round_le_grid x 1 (2 ^ 52)); [| exact H1 | reflexivity].
    apply Qle_lteq in H0. destruct H0 as [H | H]; [exact H |].
    exfalso. apply Hnz. now symmetry.
Qed.

Lemma round_le_100 x : 0 <= x -> x <= 100 -> round x <= 100.
Proof.
  intros H0 H1. destruct (Qeq_dec x 0) as [Hz | Hnz].
  - rewrite (round_zero x Hz). discriminate.
  - apply (round_le_grid x 100 (25 * 2 ^ 48)); [| exact H1 | reflexivity].
    apply Qle_lteq in H0. destruct H0 as [H | H]; [exact H |].
    exfalso. apply Hnz. now symmetry.
Qed.

End Binary64.

(** ** Statistics (C6) *)

Section Statistics.

Local Open Scope Q_scope.



Lemma Math_round_isRound (x : Q) : Spec.isRound x (JS.Math_round x).
Proof.
  unfold Spec.isRound, JS.Math_round.
  destruct (floor_bounds (x + (1 # 2))) as [Hlo Hhi].
  generalize dependent (inject_Z (Qfloor (x + (1 # 2)))). intros q Hlo Hhi.
  split; lra.
Qed.

Lemma isRound_compat (x y : Q) (n : Z) :
  x == y -> Spec.isRound x n -> Spec.isRound y n.
Proof.
  unfold Spec.isRound. intros Heq [Hlo Hhi]. rewrite <- Heq. now split.
Qed.


Lemma count_positive_nonzero (n : nat) :
  (0 < n)%nat -> ~ inject_Z (Z.of_nat n) == 0.
Proof.
  intros H Heq. unfold Qeq in Heq. cbn in Heq. lia.
Qed.

(** The share as the code writes it, [(attended / count) * 100]. *)
Lemma share_as_computed (a n : nat) :
  (0 < n)%nat ->
  inject_Z (Z.of_nat a) / inject_Z (Z.of_nat n) * 100
  == 100 * inject_Z (Z.of_nat a) / inject_Z (Z.of_nat n).
Proof.
  intros H. field. now apply count_positive_nonzero.
Qed.




(** The share of a part in a whole, as the dashboards compute it:
    [(a / n) * 100] with both operations rounded to binary64.  It stays
    between 0 and 100 and within [2^-45] of the exact share. *)
Lemma share64_bounds (a n : nat) :
  (0 < n)%nat -> (a <= n)%nat ->
  let y := Float64.mul (Float64.div (inject_Z (Z.of_nat a))
                                    (inject_Z (Z.of_nat n))) 100 in
  0 <= y <= 100
  /\ Qabs (y - 100 * inject_Z (Z.of_nat a) / inject_Z (Z.of_nat n))
     <= 1 # 2 ^ 45.
Proof.
  intros Hn Ha. cbv zeta. unfold Float64.mul, Float64.div.
  assert (Hnq : 0 < inject_Z (Z.of_nat n))
    by (change 0 with (inject_Z 0); rewrite <- Zlt_Qlt; lia).
  set (x := inject_Z (Z.of_nat a) / inject_Z (Z.of_nat n)).
  assert (Hx0 : 0 <= x).
  { unfold x. apply Qle_shift_div_l; [exact Hnq |]. rewrite Qmult_0_l.
    change 0 with (inject_Z 0). rewrite <- Zle_Qle. lia. }
  assert (Hx1 : x <= 1).
  { unfold x. apply Qle_shift_div_r; [exact Hnq |]. rewrite Qmult_1_l.
    rewrite <- Zle_Qle. lia. }
  assert (Hshare : 100 * inject_Z (Z.of_nat a) / inject_Z (Z.of_nat n)
                   == x * 100).
  { unfold x. field. intros H. rewrite H in Hnq. exact (Qlt_irrefl 0 Hnq). }
  rewrite Hshare.
  pose proof (round_nonneg x Hx0) as Hq0.
  pose proof (round_le_1 x Hx0 Hx1) as Hq1.
  assert (Hqe : Qabs (Float64.round x - x) <= 1 # 2 ^ 53).
  { apply (round_error_below x 0 Hx0); [| discriminate].
    apply Qle_lt_trans with 1; [exact Hx1 | reflexivity]. }
  set (q := Float64.round x) in *.
  assert (Hz0 : 0 <= q * 100) by lra.
  assert (Hz1 : q * 100 <= 100) by lra.
  pose proof (round_nonneg (q * 100) Hz0) as Hy0.
  pose proof (round_le_100 (q * 100) Hz0 Hz1) as Hy1.
  assert (Hye : Qabs (Float64.round (q * 100) - q * 100) <= 1 # 2 ^ 47).
  { apply (round_error_below (q * 100) 6 Hz0); [| discriminate].
    apply Qle_lt_trans with 100; [exact Hz1 | reflexivity]. }
  set (y := Float64.round (q * 100)) in *.
  split; [split; assumption |].
  apply Qabs_Qle_condition in Hqe, Hye. apply Qabs_Qle_condition.
  clearbody x q y. destruct Hqe, Hye.
  change (2 ^ 53)%positive with 9007199254740992%positive in *.
  change (2 ^ 47)%positive with 140737488355328%positive in *.
  change (2 ^ 45)%positive with 35184372088832%positive.
  split; lra.
Qed.

(** The rate of both dashboards, from the counts. *)
Lemma attendanceRate_as_counts (recs : list AttendanceRecord) :
  ManagerDashboard.attendanceRate (ManagerDashboard.calculateStats recs)
  = if (0 <? List.length recs)%nat
    then JS.Math_round
           (Float64.mul
              (Float64.div
                 (inject_Z (Z.of_nat (Spec.statusCount PRESENT recs
                                      + Spec.statusCount LATE recs)))
                 (inject_Z (Z.of_nat (List.length recs))))
              100)
    else 0%Z.
Proof. reflexivity. Qed.

Lemma counts_le_length (recs : list AttendanceRecord) :
  (Spec.statusCount PRESENT recs + Spec.statusCount LATE recs
   <= List.length recs)%nat.
Proof.
  unfold Spec.statusCount.
  induction recs as [| r l IH]; cbn; [lia |].
  destruct (status r); cbn; lia.
Qed.

(** The rounded rate: between 0 and 100, and within a half and [2^-45] of
    the exact share. *)
Lemma rate_bounds (a n : nat) :
  (0 < n)%nat -> (a <= n)%nat ->
  let rate :=
    JS.Math_round
      (Float64.mul (Float64.div (inject_Z (Z.of_nat a))
                                (inject_Z (Z.of_nat n))) 100) in
  (0 <= rate <= 100)%Z
  /\ Qabs (inject_Z rate
           - 100 * inject_Z (Z.of_nat a) / inject_Z (Z.of_nat n))
     <= (1 # 2) + (1 # 2 ^ 45).
Proof.
  intros Hn Ha. cbv zeta.
  destruct (share64_bounds a n Hn Ha) as [[Hy0 Hy1] Herr]. cbv zeta in *.
  set (y := Float64.mul (Float64.div (inject_Z (Z.of_nat a))
                                     (inject_Z (Z.of_nat n))) 100) in *.
  set (x := 100 * inject_Z (Z.of_nat a) / inject_Z (Z.of_nat n)) in *.
  pose proof (Math_round_isRound y) as [Hlo Hhi].
  split.
  - unfold JS.Math_round. split.
    + change 0%Z with (Qfloor 0). apply Qfloor_resp_le. lra.
    + change 100%Z with (Qfloor (100 + (1 # 2))). apply Qfloor_resp_le. lra.
  - apply Qabs_Qle_condition in Herr. apply Qabs_Qle_condition.
    generalize dependent (inject_Z (JS.Math_round y)). intros r Hlo Hhi.
    clearbody x y. destruct Herr.
    change (2 ^ 45)%positive with 35184372088832%positive in *.
    split; lra.
Qed.

End Statistics.




(** Sums that binary64 rounds below the decimal sum: 0.7 + 1.4 + 1.4 is
    3.4999999999999996 and shows as 3 hours; 0.03 + 2.05 + 0.92 is
    2.9999999999999996 and reads "2h 60m". *)
Lemma binary64_sums_below_the_decimal_sum :
  EmployeeDashboard.totalHours (EmployeeDashboard.stats Scenario.threeShifts) = 3
  /\ JS.Math_round (Spec.sumQ (map durationHours Scenario.threeShifts)) = 4
  /\ ManagerDashboard.totalHours
       (ManagerDashboard.calculateStats Scenario.threeVisits)
     = "2h 60m"%string
  /\ Spec.sumQ (map durationHours Scenario.threeVisits) == 3.
Proof.
  split; [vm_compute; reflexivity |]. split; [vm_compute; reflexivity |].
  split; [vm_compute; reflexivity | reflexivity].
Qed.

(** ** The manager's chart (C7) *)

(** The series never has more than fourteen points. *)
Lemma chartDataOf_at_most_14 tz recs series :
  ManagerDashboard.chartDataOf tz recs = Some series ->
  (List.length series <= 14)%nat.
Proof.
  unfold ManagerDashboard.chartDataOf.
  destruct (ManagerDashboard.aggregateByDay tz recs []) as [o |]; [| discriminate].
  intros H.
  replace series with (firstn 14 (rev (ManagerDashboard.Object_values o)))
    by congruence.
  apply firstn_le_length.
Qed.

(** C7 (the code at the failing input).  With activity on fifteen days, the
    first to the fifteenth of March, the manager's series is in
    chronological order but holds the fourteen oldest days: the first of
    March is in, the fifteenth, the most recent, is cut.  The employee's
    chart of the same records ends on the fifteenth. *)
Theorem C7_chart_cap_keeps_the_oldest_days :
  option_map (map ManagerDashboard.point_date)
    (ManagerDashboard.chartData 0 Scenario.fifteenDays Scenario.march20 current)
  = Some ["01 Mar"; "02 Mar"; "03 Mar"; "04 Mar"; "05 Mar"; "06 Mar"; "07 Mar";
          "08 Mar"; "09 Mar"; "10 Mar"; "11 Mar"; "12 Mar"; "13 Mar";
          "14 Mar"]%string
  /\ option_map (map fst)
       (EmployeeDashboard.chartData 0 Scenario.alice Scenario.fifteenDays
          Scenario.march20 current)
     = Some ["06 Mar"; "07 Mar"; "08 Mar"; "09 Mar"; "10 Mar"; "11 Mar";
             "12 Mar"; "13 Mar"; "14 Mar"; "15 Mar"]%string
  /\ option_map (@List.length _)
       (ManagerDashboard.aggregateByDay 0
          (ManagerDashboard.filteredRecords 0 Scenario.fifteenDays
             Scenario.march20 current)
          [])
     = Some 15%nat.
Proof.
  repeat split; vm_compute; reflexivity.
Qed.

(** ** The future-date guard (C8) *)

Section FutureDate.

Import EmployeeDashboard.

(** East of UTC (or in UTC), a date after the actor's local date is
    rejected by the guard. *)
Lemma future_date_rejected_east_of_utc tz now d c :
  0 <= tz ->
  JS.parseCivil d = Some c ->
  JS.localDay tz now < JS.MakeDay c ->
  JS.timeGt (JS.Date_parse d) now = true.
Proof.
  intros Htz Hparse Hafter. unfold JS.Date_parse. rewrite Hparse. cbn.
  apply Z.ltb_lt. unfold JS.localDay, JS.toLocal, JS.msPerDay, JS.msPerMinute in *.
  Z.div_mod_to_equations. lia.
Qed.

(** In any time zone, a date before the actor's local date passes the
    guard. *)
Lemma past_date_passes_guard tz now d c :
  tz <= 1440 ->
  JS.parseCivil d = Some c ->
  JS.MakeDay c < JS.localDay tz now ->
  JS.timeGt (JS.Date_parse d) now = false.
Proof.
  intros Htz Hparse Hbefore. unfold JS.Date_parse. rewrite Hparse. cbn.
  apply Z.ltb_ge. unfold JS.localDay, JS.toLocal, JS.msPerDay, JS.msPerMinute in *.
  Z.div_mod_to_equations. lia.
Qed.

Lemma parseCivil_nonempty d c : JS.parseCivil d = Some c -> String.eqb d "" = false.
Proof.
  destruct d; [discriminate | reflexivity].
Qed.

(** A string that parses denotes a date of the calendar. *)
Lemma parseCivil_valid d c : JS.parseCivil d = Some c -> JS.validCivil c = true.
Proof.
  unfold JS.parseCivil.
  repeat match goal with
         | |- context [match ?x with _ => _ end] =>
             destruct x eqn:?; try discriminate
         end.
  intros H. injection H as <-.
  repeat match goal with
         | H : (_ && _)%bool = true |- _ => apply andb_prop in H; destruct H
         end.
  assumption.
Qed.

Lemma DayFromYear_succ y :
  JS.DayFromYear (y + 1)
  = JS.DayFromYear y + 365 + (if JS.InLeapYear y then 1 else 0).
Proof.
  unfold JS.DayFromYear, JS.InLeapYear.
  destruct (Z.eqb_spec (y mod 4) 0), (Z.eqb_spec (y mod 100) 0),
    (Z.eqb_spec (y mod 400) 0); cbn [andb orb negb];
    Z.div_mod_to_equations; lia.
Qed.

Lemma validCivil_bounds c :
  JS.validCivil c = true ->
  1 <= JS.month c <= 12
  /\ 1 <= JS.day c <= JS.DaysInMonth (JS.year c) (JS.month c).
Proof.
  unfold JS.validCivil. intros H.
  repeat (apply andb_prop in H; destruct H as [H ?]).
  repeat match goal with
         | H : (_ <=? _) = true |- _ => apply Z.leb_le in H
         end.
  lia.
Qed.

(** The first of a month comes right after the last day of the month
    before. *)
Lemma MakeDay_month_start y m :
  1 <= m <= 12 ->
  JS.DayFromYear y + JS.DaysBeforeMonth y m + JS.DaysInMonth y m
  = if m =? 12 then JS.DayFromYear (y + 1)
    else JS.DayFromYear y + JS.DaysBeforeMonth y (m + 1).
Proof.
  intros Hm.
  assert (Hcases : m = 1 \/ m = 2 \/ m = 3 \/ m = 4 \/ m = 5 \/ m = 6 \/ m = 7
                   \/ m = 8 \/ m = 9 \/ m = 10 \/ m = 11 \/ m = 12) by lia.
  rewrite DayFromYear_succ. unfold JS.DaysBeforeMonth, JS.DaysInMonth.
  repeat (destruct Hcases as [-> | Hcases]); try subst m;
    cbn; destruct (JS.InLeapYear y); lia.
Qed.

(** Every day of a month precedes every day of the next month. *)
Lemma MakeDay_previous_month c tc :
  JS.validCivil c = true -> JS.validCivil tc = true ->
  Spec.isPreviousMonthOf c tc -> JS.MakeDay c < JS.MakeDay tc.
Proof.
  intros Hc Htc Hprev. unfold Spec.isPreviousMonthOf in Hprev.
  apply validCivil_bounds in Hc, Htc.
  destruct c as [y m d], tc as [ty tm td]. cbn [JS.year JS.month JS.day] in *.
  unfold JS.MakeDay. cbn [JS.year JS.month JS.day].
  pose proof (MakeDay_month_start y m (proj1 Hc)) as Hstep.
  destruct (Z.eqb_spec m 12) as [-> | Hne].
  - assert (ty = y + 1) by lia. assert (tm = 1) by lia. subst ty tm.
    change (JS.DaysBeforeMonth (y + 1) 1) with 0. lia.
  - assert (ty = y) by lia. assert (tm = m + 1) by lia. subst ty tm. lia.
Qed.

(** A new entry for a day before today, on a set without a record of that
    id and with the times empty or in order, is saved under that date. *)
Lemma manual_entry_for_past_date_is_saved tz uid records editForm now c :
  tz <= 1440 ->
  JS.parseCivil (EditForm.date editForm) = Some c ->
  JS.MakeDay c < JS.localDay tz now ->
  find_ (fun r => String.eqb (id r) (recordId uid (EditForm.date editForm)))
    records = None ->
  manualDurationStatus tz (EditForm.checkIn editForm) (EditForm.checkOut editForm)
  <> None ->
  exists r,
    handleSaveEdit tz uid records true None editForm now = Saved r
    /\ id r = recordId uid (EditForm.date editForm)
    /\ employeeId r = uid
    /\ date r = EditForm.date editForm.
Proof.
  intros Htz Hparse Hbefore Hfresh Htimes.
  unfold handleSaveEdit, saveGuards. cbn [negb andb].
  rewrite (parseCivil_nonempty _ _ Hparse).
  rewrite (past_date_passes_guard tz now _ c Htz Hparse Hbefore).
  rewrite Hfresh. cbn [isNull negb].
  destruct (manualDurationStatus tz (EditForm.checkIn editForm)
              (EditForm.checkOut editForm)) as [[dur st] |]; [| contradiction].
  eexists. split; [reflexivity |]. cbn. repeat split.
Qed.

(** The same for a date of the previous calendar month, [tc] being the
    actor's current date. *)
Lemma manual_entry_for_previous_month_is_saved tz uid records editForm now c tc :
  tz <= 1440 ->
  JS.validCivil tc = true ->
  JS.MakeDay tc = JS.localDay tz now ->
  JS.parseCivil (EditForm.date editForm) = Some c ->
  Spec.isPreviousMonthOf c tc ->
  find_ (fun r => String.eqb (id r) (recordId uid (EditForm.date editForm)))
    records = None ->
  manualDurationStatus tz (EditForm.checkIn editForm) (EditForm.checkOut editForm)
  <> None ->
  exists r,
    handleSaveEdit tz uid records true None editForm now = Saved r
    /\ id r = recordId uid (EditForm.date editForm)
    /\ employeeId r = uid
    /\ date r = EditForm.date editForm.
Proof.
  intros Htz Htc Hday Hparse Hprev Hfresh Htimes.
  apply (manual_entry_for_past_date_is_saved tz uid records editForm now c);
    try assumption.
  rewrite <- Hday. apply MakeDay_previous_month; try assumption.
  now apply (parseCivil_valid (EditForm.date editForm)).
Qed.

End FutureDate.

(** C8 (the code at the failing input).  In New York at 23:00 on the first
    of January (04:00 UTC on the second) the actor's date is the first, and
    a new entry dated the second, one day in the future, is saved: no alert,
    a record for tomorrow. *)
Theorem C8_tomorrow_is_accepted_west_of_utc :
  EmployeeDashboard.todayStr Scenario.newYork Scenario.lateEvening
  = "2024-01-01"%string
  /\ JS.getHours Scenario.newYork Scenario.lateEvening = 23
  /\ JS.timeGt (JS.Date_parse "2024-01-02") Scenario.lateEvening = false
  /\ exists r,
       EmployeeDashboard.handleSaveEdit Scenario.newYork Scenario.alice [] true
         None Scenario.entryForTomorrow Scenario.lateEvening
       = EmployeeDashboard.Saved r
       /\ date r = "2024-01-02"%string
       /\ id r = "u1-2024-01-02"%string.
Proof.
  split; [vm_compute; reflexivity |]. split; [vm_compute; reflexivity |].
  split; [vm_compute; reflexivity |].
  eexists. repeat split; vm_compute; reflexivity.
Qed.

(** * Further properties of the code *)

(** ** The optimistic update as a keyed store *)

Section KeyedStore.

Import App.

(** After an update, a record that carries the id of the updated record
    is the updated record. *)
Lemma applyUpdate_same_id (updatedRecord : AttendanceRecord) prevRecords x :
  In x (applyUpdate updatedRecord prevRecords) ->
  id x = id updatedRecord -> x = updatedRecord.
Proof.
  unfold applyUpdate, find_.
  destruct (find (fun r => String.eqb (id r) (id updatedRecord)) prevRecords)
    as [y |] eqn:Hfind.
  - rewrite in_map_iff. intros (r & Hr & _) Hid.
    destruct (String.eqb_spec (id r) (id updatedRecord)); congruence.
  - rewrite in_app_iff. intros [Hin | [Heq | []]] Hid; [| now symmetry].
    pose proof (find_none _ _ Hfind x Hin) as Hno. cbv beta in Hno.
    rewrite Hid, String.eqb_refl in Hno. discriminate.
Qed.

(** [find] on a list whose matching elements all carry the id of the
    updated record: after the update, the match is the updated record. *)
Lemma find_applyUpdate (p : AttendanceRecord -> bool) updatedRecord prevRecords :
  p updatedRecord = true ->
  (forall r, In r prevRecords -> p r = true -> id r = id updatedRecord) ->
  find p (applyUpdate updatedRecord prevRecords) = Some updatedRecord.
Proof.
  intros Hp Hids. unfold applyUpdate, find_.
  destruct (find (fun r => String.eqb (id r) (id updatedRecord)) prevRecords)
    as [y |] eqn:Hfind.
  - induction prevRecords as [| r l IH]; [discriminate |].
    cbn [map find]. cbn [find] in Hfind.
    destruct (String.eqb_spec (id r) (id updatedRecord)) as [Heq | Hne].
    + now rewrite Hp.
    + destruct (p r) eqn:Hpr.
      * exfalso. apply Hne. apply Hids; [now left | exact Hpr].
      * apply IH; [| exact Hfind]. intros r' Hr'. apply Hids. now right.
  - assert (Hnone : forall r, In r prevRecords -> p r = false).
    { intros r Hr. destruct (p r) eqn:Hpr; [| reflexivity].
      pose proof (find_none _ _ Hfind r Hr) as Hno. cbv beta in Hno.
      rewrite (Hids r Hr Hpr), String.eqb_refl in Hno. discriminate. }
    clear Hfind Hids. induction prevRecords as [| r l IH]; cbn.
    + now rewrite Hp.
    + rewrite (Hnone r) by now left. apply IH. intros r' Hr'. apply Hnone. now right.
Qed.

Lemma ids_applyUpdate_present updatedRecord prevRecords :
  map id (map (fun r => if String.eqb (id r) (id updatedRecord)
                        then updatedRecord else r) prevRecords)
  = map id prevRecords.
Proof.
  induction prevRecords as [| r l IH]; cbn; [reflexivity |].
  rewrite IH. destruct (String.eqb_spec (id r) (id updatedRecord)) as [Heq | _];
    [now rewrite Heq | reflexivity].
Qed.

Lemma find_id_none updatedRecord prevRecords :
  find (fun r => String.eqb (id r) (id updatedRecord)) prevRecords = None ->
  ~ In (id updatedRecord) (map id prevRecords).
Proof.
  intros Hfind Hin. apply in_map_iff in Hin. destruct Hin as (r & Hid & Hr).
  pose proof (find_none _ _ Hfind r Hr) as Hno. cbv beta in Hno.
  rewrite Hid, String.eqb_refl in Hno. discriminate.
Qed.

Lemma find_id_some updatedRecord prevRecords y :
  find (fun r => String.eqb (id r) (id updatedRecord)) prevRecords = Some y ->
  In (id updatedRecord) (map id prevRecords).
Proof.
  intros Hfind. apply find_some in Hfind. destruct Hfind as [Hin Hid].
  apply String.eqb_eq in Hid. rewrite <- Hid. now apply in_map.
Qed.

(** The ids after an update: the same list, or one more at the end. *)
Lemma ids_applyUpdate updatedRecord prevRecords :
  map id (applyUpdate updatedRecord prevRecords)
  = if in_dec string_dec (id updatedRecord) (map id prevRecords)
    then map id prevRecords
    else (map id prevRecords ++ [id updatedRecord])%list.
Proof.
  unfold applyUpdate, find_.
  destruct (find (fun r => String.eqb (id r) (id updatedRecord)) prevRecords)
    as [y |] eqn:Hfind.
  - rewrite ids_applyUpdate_present.
    destruct (in_dec string_dec (id updatedRecord) (map id prevRecords))
      as [_ | Hout]; [reflexivity |].
    exfalso. apply Hout. eapply find_id_some. exact Hfind.
  - rewrite map_app. cbn [map].
    destruct (in_dec string_dec (id updatedRecord) (map id prevRecords))
      as [Hin | _]; [| reflexivity].
    exfalso. now apply (find_id_none updatedRecord prevRecords Hfind).
Qed.

Lemma applyUpdate_uniqueIds updatedRecord prevRecords :
  Facts.uniqueIds prevRecords ->
  Facts.uniqueIds (applyUpdate updatedRecord prevRecords).
Proof.
  unfold Facts.uniqueIds. intros Hnd. rewrite ids_applyUpdate.
  destruct (in_dec string_dec (id updatedRecord) (map id prevRecords))
    as [_ | Hout]; [exact Hnd |].
  apply NoDup_app; [exact Hnd | repeat constructor; intros [] |].
  intros x Hx [<- | []]. contradiction.
Qed.

Lemma applyDelete_uniqueIds recordId prevRecords :
  Facts.uniqueIds prevRecords ->
  Facts.uniqueIds (applyDelete recordId prevRecords).
Proof.
  unfold Facts.uniqueIds, applyDelete.
  induction prevRecords as [| r l IH]; cbn; [trivial |].
  intros Hnd. inversion Hnd as [| ? ? Hnotin Hnd']; subst.
  destruct (negb (String.eqb (id r) recordId)); [| now apply IH].
  cbn. constructor; [| now apply IH].
  intros Hin. apply Hnotin. apply in_map_iff in Hin.
  destruct Hin as (x & Hid & Hx). apply filter_In in Hx.
  rewrite <- Hid. apply in_map. tauto.
Qed.

Lemma applyUpdate_idempotent updatedRecord prevRecords :
  applyUpdate updatedRecord (applyUpdate updatedRecord prevRecords)
  = applyUpdate updatedRecord prevRecords.
Proof.
  assert (Hfound : exists y,
    find (fun r => String.eqb (id r) (id updatedRecord))
      (applyUpdate updatedRecord prevRecords) = Some y).
  { rewrite (find_applyUpdate _ updatedRecord prevRecords).
    - now exists updatedRecord.
    - apply String.eqb_refl.
    - intros r _ Hid. now apply String.eqb_eq. }
  destruct Hfound as [y Hy].
  unfold applyUpdate at 1. unfold find_. rewrite Hy.
  rewrite <- (map_id (applyUpdate updatedRecord prevRecords)) at 2.
  apply map_ext_in. intros r Hr.
  destruct (String.eqb_spec (id r) (id updatedRecord)) as [Heq | _];
    [| reflexivity].
  symmetry. now apply (applyUpdate_same_id updatedRecord prevRecords).
Qed.

Lemma applyDelete_app recordId l1 l2 :
  applyDelete recordId (l1 ++ l2)
  = (applyDelete recordId l1 ++ applyDelete recordId l2)%list.
Proof. unfold applyDelete. apply filter_app. Qed.

(** Deleting the id of an update undoes it, and removes what the update
    replaced. *)
Lemma applyDelete_applyUpdate updatedRecord prevRecords :
  applyDelete (id updatedRecord) (applyUpdate updatedRecord prevRecords)
  = applyDelete (id updatedRecord) prevRecords.
Proof.
  unfold applyUpdate, find_.
  destruct (find (fun r => String.eqb (id r) (id updatedRecord)) prevRecords)
    as [y |] eqn:Hfind.
  - clear Hfind. unfold applyDelete.
    induction prevRecords as [| r l IH]; cbn; [reflexivity |].
    destruct (String.eqb_spec (id r) (id updatedRecord)) as [Heq | Hne]; cbn.
    + rewrite String.eqb_refl. cbn. exact IH.
    + destruct (String.eqb_spec (id r) (id updatedRecord)); [contradiction |].
      cbn. now rewrite IH.
  - rewrite applyDelete_app. unfold applyDelete at 2. cbn.
    rewrite String.eqb_refl. cbn. apply app_nil_r.
Qed.

End KeyedStore.

(** X1.  After [handleUpdateRecord], whatever the store answers, looking
    the id of the updated record up in the local set gives the updated
    record, and every record of the set that carries this id is the updated
    record. *)
Theorem X1_updated_record_is_found_by_id :
  forall (updatedRecord : AttendanceRecord) (res : App.Settled)
         (s : App.AppState),
    find_ (fun r => String.eqb (id r) (id updatedRecord))
      (App.attendanceRecords
         (execState (App.handleUpdateRecord updatedRecord res) s))
    = Some updatedRecord
    /\ forall x,
        In x (App.attendanceRecords
                (execState (App.handleUpdateRecord updatedRecord res) s)) ->
        (id x = id updatedRecord <-> x = updatedRecord).
Proof.
  intros updatedRecord res s.
  assert (Hrec : App.attendanceRecords
                   (execState (App.handleUpdateRecord updatedRecord res) s)
                 = App.applyUpdate updatedRecord (App.attendanceRecords s))
    by (destruct res as [[e |] | t]; reflexivity).
  rewrite Hrec. split.
  - apply find_applyUpdate; [apply String.eqb_refl |].
    intros r _ Hid. now apply String.eqb_eq.
  - intros x Hx. split; [| now intros ->].
    now apply (applyUpdate_same_id updatedRecord (App.attendanceRecords s)).
Qed.

(** X2.  Distinct ids stay distinct: when no two records of the local set
    share an id, none do after [handleUpdateRecord] or [handleDeleteRecord],
    whatever the store answers. *)
Theorem X2_ids_stay_distinct :
  forall (updatedRecord : AttendanceRecord) (recordId : string)
         (res : App.Settled) (s : App.AppState),
    Facts.uniqueIds (App.attendanceRecords s) ->
    Facts.uniqueIds
      (App.attendanceRecords
         (execState (App.handleUpdateRecord updatedRecord res) s))
    /\ Facts.uniqueIds
         (App.attendanceRecords
            (execState (App.handleDeleteRecord recordId res) s)).
Proof.
  intros updatedRecord recordId res s Hnd. split.
  - replace (App.attendanceRecords
               (execState (App.handleUpdateRecord updatedRecord res) s))
      with (App.applyUpdate updatedRecord (App.attendanceRecords s))
      by (destruct res as [[e |] | t]; reflexivity).
    now apply applyUpdate_uniqueIds.
  - replace (App.attendanceRecords
               (execState (App.handleDeleteRecord recordId res) s))
      with (App.applyDelete recordId (App.attendanceRecords s))
      by (destruct res as [[e |] | [m | m | |]]; reflexivity).
    now apply applyDelete_uniqueIds.
Qed.

Lemma X2_ids_stay_distinct_witness :
  Facts.uniqueIds
    (App.attendanceRecords
       (execState (App.handleUpdateRecord Scenario.shortDay Scenario.refused)
          (Scenario.emptyApp [Scenario.lateArrival]))).
Proof.
  apply (X2_ids_stay_distinct Scenario.shortDay "u1-2024-03-15"
           Scenario.refused (Scenario.emptyApp [Scenario.lateArrival])).
  unfold Facts.uniqueIds. cbn. constructor; [intros [] | constructor].
Defined.

(** X3.  The optimistic update replaces in place or appends: the list of
    ids is unchanged when the id is in the set and gets the new id at its
    end otherwise; applying the same update twice is applying it once. *)
Theorem X3_update_replaces_in_place_or_appends :
  forall (updatedRecord : AttendanceRecord)
         (prevRecords : list AttendanceRecord),
    map id (App.applyUpdate updatedRecord prevRecords)
    = (if in_dec string_dec (id updatedRecord) (map id prevRecords)
       then map id prevRecords
       else (map id prevRecords ++ [id updatedRecord])%list)
    /\ App.applyUpdate updatedRecord (App.applyUpdate updatedRecord prevRecords)
       = App.applyUpdate updatedRecord prevRecords.
Proof.
  intros updatedRecord prevRecords. split.
  - apply ids_applyUpdate.
  - apply applyUpdate_idempotent.
Qed.

(** X4.  Deleting the id of a record just written leaves the set the
    delete alone would have left: it is the set of before when the id was
    new, and the set of before without that id otherwise. *)
Theorem X4_delete_undoes_update :
  forall (updatedRecord : AttendanceRecord) (res res' : App.Settled)
         (s : App.AppState),
    App.attendanceRecords
      (execState (App.handleDeleteRecord (id updatedRecord) res')
         (execState (App.handleUpdateRecord updatedRecord res) s))
    = App.applyDelete (id updatedRecord) (App.attendanceRecords s)
    /\ ((forall r, In r (App.attendanceRecords s) -> id r <> id updatedRecord) ->
        App.attendanceRecords
          (execState (App.handleDeleteRecord (id updatedRecord) res')
             (execState (App.handleUpdateRecord updatedRecord res) s))
        = App.attendanceRecords s).
Proof.
  intros updatedRecord res res' s.
  assert (Heq :
    App.attendanceRecords
      (execState (App.handleDeleteRecord (id updatedRecord) res')
         (execState (App.handleUpdateRecord updatedRecord res) s))
    = App.applyDelete (id updatedRecord) (App.attendanceRecords s)).
  { rewrite <- applyDelete_applyUpdate.
    destruct res as [[e |] | t], res' as [[e' |] | [m | m | |]]; reflexivity. }
  split; [exact Heq |].
  intros Hnew. rewrite Heq. now apply applyDelete_absent.
Qed.

Lemma X4_delete_undoes_update_witness :
  App.attendanceRecords
    (execState (App.handleDeleteRecord (id Scenario.shortDay) Scenario.stored)
       (execState (App.handleUpdateRecord Scenario.shortDay Scenario.stored)
          (Scenario.emptyApp [Scenario.lateArrival])))
  = [Scenario.lateArrival].
Proof.
  destruct (X4_delete_undoes_update Scenario.shortDay Scenario.stored
              Scenario.stored (Scenario.emptyApp [Scenario.lateArrival]))
    as [_ Hnew].
  apply Hnew. intros r [<- | []]. cbn. discriminate.
Defined.

(** ** One day of an employee: check-in, check-out, completed *)

Section Day.

Import EmployeeDashboard.

Lemma find_filter {A : Type} (p q : A -> bool) (l : list A) :
  find q (filter p l) = find (fun x => p x && q x) l.
Proof.
  induction l as [| x l IH]; cbn; [reflexivity |].
  destruct (p x); cbn; [| exact IH].
  destruct (q x); [reflexivity | exact IH].
Qed.

Lemma find_pointwise {A : Type} (p q : A -> bool) (l : list A) :
  (forall x, p x = q x) -> find p l = find q l.
Proof.
  intros H. induction l as [| x l IH]; cbn; [reflexivity |].
  now rewrite H, IH.
Qed.

Lemma todayRecord_find tz uid records today :
  todayRecord tz uid records today = find (Facts.isToday tz uid today) records.
Proof. unfold todayRecord, myRecords, find_. apply find_filter. Qed.

Lemma isToday_same_day tz uid today today' r :
  todayStr tz today' = todayStr tz today ->
  Facts.isToday tz uid today' r = Facts.isToday tz uid today r.
Proof. unfold Facts.isToday. now intros ->. Qed.

Lemma todayRecord_same_day tz uid records today today' :
  todayStr tz today' = todayStr tz today ->
  todayRecord tz uid records today' = todayRecord tz uid records today.
Proof.
  intros H. rewrite !todayRecord_find. apply find_pointwise.
  intros r. now apply isToday_same_day.
Qed.

(** An update of the first match of a search by a record of the same id
    that matches too: the search then finds the update. *)
Lemma find_applyUpdate_first (p : AttendanceRecord -> bool) upd l t :
  find p l = Some t -> id upd = id t -> p upd = true ->
  find p (App.applyUpdate upd l) = Some upd.
Proof.
  intros Hfind Hid Hp.
  assert (Hin : In t l) by (apply find_some in Hfind; tauto).
  unfold App.applyUpdate, find_.
  destruct (find (fun r => String.eqb (id r) (id upd)) l) as [y |] eqn:Hy.
  - clear Hy Hin. induction l as [| r l IH]; [discriminate |].
    cbn [map find]. cbn [find] in Hfind.
    destruct (String.eqb_spec (id r) (id upd)) as [_ | Hne]; [now rewrite Hp |].
    destruct (p r) eqn:Hpr.
    + exfalso. injection Hfind as ->. now apply Hne.
    + now apply IH.
  - exfalso. pose proof (find_none _ _ Hy t Hin) as Hno. cbv beta in Hno.
    rewrite <- Hid, String.eqb_refl in Hno. discriminate.
Qed.

Lemma handleCheckIn_isToday tz uid today now :
  Facts.isToday tz uid today (handleCheckIn tz uid today now) = true.
Proof.
  unfold Facts.isToday, handleCheckIn. cbn [employeeId date].
  now rewrite !String.eqb_refl.
Qed.

(** Check-in on a day without record: the new record becomes today's
    record. *)
Lemma todayRecord_after_checkIn tz uid records today now :
  todayRecord tz uid records today = None ->
  todayRecord tz uid
    (App.applyUpdate (handleCheckIn tz uid today now) records) today
  = Some (handleCheckIn tz uid today now).
Proof.
  rewrite !todayRecord_find. intros Hnone.
  apply find_applyUpdate; [apply handleCheckIn_isToday |].
  intros r Hr Hp. pose proof (find_none _ _ Hnone r Hr) as Hno. congruence.
Qed.

(** Check-out of today's record: the checked-out record becomes today's
    record. *)
Lemma todayRecord_after_checkOut tz uid records today now t r :
  todayRecord tz uid records today = Some t ->
  handleCheckOut tz uid records today now = Some r ->
  todayRecord tz uid (App.applyUpdate r records) today = Some r.
Proof.
  intros Ht Hout. apply handleCheckOut_inv in Hout.
  destruct Hout as (t' & Ht' & ->). rewrite Ht in Ht'. injection Ht' as <-.
  rewrite todayRecord_find in *.
  apply (find_applyUpdate_first _ _ _ t Ht); [reflexivity |].
  apply find_some in Ht. destruct Ht as [_ Ht]. exact Ht.
Qed.

(** One run of a click on the card, by what the card shows. *)
Lemma clickTodayControl_run tz uid today now res s :
  execState (App.clickTodayControl tz uid today now res) s
  = match clickTodayControl tz uid (App.attendanceRecords s) today now with
    | Some r => execState (App.handleUpdateRecord r res) s
    | None => s
    end.
Proof.
  unfold App.clickTodayControl, execState. cbn.
  destruct (clickTodayControl tz uid (App.attendanceRecords s) today now);
    reflexivity.
Qed.

Lemma handleUpdateRecord_records r res s :
  App.attendanceRecords (execState (App.handleUpdateRecord r res) s)
  = App.applyUpdate r (App.attendanceRecords s).
Proof. destruct res as [[e |] | t]; reflexivity. Qed.

Lemma handleUpdateRecord_requests r res s :
  App.requests (execState (App.handleUpdateRecord r res) s)
  = (App.requests s ++ [App.Upsert r])%list.
Proof. destruct res as [[e |] | t]; reflexivity. Qed.

End Day.

(** The first click of a day is a check-in. *)
Lemma first_click_run tz uid today now res s :
  EmployeeDashboard.todayRecord tz uid (App.attendanceRecords s) today = None ->
  execState (App.clickTodayControl tz uid today now res) s
  = execState
      (App.handleUpdateRecord (EmployeeDashboard.handleCheckIn tz uid today now)
         res) s.
Proof.
  intros Hnone. rewrite clickTodayControl_run.
  unfold EmployeeDashboard.clickTodayControl, EmployeeDashboard.todayControl.
  now rewrite Hnone.
Qed.

(** X5.  Check-in on a day without record.  When the local set holds no
    record of the employee for today, the card shows the check-in button; a
    click on it sends one upsert, and the record it created (id
    [employee-date], check-in at the click, no check-out, duration 0) is
    today's record from then on, so the card shows the check-out button. *)
Theorem X5_checkin_opens_the_day :
  forall tz uid today now res s,
    EmployeeDashboard.todayRecord tz uid (App.attendanceRecords s) today = None ->
    let r := EmployeeDashboard.handleCheckIn tz uid today now in
    let s1 := execState (App.clickTodayControl tz uid today now res) s in
    EmployeeDashboard.todayControl tz uid (App.attendanceRecords s) today
    = EmployeeDashboard.CheckInButton
    /\ EmployeeDashboard.todayRecord tz uid (App.attendanceRecords s1) today
       = Some r
    /\ EmployeeDashboard.todayControl tz uid (App.attendanceRecords s1) today
       = EmployeeDashboard.CheckOutButton
    /\ App.requests s1 = (App.requests s ++ [App.Upsert r])%list
    /\ id r = (uid ++ "-" ++ EmployeeDashboard.todayStr tz today)%string
    /\ checkIn r = Some now /\ checkOut r = None /\ durationHours r = 0%Q.
Proof.
  intros tz uid today now res s Hnone. cbv zeta.
  rewrite (first_click_run _ _ _ _ _ _ Hnone), handleUpdateRecord_records,
    handleUpdateRecord_requests.
  pose proof (todayRecord_after_checkIn tz uid (App.attendanceRecords s) today
                now Hnone) as Hafter.
  unfold EmployeeDashboard.todayControl. rewrite Hnone, Hafter.
  repeat split.
Qed.

Lemma X5_checkin_opens_the_day_witness :
  EmployeeDashboard.todayControl 0 Scenario.alice
    (App.attendanceRecords
       (execState (App.clickTodayControl 0 Scenario.alice Scenario.noon
                     Scenario.noon Scenario.stored)
          (Scenario.emptyApp [Scenario.shortDay])))
    Scenario.noon
  = EmployeeDashboard.CheckOutButton.
Proof.
  apply (X5_checkin_opens_the_day 0 Scenario.alice Scenario.noon Scenario.noon
           Scenario.stored (Scenario.emptyApp [Scenario.shortDay])).
  vm_compute. reflexivity.
Defined.

(** X6.  A whole day.  From a set without record of the employee for
    today, a click at [now1], a click at [now2 >= now1] and a third click,
    all on the same calendar day, leave today's record checked in at [now1]
    and checked out at [now2], with the duration rule of the whole minutes
    and a duration that is not negative; the card then shows the completed
    badge, the third click changes nothing, and exactly two upserts were
    sent. *)
Theorem X6_checkin_then_checkout_completes_the_day :
  forall tz uid today1 today2 today3 now1 now2 now3 res1 res2 res3 s,
    EmployeeDashboard.todayRecord tz uid (App.attendanceRecords s) today1 = None ->
    EmployeeDashboard.todayStr tz today2 = EmployeeDashboard.todayStr tz today1 ->
    EmployeeDashboard.todayStr tz today3 = EmployeeDashboard.todayStr tz today1 ->
    now1 <= now2 ->
    let s1 := execState (App.clickTodayControl tz uid today1 now1 res1) s in
    let s2 := execState (App.clickTodayControl tz uid today2 now2 res2) s1 in
    let s3 := execState (App.clickTodayControl tz uid today3 now3 res3) s2 in
    exists r,
      EmployeeDashboard.todayRecord tz uid (App.attendanceRecords s2) today3
      = Some r
      /\ checkIn r = Some now1 /\ checkOut r = Some now2
      /\ id r = (uid ++ "-" ++ EmployeeDashboard.todayStr tz today1)%string
      /\ status r = status (EmployeeDashboard.handleCheckIn tz uid today1 now1)
      /\ Spec.durationOfWholeMinutes r
      /\ (0 <= durationHours r)%Q
      /\ EmployeeDashboard.todayControl tz uid (App.attendanceRecords s2) today3
         = EmployeeDashboard.CompletedBadge
      /\ s3 = s2
      /\ exists r1,
          App.requests s2
          = (App.requests s ++ [App.Upsert r1; App.Upsert r])%list.
Proof.
  intros tz uid today1 today2 today3 now1 now2 now3 res1 res2 res3 s
         Hnone H2 H3 Hle. cbv zeta.
  pose proof (first_click_run tz uid today1 now1 res1 s Hnone) as Hrun.
  set (s1 := execState (App.clickTodayControl tz uid today1 now1 res1) s) in *.
  set (r1 := EmployeeDashboard.handleCheckIn tz uid today1 now1) in *.
  assert (Hrec1 : EmployeeDashboard.todayRecord tz uid
                    (App.attendanceRecords s1) today1 = Some r1)
    by (rewrite Hrun, handleUpdateRecord_records;
        now apply todayRecord_after_checkIn).
  assert (Hreq1 : App.requests s1 = (App.requests s ++ [App.Upsert r1])%list)
    by (rewrite Hrun; apply handleUpdateRecord_requests).
  assert (Hid1 : id r1 = (uid ++ "-" ++ EmployeeDashboard.todayStr tz today1)%string)
    by reflexivity.
  assert (Hci1 : checkIn r1 = Some now1) by reflexivity.
  assert (Hco1 : checkOut r1 = None) by reflexivity.
  (* the second click is a check-out *)
  assert (Hrec1' : EmployeeDashboard.todayRecord tz uid
                     (App.attendanceRecords s1) today2 = Some r1)
    by (rewrite (todayRecord_same_day _ _ _ today1 today2 H2); exact Hrec1).
  assert (Hout : exists r,
    EmployeeDashboard.handleCheckOut tz uid (App.attendanceRecords s1) today2 now2
    = Some r
    /\ r = withCheckOut r1 (Some now2)
             (JS.toFixed 2
                (inject_Z (DateFns.differenceInMinutes now2 now1) / 60))).
  { unfold EmployeeDashboard.handleCheckOut. rewrite Hrec1', Hci1. eauto. }
  destruct Hout as (r & Hout & Hr).
  assert (Hs2 : execState (App.clickTodayControl tz uid today2 now2 res2) s1
                = execState (App.handleUpdateRecord r res2) s1).
  { rewrite clickTodayControl_run.
    unfold EmployeeDashboard.clickTodayControl, EmployeeDashboard.todayControl.
    rewrite Hrec1', Hco1. cbn. now rewrite Hout. }
  rewrite Hs2.
  set (s2 := execState (App.handleUpdateRecord r res2) s1) in *.
  assert (Hrec2 : EmployeeDashboard.todayRecord tz uid
                    (App.attendanceRecords s2) today3 = Some r).
  { rewrite (todayRecord_same_day _ _ _ today2 today3) by congruence.
    unfold s2. rewrite handleUpdateRecord_records.
    now apply (todayRecord_after_checkOut tz uid _ today2 now2 r1). }
  assert (Hctl : EmployeeDashboard.todayControl tz uid
                   (App.attendanceRecords s2) today3
                 = EmployeeDashboard.CompletedBadge).
  { unfold EmployeeDashboard.todayControl. rewrite Hrec2, Hr. reflexivity. }
  assert (Hdur : Spec.durationOfWholeMinutes r)
    by (eapply handleCheckOut_duration; exact Hout).
  exists r. split; [exact Hrec2 |].
  split; [rewrite Hr; exact Hci1 |]. split; [rewrite Hr; reflexivity |].
  split; [rewrite Hr; exact Hid1 |]. split; [rewrite Hr; reflexivity |].
  split; [exact Hdur |].
  split.
  { unfold Spec.durationOfWholeMinutes in Hdur.
    rewrite Hr in Hdur |- *. cbn [withCheckOut checkIn checkOut durationHours] in *.
    rewrite Hci1 in Hdur. now apply Hdur. }
  split; [exact Hctl |]. split.
  { rewrite clickTodayControl_run. unfold EmployeeDashboard.clickTodayControl.
    now rewrite Hctl. }
  exists r1. unfold s2. rewrite handleUpdateRecord_requests, Hreq1.
  now rewrite <- app_assoc.
Qed.

Lemma X6_checkin_then_checkout_completes_the_day_witness :
  exists r,
    EmployeeDashboard.todayRecord 0 Scenario.alice
      (App.attendanceRecords
         (execState (App.clickTodayControl 0 Scenario.alice Scenario.noon
                       Scenario.fivePm Scenario.stored)
            (execState (App.clickTodayControl 0 Scenario.alice Scenario.noon
                          Scenario.noon Scenario.stored)
               (Scenario.emptyApp []))))
      Scenario.sixPm
    = Some r
    /\ checkIn r = Some Scenario.noon /\ checkOut r = Some Scenario.fivePm.
Proof.
  destruct (X6_checkin_then_checkout_completes_the_day 0 Scenario.alice
              Scenario.noon Scenario.noon Scenario.sixPm
              Scenario.noon Scenario.fivePm Scenario.sixPm
              Scenario.stored Scenario.stored Scenario.stored
              (Scenario.emptyApp []))
    as (r & Hrec & Hci & Hco & _).
  - reflexivity.
  - reflexivity.
  - vm_compute. reflexivity.
  - vm_compute. discriminate.
  - exists r. split; [exact Hrec |]. split; [exact Hci | exact Hco].
Defined.

(** ** Manual entries *)

Section ManualEntry.

Import EmployeeDashboard.

Lemma timeGt_later t now now' :
  now <= now' -> JS.timeGt t now = false -> JS.timeGt t now' = false.
Proof.
  destruct t as [x |]; cbn; [| reflexivity].
  intros Hle H. apply Z.ltb_ge in H. apply Z.ltb_ge. lia.
Qed.

(** The guards of [handleSaveEdit] in create mode, when a record of the id
    exists. *)
Lemma saveGuards_existing uid records editingRecord editForm now r :
  In r records -> id r = recordId uid (EditForm.date editForm) ->
  exists early,
    saveGuards uid records true editingRecord editForm now = Some early.
Proof.
  intros Hin Hid. unfold saveGuards. cbn [negb andb].
  destruct (String.eqb (EditForm.date editForm) ""); [eauto |].
  destruct (JS.timeGt (JS.Date_parse (EditForm.date editForm)) now); [eauto |].
  unfold find_.
  destruct (find (fun r0 => String.eqb (id r0)
                              (recordId uid (EditForm.date editForm))) records)
    as [y |] eqn:Hfind; [cbn; eauto |].
  pose proof (find_none _ _ Hfind r Hin) as Hno. cbv beta in Hno.
  rewrite Hid, String.eqb_refl in Hno. discriminate.
Qed.

Lemma handleSaveEdit_id tz uid records isCreating editingRecord editForm now r :
  handleSaveEdit tz uid records isCreating editingRecord editForm now = Saved r ->
  id r = if isCreating then recordId uid (EditForm.date editForm)
         else match editingRecord with
              | Some t => id t
              | None => EmptyString
              end.
Proof.
  unfold handleSaveEdit.
  destruct (saveGuards uid records isCreating editingRecord editForm now)
    as [early |] eqn:Hg.
  - intros ->. apply saveGuards_not_saved in Hg.
    destruct Hg as [Hg | [msg Hg]]; discriminate.
  - destruct (manualDurationStatus tz (EditForm.checkIn editForm)
                (EditForm.checkOut editForm)) as [[d st] |]; [| discriminate].
    intros H. injection H as <-. reflexivity.
Qed.

Lemma manualDurationStatus_status tz ci co d st :
  manualDurationStatus tz ci co = Some (d, st) -> st = PRESENT \/ st = LATE.
Proof.
  unfold manualDurationStatus.
  destruct ci as [start_ |], co as [end_ |];
    try (intros H; injection H as _ <-; now left).
  destruct (end_ <? start_); [discriminate |].
  intros H. injection H as _ <-.
  destruct (10 <=? JS.getHours tz start_); [now right | now left].
Qed.

Lemma minuteOf_le t : EditModal.minuteOf t <= t.
Proof.
  unfold EditModal.minuteOf, JS.msPerMinute.
  pose proof (Z.mod_pos_bound t 60000). lia.
Qed.

Lemma minuteOf_idempotent t :
  EditModal.minuteOf (EditModal.minuteOf t) = EditModal.minuteOf t.
Proof.
  unfold EditModal.minuteOf, JS.msPerMinute. Z.div_mod_to_equations. lia.
Qed.

Lemma minuteOf_monotone a b :
  a <= b -> EditModal.minuteOf a <= EditModal.minuteOf b.
Proof.
  unfold EditModal.minuteOf, JS.msPerMinute. Z.div_mod_to_equations. lia.
Qed.

Lemma option_map_minuteOf_idempotent o :
  option_map EditModal.minuteOf (option_map EditModal.minuteOf o)
  = option_map EditModal.minuteOf o.
Proof. destruct o; cbn; [now rewrite minuteOf_idempotent | reflexivity]. Qed.

(** The times of a reopened record are never in the rejected order. *)
Lemma manualDurationStatus_reopened tz t :
  (forall ci co, checkIn t = Some ci -> checkOut t = Some co -> ci <= co) ->
  exists d st,
    manualDurationStatus tz (option_map EditModal.minuteOf (checkIn t))
      (option_map EditModal.minuteOf (checkOut t)) = Some (d, st).
Proof.
  intros Hord. unfold manualDurationStatus.
  destruct (checkIn t) as [ci |], (checkOut t) as [co |]; cbn; eauto.
  destruct (Z.ltb_spec (EditModal.minuteOf co) (EditModal.minuteOf ci)) as [Hlt | _];
    [| eauto].
  pose proof (minuteOf_monotone ci co (Hord ci co eq_refl eq_refl)). lia.
Qed.

(** The invariant of the modal in edit mode. *)
Lemma onEvents_edit_mode es t :
  let m := EditModal.onEvents es (EditModal.openEditModal t) in
  EditModal.isCreating m = false
  /\ EditModal.editingRecord m = Some t
  /\ EditForm.date (EditModal.editForm m) = date t.
Proof.
  cbv zeta. unfold EditModal.onEvents.
  assert (Hgen : forall m,
    EditModal.isCreating m = false /\ EditModal.editingRecord m = Some t
    /\ EditForm.date (EditModal.editForm m) = date t ->
    let m' := fold_left (fun acc e => EditModal.onEvent e acc) es m in
    EditModal.isCreating m' = false /\ EditModal.editingRecord m' = Some t
    /\ EditForm.date (EditModal.editForm m') = date t).
  { induction es as [| e es IH]; intros m Hm; [exact Hm |].
    cbn [fold_left]. apply IH. destruct Hm as (Hc & He & Hd).
    destruct e; cbn; rewrite ?Hc; cbn; repeat split; assumption. }
  apply Hgen. repeat split.
Qed.

(** The invariant of the modal in create mode. *)
Lemma onEvents_create_mode es tz today :
  let m := EditModal.onEvents es (EditModal.handleAddNew tz today) in
  EditModal.isCreating m = true.
Proof.
  cbv zeta. unfold EditModal.onEvents.
  assert (Hgen : forall m,
    EditModal.isCreating m = true ->
    EditModal.isCreating
      (fold_left (fun acc e => EditModal.onEvent e acc) es m) = true).
  { induction es as [| e es IH]; intros m Hm; [exact Hm |].
    cbn [fold_left]. apply IH.
    destruct e; cbn; rewrite ?Hm; cbn; (reflexivity || assumption). }
  now apply Hgen.
Qed.

End ManualEntry.

(** X7.  One record per employee and date, on the manual path.  A new
    entry whose id [employee-date] is already in the local set is never
    saved; and once a new entry has been saved, the same entry submitted
    again, then or later, gets the alert that a record already exists. *)
Theorem X7_manual_create_refuses_an_existing_id :
  forall tz uid records editingRecord editForm now,
    (forall r r',
       In r records ->
       id r = EmployeeDashboard.recordId uid
                (EmployeeDashboard.EditForm.date editForm) ->
       EmployeeDashboard.handleSaveEdit tz uid records true editingRecord
         editForm now <> EmployeeDashboard.Saved r')
    /\ (forall r now' editingRecord',
          EmployeeDashboard.handleSaveEdit tz uid records true editingRecord
            editForm now = EmployeeDashboard.Saved r ->
          now <= now' ->
          EmployeeDashboard.handleSaveEdit tz uid (App.applyUpdate r records)
            true editingRecord' editForm now'
          = EmployeeDashboard.Rejected EmployeeDashboard.alertExists).
Proof.
  intros tz uid records editingRecord editForm now. split.
  - intros r r' Hin Hid Hsaved.
    destruct (saveGuards_existing uid records editingRecord editForm now r Hin Hid)
      as [early Hearly].
    apply handleSaveEdit_inv in Hsaved. destruct Hsaved as [Hg _]. congruence.
  - intros r now' editingRecord' Hsaved Hle.
    pose proof (handleSaveEdit_id _ _ _ _ _ _ _ _ Hsaved) as Hid. cbn in Hid.
    apply handleSaveEdit_inv in Hsaved. destruct Hsaved as [Hg _].
    unfold EmployeeDashboard.saveGuards in Hg. cbn [negb andb] in Hg.
    unfold EmployeeDashboard.handleSaveEdit, EmployeeDashboard.saveGuards.
    cbn [negb andb].
    destruct (String.eqb (EmployeeDashboard.EditForm.date editForm) "");
      [discriminate |].
    destruct (JS.timeGt (JS.Date_parse (EmployeeDashboard.EditForm.date editForm))
                now) eqn:Hfut; [discriminate |].
    rewrite (timeGt_later _ now now' Hle Hfut).
    unfold find_. rewrite <- Hid.
    rewrite (find_applyUpdate _ r records).
    + reflexivity.
    + apply String.eqb_refl.
    + intros x _ Hx. now apply String.eqb_eq.
Qed.

Lemma X7_manual_create_refuses_an_existing_id_witness :
  EmployeeDashboard.handleSaveEdit 0 Scenario.alice
    (App.applyUpdate Scenario.emptyToday []) true None
    (EmployeeDashboard.EditForm.mk "2024-03-15" None None) Scenario.fivePm
  = EmployeeDashboard.Rejected EmployeeDashboard.alertExists.
Proof.
  destruct (X7_manual_create_refuses_an_existing_id 0 Scenario.alice [] None
              (EmployeeDashboard.EditForm.mk "2024-03-15" None None)
              Scenario.noon) as [_ Hagain].
  apply (Hagain Scenario.emptyToday Scenario.fivePm None).
  - vm_compute. reflexivity.
  - vm_compute. discriminate.
Defined.

(** X8.  The employee dashboard stores only Present or Late: an automatic
    check-in and every saved manual entry carry one of the two, so saving an
    edit of a record that was Absent, Half Day or On Leave replaces that
    status; a check-out keeps the status of the record it closes. *)
Theorem X8_dashboard_stores_only_present_or_late :
  forall tz uid records today now isCreating editingRecord editForm,
    (status (EmployeeDashboard.handleCheckIn tz uid today now) = PRESENT
     \/ status (EmployeeDashboard.handleCheckIn tz uid today now) = LATE)
    /\ (forall r,
          EmployeeDashboard.handleSaveEdit tz uid records isCreating
            editingRecord editForm now = EmployeeDashboard.Saved r ->
          status r = PRESENT \/ status r = LATE)
    /\ (forall r t,
          EmployeeDashboard.todayRecord tz uid records today = Some t ->
          EmployeeDashboard.handleCheckOut tz uid records today now = Some r ->
          status r = status t).
Proof.
  intros tz uid records today now isCreating editingRecord editForm.
  split; [| split].
  - unfold EmployeeDashboard.handleCheckIn. cbn [status].
    destruct (10 <=? JS.getHours tz now); [now right | now left].
  - intros r Hsaved. apply handleSaveEdit_inv in Hsaved.
    destruct Hsaved as (_ & _ & _ & _ & _ & Hm).
    eapply manualDurationStatus_status. exact Hm.
  - intros r t Ht Hout. apply handleCheckOut_inv in Hout.
    destruct Hout as (t' & Ht' & ->). rewrite Ht in Ht'. now injection Ht' as <-.
Qed.

(** A day on leave, reopened and saved unchanged, comes back Present. *)
Lemma X8_dashboard_stores_only_present_or_late_witness :
  status (mkRecord "u1-2024-03-14" Scenario.alice "2024-03-14" None None
            PRESENT 0)
  = PRESENT
  \/ status (mkRecord "u1-2024-03-14" Scenario.alice "2024-03-14" None None
               PRESENT 0)
     = LATE.
Proof.
  destruct (X8_dashboard_stores_only_present_or_late 0 Scenario.alice [] 
              Scenario.noon Scenario.noon false
              (Some (mkRecord "u1-2024-03-14" Scenario.alice "2024-03-14"
                       None None ON_LEAVE 0))
              (EditModal.editForm
                 (EditModal.openEditModal
                    (mkRecord "u1-2024-03-14" Scenario.alice "2024-03-14"
                       None None ON_LEAVE 0))))
    as (_ & Hsave & _).
  apply Hsave. vm_compute. reflexivity.
Defined.

(** X9.  Reopening a record and saving it unchanged.  For a record whose
    date passes the future-date guard and whose times are in order, "Modify"
    followed by "Save Changes" hands over a record with the same id and
    date, the employee as owner, and both times cut to the whole minute;
    doing the same with that record, then or later, hands over that record
    again. *)
Theorem X9_reopen_and_save_cuts_to_the_minute :
  forall tz uid records records' now now' t,
    JS.timeGt (JS.Date_parse (date t)) now = false ->
    (forall ci co, checkIn t = Some ci -> checkOut t = Some co -> ci <= co) ->
    now <= now' ->
    exists r,
      EditModal.save tz uid records now (EditModal.openEditModal t)
      = EmployeeDashboard.Saved r
      /\ id r = id t /\ date r = date t /\ employeeId r = uid
      /\ checkIn r = option_map EditModal.minuteOf (checkIn t)
      /\ checkOut r = option_map EditModal.minuteOf (checkOut t)
      /\ EditModal.save tz uid records' now' (EditModal.openEditModal r)
         = EmployeeDashboard.Saved r.
Proof.
  intros tz uid records records' now now' t Hfut Hord Hle.
  destruct (manualDurationStatus_reopened tz t Hord) as (d & st & Hm).
  exists (mkRecord (id t) uid (date t)
            (option_map EditModal.minuteOf (checkIn t))
            (option_map EditModal.minuteOf (checkOut t)) st d).
  assert (Hsave : forall recs n,
    JS.timeGt (JS.Date_parse (date t)) n = false ->
    forall t', id t' = id t -> date t' = date t ->
      option_map EditModal.minuteOf (checkIn t')
      = option_map EditModal.minuteOf (checkIn t) ->
      option_map EditModal.minuteOf (checkOut t')
      = option_map EditModal.minuteOf (checkOut t) ->
      EditModal.save tz uid recs n (EditModal.openEditModal t')
      = EmployeeDashboard.Saved
          (mkRecord (id t) uid (date t)
             (option_map EditModal.minuteOf (checkIn t))
             (option_map EditModal.minuteOf (checkOut t)) st d)).
  { intros recs n Hn t' Hid Hdate Hci Hco.
    unfold EditModal.save, EditModal.openEditModal.
    cbn [EditModal.isCreating EditModal.editingRecord EditModal.editForm].
    unfold EmployeeDashboard.handleSaveEdit, EmployeeDashboard.saveGuards.
    cbn [negb andb EmployeeDashboard.isNull EmployeeDashboard.EditForm.date
         EmployeeDashboard.EditForm.checkIn EmployeeDashboard.EditForm.checkOut].
    rewrite Hdate, Hn, Hci, Hco, Hm, Hid. reflexivity. }
  split; [now apply Hsave |].
  cbn [id date employeeId checkIn checkOut]. repeat split.
  apply Hsave; cbn [id date checkIn checkOut];
    try reflexivity; try apply option_map_minuteOf_idempotent.
  now apply (timeGt_later _ now now').
Qed.

Lemma X9_reopen_and_save_cuts_to_the_minute_witness :
  exists r,
    EditModal.save 0 Scenario.alice [Scenario.checkedIn0900] Scenario.fivePm
      (EditModal.openEditModal Scenario.checkedIn0900)
    = EmployeeDashboard.Saved r
    /\ checkIn r = Some (Scenario.utc 2024 3 15 9 0 0).
Proof.
  destruct (X9_reopen_and_save_cuts_to_the_minute 0 Scenario.alice
              [Scenario.checkedIn0900] [] Scenario.fivePm Scenario.fivePm
              Scenario.checkedIn0900) as (r & Hsave & _ & _ & _ & Hci & _).
  - vm_compute. reflexivity.
  - intros ci co _ Hco. discriminate Hco.
  - vm_compute. discriminate.
  - exists r. split; [exact Hsave |]. rewrite Hci. vm_compute. reflexivity.
Defined.

(** X10.  The id follows the origin of the entry.  Whatever the user types
    in the modal or however often it is closed, a record saved from
    "Modify" keeps the id and the date of the record that was opened, and a
    record saved from "Add Missing Record" has the id [employee-date] of the
    date it stores. *)
Theorem X10_saved_id_follows_the_origin :
  forall tz uid records now today es t r,
    (EditModal.save tz uid records now
       (EditModal.onEvents es (EditModal.openEditModal t))
     = EmployeeDashboard.Saved r ->
     id r = id t /\ date r = date t)
    /\ (EditModal.save tz uid records now
          (EditModal.onEvents es (EditModal.handleAddNew tz today))
        = EmployeeDashboard.Saved r ->
        id r = (uid ++ "-" ++ date r)%string).
Proof.
  intros tz uid records now today es t r. split.
  - destruct (onEvents_edit_mode es t) as (Hc & He & Hd).
    unfold EditModal.save. intros Hsaved.
    pose proof (handleSaveEdit_id _ _ _ _ _ _ _ _ Hsaved) as Hid.
    rewrite Hc, He in Hid.
    apply handleSaveEdit_inv in Hsaved.
    destruct Hsaved as (_ & _ & Hdate & _). split; congruence.
  - pose proof (onEvents_create_mode es tz today) as Hc.
    unfold EditModal.save. intros Hsaved.
    pose proof (handleSaveEdit_id _ _ _ _ _ _ _ _ Hsaved) as Hid.
    rewrite Hc in Hid.
    apply handleSaveEdit_inv in Hsaved.
    destruct Hsaved as (_ & _ & Hdate & _).
    rewrite Hid, Hdate. reflexivity.
Qed.

Lemma X10_saved_id_follows_the_origin_witness :
  id (mkRecord "u1-2024-03-15" Scenario.alice "2024-03-15"
        (Some Scenario.noon) None PRESENT 0)
  = id Scenario.lateArrival.
Proof.
  destruct (X10_saved_id_follows_the_origin 0 Scenario.alice
              [Scenario.lateArrival] Scenario.fivePm Scenario.fivePm
              [EditModal.ChangeDate "2024-03-01";
               EditModal.ChangeCheckIn (Some Scenario.noon)]
              Scenario.lateArrival
              (mkRecord "u1-2024-03-15" Scenario.alice "2024-03-15"
                 (Some Scenario.noon) None PRESENT 0)) as [Hedit _].
  apply Hedit. vm_compute. reflexivity.
Defined.

(** X11.  Today's date and the future-date guard.  For [d] the actor's
    current date, the guard of [handleSaveEdit] takes [d] for a future date
    exactly when the local time of day is less than the offset east of UTC;
    a new entry for today is then refused with the future-date alert. *)
Theorem X11_today_is_refused_in_the_first_hours_east_of_utc :
  forall tz uid records editingRecord editForm now c,
    JS.parseCivil (EmployeeDashboard.EditForm.date editForm) = Some c ->
    JS.MakeDay c = JS.localDay tz now ->
    (JS.timeGt (JS.Date_parse (EmployeeDashboard.EditForm.date editForm)) now
     = true
     <-> JS.toLocal tz now mod JS.msPerDay < tz * JS.msPerMinute)
    /\ (JS.toLocal tz now mod JS.msPerDay < tz * JS.msPerMinute ->
        EmployeeDashboard.handleSaveEdit tz uid records true editingRecord
          editForm now
        = EmployeeDashboard.Rejected EmployeeDashboard.alertFutureDate).
Proof.
  intros tz uid records editingRecord editForm now c Hparse Hday.
  assert (Hiff :
    JS.timeGt (JS.Date_parse (EmployeeDashboard.EditForm.date editForm)) now
    = true
    <-> JS.toLocal tz now mod JS.msPerDay < tz * JS.msPerMinute).
  { unfold JS.Date_parse. rewrite Hparse. cbn [JS.timeGt]. rewrite Hday.
    rewrite Z.ltb_lt.
    unfold JS.localDay, JS.toLocal, JS.msPerDay, JS.msPerMinute.
    Z.div_mod_to_equations. lia. }
  split; [exact Hiff |].
  intros Hearly. apply Hiff in Hearly.
  unfold EmployeeDashboard.handleSaveEdit, EmployeeDashboard.saveGuards.
  cbn [negb andb].
  rewrite (parseCivil_nonempty _ _ Hparse), Hearly. reflexivity.
Qed.

(** Kolkata, five and a half hours east of UTC, at 03:00 of the fifteenth of
    March: an entry for the fifteenth is refused as a future date. *)
Lemma X11_today_is_refused_in_the_first_hours_east_of_utc_witness :
  EmployeeDashboard.handleSaveEdit 330 Scenario.alice [] true None
    (EmployeeDashboard.EditForm.mk "2024-03-15" None None)
    (Scenario.utc 2024 3 14 21 30 0)
  = EmployeeDashboard.Rejected EmployeeDashboard.alertFutureDate.
Proof.
  destruct (X11_today_is_refused_in_the_first_hours_east_of_utc 330
              Scenario.alice [] None
              (EmployeeDashboard.EditForm.mk "2024-03-15" None None)
              (Scenario.utc 2024 3 14 21 30 0) (JS.mkCivil 2024 3 15))
    as [_ Hrefused].
  - vm_compute. reflexivity.
  - vm_compute. reflexivity.
  - apply Hrefused. vm_compute. reflexivity.
Defined.

(** ** Statistics: bounds *)

Section StatisticsBounds.

Local Open Scope Q_scope.

Lemma counts_all_attended (recs : list AttendanceRecord) :
  (forall r, In r recs -> status r = PRESENT \/ status r = LATE) ->
  (Spec.statusCount PRESENT recs + Spec.statusCount LATE recs
   = List.length recs)%nat.
Proof.
  unfold Spec.statusCount.
  induction recs as [| r l IH]; intros Hall; cbn; [reflexivity |].
  assert (IH' := IH (fun x Hx => Hall x (or_intror Hx))).
  destruct (Hall r (or_introl eq_refl)) as [-> | ->]; cbn; lia.
Qed.

Lemma counts_none_attended (recs : list AttendanceRecord) :
  (forall r, In r recs -> status r <> PRESENT /\ status r <> LATE) ->
  (Spec.statusCount PRESENT recs + Spec.statusCount LATE recs = 0)%nat.
Proof.
  unfold Spec.statusCount.
  induction recs as [| r l IH]; intros Hall; cbn; [reflexivity |].
  assert (IH' := IH (fun x Hx => Hall x (or_intror Hx))).
  destruct (Hall r (or_introl eq_refl)) as [Hp Hl].
  destruct (status r); cbn; (congruence || lia).
Qed.

(** The rate of a whole is 100, the rate of nothing is 0. *)
Lemma rate_of_whole (n : nat) :
  (0 < n)%nat ->
  JS.Math_round
    (Float64.mul (Float64.div (inject_Z (Z.of_nat n)) (inject_Z (Z.of_nat n)))
       100) = 100%Z.
Proof.
  intros Hn. unfold Float64.mul, Float64.div.
  assert (H1 : inject_Z (Z.of_nat n) / inject_Z (Z.of_nat n) == 1)
    by (field; now apply count_positive_nonzero).
  rewrite (round_compat _ _ H1).
  change (Float64.round 1) with 1.
  assert (H100 : 1 * 100 == 100) by reflexivity.
  rewrite (round_compat _ _ H100). reflexivity.
Qed.

Lemma rate_of_nothing (n : nat) :
  JS.Math_round
    (Float64.mul (Float64.div (inject_Z (Z.of_nat 0)) (inject_Z (Z.of_nat n)))
       100) = 0%Z.
Proof.
  unfold Float64.mul, Float64.div.
  assert (H0 : inject_Z (Z.of_nat 0) / inject_Z (Z.of_nat n) == 0)
    by (unfold Qdiv; change (inject_Z (Z.of_nat 0)) with 0; ring).
  rewrite (round_zero _ H0).
  assert (H0' : 0 * 100 == 0) by reflexivity.
  rewrite (round_zero _ H0'). reflexivity.
Qed.

End StatisticsBounds.

(** X12.  The attendance rate is a percentage.  For every record set the
    [attendanceRate] of both dashboards lies between 0 and 100; it is 100
    when the set is not empty and every record is Present or Late, and 0
    when no record is. *)
Theorem X12_attendance_rate_is_a_percentage :
  forall recs : list AttendanceRecord,
    let rate := ManagerDashboard.attendanceRate
                  (ManagerDashboard.calculateStats recs) in
    EmployeeDashboard.attendanceRate (EmployeeDashboard.stats recs) = rate
    /\ 0 <= rate <= 100
    /\ (recs <> [] ->
        (forall r, In r recs -> status r = PRESENT \/ status r = LATE) ->
        rate = 100)
    /\ ((forall r, In r recs -> status r <> PRESENT /\ status r <> LATE) ->
        rate = 0).
Proof.
  intros recs. cbv zeta. split; [reflexivity |].
  rewrite attendanceRate_as_counts.
  pose proof (counts_le_length recs) as Hle.
  destruct (Nat.ltb_spec 0 (List.length recs)) as [Hpos | Hzero].
  - split; [exact (proj1 (rate_bounds _ _ Hpos Hle)) |]. split.
    + intros _ Hall. rewrite (counts_all_attended recs Hall).
      now apply rate_of_whole.
    + intros Hnone. rewrite (counts_none_attended recs Hnone).
      apply rate_of_nothing.
  - split; [lia |]. split; [| reflexivity].
    intros Hne. destruct recs; [congruence | cbn in Hzero; lia].
Qed.

Lemma X12_attendance_rate_is_a_percentage_witness :
  ManagerDashboard.attendanceRate
    (ManagerDashboard.calculateStats Scenario.fifteenDays) = 100.
Proof.
  destruct (X12_attendance_rate_is_a_percentage Scenario.fifteenDays)
    as (_ & _ & Hall & _).
  apply Hall.
  - discriminate.
  - intros r Hr. left. vm_compute in Hr.
    repeat (destruct Hr as [<- | Hr]; [reflexivity |]). destruct Hr.
Defined.

(** ** [formatDuration] *)

Section FormatDuration.

Local Open Scope Q_scope.



End FormatDuration.



(** ** The order of the records *)

Section Sorting.

Lemma insertDateDesc_perm x l : Permutation (x :: l) (insertDateDesc x l).
Proof.
  induction l as [| y l IH]; cbn; [reflexivity |].
  destruct (0 <? compareDateDesc x y); [| reflexivity].
  rewrite perm_swap. now apply perm_skip.
Qed.

Lemma sortDateDesc_perm l : Permutation l (sortDateDesc l).
Proof.
  induction l as [| x l IH]; [constructor |].
  change (sortDateDesc (x :: l)) with (insertDateDesc x (sortDateDesc l)).
  rewrite <- insertDateDesc_perm. now apply perm_skip.
Qed.

(** A record that goes behind another is not newer than it. *)
Lemma compareDateDesc_behind x y :
  0 < compareDateDesc x y -> Facts.notOlder y x.
Proof.
  unfold Facts.notOlder, compareDateDesc.
  destruct (JS.Date_parse (date x)), (JS.Date_parse (date y)); lia.
Qed.

Lemma HdRel_insertDateDesc y x l :
  HdRel Facts.notOlder y l -> Facts.notOlder y x ->
  HdRel Facts.notOlder y (insertDateDesc x l).
Proof.
  intros Hhd Hyx. destruct l as [| z l]; cbn; [now constructor |].
  destruct (0 <? compareDateDesc x z); [| now constructor].
  inversion Hhd; subst. now constructor.
Qed.

Lemma insertDateDesc_sorted x l :
  Sorted Facts.notOlder l -> Sorted Facts.notOlder (insertDateDesc x l).
Proof.
  induction l as [| y l IH]; intros Hs; cbn; [repeat constructor |].
  destruct (Z.ltb_spec 0 (compareDateDesc x y)) as [Hgt | Hle].
  - inversion Hs; subst. constructor; [now apply IH |].
    apply HdRel_insertDateDesc; [assumption | now apply compareDateDesc_behind].
  - constructor; [exact Hs |]. constructor. exact Hle.
Qed.

Lemma sortDateDesc_sorted l : Sorted Facts.notOlder (sortDateDesc l).
Proof.
  induction l as [| x l IH]; [constructor |].
  change (sortDateDesc (x :: l)) with (insertDateDesc x (sortDateDesc l)).
  now apply insertDateDesc_sorted.
Qed.

(** A list in order is left as it is. *)
Lemma sortDateDesc_fixpoint l :
  Sorted Facts.notOlder l -> sortDateDesc l = l.
Proof.
  induction l as [| x l IH]; intros Hs; [reflexivity |].
  change (sortDateDesc (x :: l)) with (insertDateDesc x (sortDateDesc l)).
  inversion Hs as [| ? ? Hs' Hhd]; subst. rewrite (IH Hs').
  destruct l as [| y l]; cbn; [reflexivity |].
  inversion Hhd as [| ? ? Hxy]; subst. unfold Facts.notOlder in Hxy.
  destruct (Z.ltb_spec 0 (compareDateDesc x y)); [lia | reflexivity].
Qed.

Lemma notOlder_newerOrSame a b :
  (exists c, JS.parseCivil (date a) = Some c) ->
  (exists c, JS.parseCivil (date b) = Some c) ->
  Facts.notOlder a b -> Facts.newerOrSame a b.
Proof.
  intros [ca Ha] [cb Hb]. unfold Facts.notOlder, Facts.newerOrSame, compareDateDesc.
  unfold JS.Date_parse. rewrite Ha, Hb. intros Hle.
  eexists. eexists. split; [reflexivity |]. split; [reflexivity |]. lia.
Qed.

Lemma newerOrSame_trans a b c :
  Facts.newerOrSame a b -> Facts.newerOrSame b c -> Facts.newerOrSame a c.
Proof.
  intros (ta & tb & Ha & Hb & Hab) (tb' & tc & Hb' & Hc & Hbc).
  exists ta, tc. rewrite Hb in Hb'. injection Hb' as <-.
  split; [exact Ha |]. split; [exact Hc | lia].
Qed.

Lemma Sorted_newerOrSame l :
  Facts.datesParse l -> Sorted Facts.notOlder l ->
  StronglySorted Facts.newerOrSame l.
Proof.
  intros Hparse Hs. apply Sorted_StronglySorted.
  - intros a b c. apply newerOrSame_trans.
  - induction Hs as [| x l Hs IH Hhd]; [constructor |].
    constructor.
    + apply IH. intros r Hr. apply Hparse. now right.
    + destruct Hhd as [| y l Hxy]; constructor.
      apply notOlder_newerOrSame; [| | exact Hxy].
      * apply Hparse. now left.
      * apply Hparse. right. now left.
Qed.

Lemma datesParse_perm l l' :
  Permutation l l' -> Facts.datesParse l -> Facts.datesParse l'.
Proof.
  intros Hperm Hparse r Hr. apply Hparse.
  eapply Permutation_in; [apply Permutation_sym; exact Hperm | exact Hr].
Qed.

Lemma parseISO_parseCivil tz d t :
  DateFns.parseISO tz d = Some t -> exists c, JS.parseCivil d = Some c.
Proof.
  unfold DateFns.parseISO. destruct (JS.parseCivil d) as [c |]; [eauto | discriminate].
Qed.

Lemma sortDateDesc_newest_first l :
  Facts.datesParse l -> StronglySorted Facts.newerOrSame (sortDateDesc l).
Proof.
  intros Hparse. apply Sorted_newerOrSame; [| apply sortDateDesc_sorted].
  eapply datesParse_perm; [apply sortDateDesc_perm | exact Hparse].
Qed.

End Sorting.

(** X14.  The sort by date.  [sortDateDesc] keeps every record, each as
    often as it was there; in its result no record is followed by a newer
    one, and when every date is a calendar date the whole result runs from
    the most recent date to the oldest; a list already in that order is
    returned as it is. *)
Theorem X14_sort_newest_first :
  forall l : list AttendanceRecord,
    Permutation l (sortDateDesc l)
    /\ Sorted Facts.notOlder (sortDateDesc l)
    /\ (Facts.datesParse l -> StronglySorted Facts.newerOrSame (sortDateDesc l))
    /\ (Sorted Facts.notOlder l -> sortDateDesc l = l)
    /\ sortDateDesc (sortDateDesc l) = sortDateDesc l.
Proof.
  intros l. split; [apply sortDateDesc_perm |].
  split; [apply sortDateDesc_sorted |]. split; [| split].
  - apply sortDateDesc_newest_first.
  - apply sortDateDesc_fixpoint.
  - apply sortDateDesc_fixpoint, sortDateDesc_sorted.
Qed.

Lemma X14_sort_newest_first_witness :
  StronglySorted Facts.newerOrSame
    (sortDateDesc [Scenario.shortDay; Scenario.lateArrival]).
Proof.
  destruct (X14_sort_newest_first [Scenario.shortDay; Scenario.lateArrival])
    as (_ & _ & Hstrong & _).
  apply Hstrong. intros r [<- | [<- | []]]; eexists; vm_compute; reflexivity.
Defined.

Lemma inSelectedMonth_datesParse tz today selectedMonth l :
  Facts.datesParse
    (filter (EmployeeDashboard.inSelectedMonth tz today selectedMonth) l).
Proof.
  intros r Hr. apply filter_In in Hr. destruct Hr as [_ Hr].
  unfold EmployeeDashboard.inSelectedMonth in Hr.
  destruct (DateFns.parseISO tz (date r)) as [t |] eqn:Ht; [| discriminate].
  eapply parseISO_parseCivil. exact Ht.
Qed.

Lemma team_inSelectedMonth_datesParse tz today selectedMonth l :
  Facts.datesParse
    (filter (ManagerDashboard.inSelectedMonth tz today selectedMonth) l).
Proof.
  intros r Hr. apply filter_In in Hr. destruct Hr as [_ Hr].
  unfold ManagerDashboard.inSelectedMonth in Hr.
  destruct (DateFns.parseISO tz (date r)) as [t |] eqn:Ht; [| discriminate].
  eapply parseISO_parseCivil. exact Ht.
Qed.

Lemma inSelectedMonth_same tz today selectedMonth r :
  ManagerDashboard.inSelectedMonth tz today selectedMonth r
  = EmployeeDashboard.inSelectedMonth tz today selectedMonth r.
Proof.
  unfold ManagerDashboard.inSelectedMonth, EmployeeDashboard.inSelectedMonth,
    ManagerDashboard.previousMonthStart, ManagerDashboard.previousMonthEnd,
    ManagerDashboard.previousMonthDate, EmployeeDashboard.previousMonthStart,
    EmployeeDashboard.previousMonthEnd, EmployeeDashboard.previousMonthDate.
  reflexivity.
Qed.

(** ** The calendar *)

Section Calendar.

Import JS.

(** The year of the era from the day of the era. *)
Lemma yoe_recover yoe doy :
  0 <= yoe < 400 -> 0 <= doy ->
  doy <= 364 + (if (yoe mod 4 =? 3) && (negb (yoe mod 100 =? 99) || (yoe =? 399))
                then 1 else 0) ->
  let doe := 365 * yoe + yoe / 4 - yoe / 100 + doy in
  0 <= doe < 146097
  /\ (doe - doe / 1460 + doe / 36524 - doe / 146096) / 365 = yoe.
Proof.
  intros Hy Hd Hmax doe. subst doe.
  assert (Hc : yoe / 100 = 0 \/ yoe / 100 = 1 \/ yoe / 100 = 2 \/ yoe / 100 = 3)
    by (Z.div_mod_to_equations; lia).
  destruct (Z.eqb_spec (yoe mod 4) 3), (Z.eqb_spec (yoe mod 100) 99),
    (Z.eqb_spec yoe 399); cbn [andb orb negb] in Hmax;
    destruct Hc as [Hc | [Hc | [Hc | Hc]]]; rewrite Hc;
    try (split; Z.div_mod_to_equations; lia).
Qed.

(** The calendar date of a day given by its era, year of the era, month
    counted from March and day. *)
Lemma civilFromDays_parts n e yoe mp d :
  0 <= yoe < 400 -> 0 <= mp <= 11 -> 1 <= d ->
  (153 * mp + 2) / 5 + d - 1
  <= (if mp =? 11
      then 364 + (if (yoe mod 4 =? 3)
                     && (negb (yoe mod 100 =? 99) || (yoe =? 399))
                  then 1 else 0)
      else (153 * (mp + 1) + 2) / 5 - 1) ->
  n + 719468
  = 146097 * e + 365 * yoe + yoe / 4 - yoe / 100 + (153 * mp + 2) / 5 + d - 1 ->
  civilFromDays n
  = mkCivil (yoe + e * 400 + (if mp <? 10 then 0 else 1))
            (if mp <? 10 then mp + 3 else mp - 9) d.
Proof.
  intros Hy Hmp Hd Hlen Hn.
  set (doy := (153 * mp + 2) / 5 + d - 1) in *.
  assert (Hdoy0 : 0 <= doy) by (unfold doy; Z.div_mod_to_equations; lia).
  assert (Hdoy1 :
    doy <= 364 + (if (yoe mod 4 =? 3)
                     && (negb (yoe mod 100 =? 99) || (yoe =? 399))
                  then 1 else 0)).
  { destruct (Z.eqb_spec mp 11) as [-> | Hne]; [exact Hlen |].
    destruct ((yoe mod 4 =? 3) && (negb (yoe mod 100 =? 99) || (yoe =? 399)));
      Z.div_mod_to_equations; lia. }
  destruct (yoe_recover yoe doy Hy Hdoy0 Hdoy1) as [Hdoe Hyoe]. cbv zeta in *.
  set (doe := 365 * yoe + yoe / 4 - yoe / 100 + doy) in *.
  unfold civilFromDays. cbv zeta.
  assert (Hera : (n + 719468) / 146097 = e).
  { symmetry. apply (Z.div_unique_pos _ _ e doe); [lia |]. unfold doe. lia. }
  rewrite Hera.
  replace (n + 719468 - e * 146097) with doe by (unfold doe; lia).
  rewrite Hyoe.
  replace (doe - (365 * yoe + yoe / 4 - yoe / 100)) with doy by (unfold doe; lia).
  assert (Hnext : doy < (153 * (mp + 1) + 2) / 5).
  { destruct (Z.eqb_spec mp 11) as [-> | Hne]; [| lia].
    change ((153 * (11 + 1) + 2) / 5) with 367.
    destruct ((yoe mod 4 =? 3) && (negb (yoe mod 100 =? 99) || (yoe =? 399)));
      lia. }
  assert (Hmp' : (5 * doy + 2) / 153 = mp).
  { assert (Hprev : (153 * mp + 2) / 5 <= doy) by (unfold doy; lia).
    clearbody doy. clear Hyoe Hdoe Hera Hlen Hdoy1 Hn doe.
    assert (Hcases : mp = 0 \/ mp = 1 \/ mp = 2 \/ mp = 3 \/ mp = 4 \/ mp = 5
                     \/ mp = 6 \/ mp = 7 \/ mp = 8 \/ mp = 9 \/ mp = 10
                     \/ mp = 11) by lia.
    repeat (destruct Hcases as [-> | Hcases]); try subst mp;
      cbn in Hprev, Hnext; Z.div_mod_to_equations; lia. }
  rewrite Hmp'.
  replace (doy - (153 * mp + 2) / 5 + 1) with d by (unfold doy; lia).
  destruct (Z.ltb_spec mp 10) as [Hlt | Hge].
  - replace (mp + 3 <=? 2) with false by (symmetry; apply Z.leb_gt; lia).
    f_equal.
  - replace (mp - 9 <=? 2) with true by (symmetry; apply Z.leb_le; lia).
    f_equal.
Qed.

(** The day number of a calendar date, by era, year of the era, month
    counted from March and day. *)
Lemma MakeDay_parts y m d :
  1 <= m <= 12 ->
  let y' := if m <=? 2 then y - 1 else y in
  let mp := if m <=? 2 then m + 9 else m - 3 in
  MakeDay (mkCivil y m d) + 719468
  = 146097 * (y' / 400) + 365 * (y' mod 400) + (y' mod 400) / 4
    - (y' mod 400) / 100 + (153 * mp + 2) / 5 + d - 1.
Proof.
  intros Hm. cbv zeta.
  assert (Hcases : m = 1 \/ m = 2 \/ m = 3 \/ m = 4 \/ m = 5 \/ m = 6 \/ m = 7
                   \/ m = 8 \/ m = 9 \/ m = 10 \/ m = 11 \/ m = 12) by lia.
  unfold MakeDay, DayFromYear, DaysBeforeMonth, InLeapYear.
  cbn [year month day].
  repeat (destruct Hcases as [-> | Hcases]); try subst m;
    cbn -[Z.mul Z.div Z.modulo Z.add Z.sub];
    destruct (Z.eqb_spec (y mod 4) 0), (Z.eqb_spec (y mod 100) 0),
      (Z.eqb_spec (y mod 400) 0); cbn [andb orb negb];
    Z.div_mod_to_equations; lia.
Qed.


(** A calendar date is the date of its day number. *)
Lemma civilFromDays_MakeDay c :
  validCivil c = true -> civilFromDays (MakeDay c) = c.
Proof.
  intros Hvalid. apply validCivil_bounds in Hvalid.
  destruct c as [y m d]. cbn [year month day] in Hvalid.
  destruct Hvalid as [Hm [Hd1 Hd2]].
  pose proof (MakeDay_parts y m d Hm) as Hparts. cbv zeta in Hparts.
  set (y' := if m <=? 2 then y - 1 else y) in *.
  set (mp := if m <=? 2 then m + 9 else m - 3) in *.
  assert (Hyoe : 0 <= y' mod 400 < 400) by (apply Z.mod_pos_bound; lia).
  assert (Hy' : y' = 400 * (y' / 400) + y' mod 400) by (apply Z.div_mod; lia).
  assert (Hleap : InLeapYear (y' + 1)
                  = (y' mod 400 mod 4 =? 3)
                    && (negb (y' mod 400 mod 100 =? 99) || (y' mod 400 =? 399))).
  { unfold InLeapYear.
    destruct (Z.eqb_spec ((y' + 1) mod 4) 0), (Z.eqb_spec ((y' + 1) mod 100) 0),
      (Z.eqb_spec ((y' + 1) mod 400) 0), (Z.eqb_spec (y' mod 400 mod 4) 3),
      (Z.eqb_spec (y' mod 400 mod 100) 99), (Z.eqb_spec (y' mod 400) 399);
      cbn [andb orb negb]; try reflexivity; exfalso;
      Z.div_mod_to_equations; lia. }
  rewrite (civilFromDays_parts (MakeDay (mkCivil y m d)) (y' / 400) (y' mod 400)
             mp d Hyoe).
  - (* the date read back *)
    unfold mp, y' in *. clear Hparts Hleap.
    destruct (Z.leb_spec m 2).
    + replace (m + 9 <? 10) with false by (symmetry; apply Z.ltb_ge; lia).
      f_equal; lia.
    + replace (m - 3 <? 10) with true by (symmetry; apply Z.ltb_lt; lia).
      f_equal; lia.
  - unfold mp. destruct (Z.leb_spec m 2); lia.
  - exact Hd1.
  - (* the day within the length of the month *)
    assert (Hcases : m = 1 \/ m = 2 \/ m = 3 \/ m = 4 \/ m = 5 \/ m = 6
                     \/ m = 7 \/ m = 8 \/ m = 9 \/ m = 10 \/ m = 11
                     \/ m = 12) by lia.
    rewrite <- Hleap. clear Hparts Hleap Hy'.
    unfold DaysInMonth in Hd2. unfold mp, y' in *.
    repeat (destruct Hcases as [-> | Hcases]); try subst m;
      cbn -[Z.mul Z.div Z.modulo Z.add Z.sub InLeapYear] in Hd2 |- *;
      try (replace (y - 1 + 1) with y by lia);
      try (destruct (InLeapYear y));
      match goal with
      | |- context [?a =? 11] => destruct (Z.eqb_spec a 11)
      end;
      try (destruct (InLeapYear (y + 1)));
      Z.div_mod_to_equations; lia.
  - lia.
Qed.

End Calendar.

(** ** The month of a view *)

Section MonthOfTheView.

Import JS DateFns.

Variable tz : Z.

Lemma localDay_localMidnight c : localDay tz (localMidnight tz c) = MakeDay c.
Proof.
  unfold localDay, localMidnight, toLocal, fromLocal, msPerDay, msPerMinute.
  Z.div_mod_to_equations. lia.
Qed.

Lemma localCivil_localMidnight c :
  validCivil c = true -> localCivil tz (localMidnight tz c) = c.
Proof.
  intros Hc. unfold localCivil. rewrite localDay_localMidnight.
  now apply civilFromDays_MakeDay.
Qed.

(** The date on the actor's calendar. *)
Lemma localCivil_of_day t tc :
  validCivil tc = true -> MakeDay tc = localDay tz t -> localCivil tz t = tc.
Proof.
  intros Hc Hday. unfold localCivil. rewrite <- Hday.
  now apply civilFromDays_MakeDay.
Qed.

(** One month back: the month before, the day clamped to its length. *)
Lemma localCivil_subMonths1 t tc :
  validCivil tc = true -> MakeDay tc = localDay tz t ->
  localCivil tz (subMonths1 tz t)
  = mkCivil (if month tc =? 1 then year tc - 1 else year tc)
            (if month tc =? 1 then 12 else month tc - 1)
            (Z.min (day tc)
               (DaysInMonth (if month tc =? 1 then year tc - 1 else year tc)
                            (if month tc =? 1 then 12 else month tc - 1))).
Proof.
  intros Hc Hday. unfold subMonths1.
  rewrite (localCivil_of_day t tc Hc Hday).
  set (p := mkCivil (if month tc =? 1 then year tc - 1 else year tc)
                    (if month tc =? 1 then 12 else month tc - 1)
                    (Z.min (day tc)
                       (DaysInMonth
                          (if month tc =? 1 then year tc - 1 else year tc)
                          (if month tc =? 1 then 12 else month tc - 1)))).
  assert (Hp : validCivil p = true).
  { apply validCivil_bounds in Hc. unfold validCivil, p. cbn [year month day].
    assert (Hdim : forall y m, 28 <= DaysInMonth y m).
    { intros y m. unfold DaysInMonth.
      destruct (m =? 2); [destruct (InLeapYear y); lia |].
      destruct ((m =? 4) || (m =? 6) || (m =? 9) || (m =? 11)); lia. }
    pose proof (Hdim (if month tc =? 1 then year tc - 1 else year tc)
                     (if month tc =? 1 then 12 else month tc - 1)).
    repeat (apply andb_true_intro; split); apply Z.leb_le;
      destruct (Z.eqb_spec (month tc) 1); lia. }
  unfold localCivil.
  assert (Hd : localDay tz (localMidnight tz p + toLocal tz t mod msPerDay)
               = MakeDay p).
  { pose proof (Z.mod_pos_bound (toLocal tz t) msPerDay eq_refl) as Hr.
    set (r := toLocal tz t mod msPerDay) in *. clearbody r.
    unfold localDay, localMidnight, toLocal, fromLocal, msPerDay, msPerMinute
      in *.
    Z.div_mod_to_equations. lia. }
  rewrite Hd. now apply civilFromDays_MakeDay.
Qed.

(** The days of one month are the day numbers from its first day up to
    the first day of the next month. *)
Lemma MakeDay_within_month c y m :
  validCivil c = true -> 1 <= m <= 12 ->
  (MakeDay (mkCivil y m 1) <= MakeDay c
   < MakeDay (mkCivil y m 1) + DaysInMonth y m
   <-> year c = y /\ month c = m).
Proof.
  intros Hc Hm. split.
  - intros [Hlo Hhi].
    set (k := MakeDay c - MakeDay (mkCivil y m 1)).
    assert (Hc' : validCivil (mkCivil y m (k + 1)) = true).
    { unfold validCivil. cbn [year month day].
      repeat (apply andb_true_intro; split); apply Z.leb_le; unfold k; lia. }
    assert (Hsame : MakeDay (mkCivil y m (k + 1)) = MakeDay c).
    { unfold MakeDay in *. cbn [year month day] in *. unfold k. lia. }
    rewrite <- (civilFromDays_MakeDay c Hc), <- Hsame,
      (civilFromDays_MakeDay _ Hc').
    split; reflexivity.
  - intros [<- <-]. apply validCivil_bounds in Hc.
    unfold MakeDay. cbn [year month day]. lia.
Qed.

Section Render.

Variable today : Z.
Variable tc : Civil.
Hypothesis tc_valid : validCivil tc = true.
Hypothesis tc_today : MakeDay tc = localDay tz today.

(** The month filter of the dashboards, on the calendar. *)
Lemma inSelectedMonth_current r :
  EmployeeDashboard.inSelectedMonth tz today current r = true
  <-> Facts.inChosenMonth current tc r.
Proof.
  unfold EmployeeDashboard.inSelectedMonth, Facts.inChosenMonth, parseISO.
  destruct (parseCivil (date r)) as [c |] eqn:Hparse.
  - pose proof (parseCivil_valid _ _ Hparse) as Hc.
    unfold isSameMonth.
    rewrite (localCivil_localMidnight c Hc),
      (localCivil_of_day today tc tc_valid tc_today).
    rewrite Bool.andb_true_iff, !Z.eqb_eq. split.
    + intros H. exists c. split; [reflexivity | exact H].
    + intros (c' & Hc' & H). now injection Hc' as <-.
  - split; [discriminate |]. intros (c & Hc & _). discriminate.
Qed.

Lemma inSelectedMonth_previous r :
  EmployeeDashboard.inSelectedMonth tz today previous r = true
  <-> Facts.inChosenMonth previous tc r.
Proof.
  unfold EmployeeDashboard.inSelectedMonth, Facts.inChosenMonth, parseISO.
  destruct (parseCivil (date r)) as [c |] eqn:Hparse;
    [| split; [discriminate | intros (c & Hc & _); discriminate]].
  pose proof (parseCivil_valid _ _ Hparse) as Hc.
  pose proof (validCivil_bounds _ tc_valid) as Htc.
  pose proof (validCivil_bounds _ Hc) as Hcb.
  unfold EmployeeDashboard.previousMonthStart, EmployeeDashboard.previousMonthEnd,
    EmployeeDashboard.previousMonthDate, startOfMonth, endOfMonth,
    startOfNextMonth.
  rewrite (localCivil_subMonths1 today tc tc_valid tc_today).
  cbn [year month day].
  set (py := if month tc =? 1 then year tc - 1 else year tc).
  set (pm := if month tc =? 1 then 12 else month tc - 1).
  assert (Hpm : 1 <= pm <= 12) by (unfold pm; destruct (Z.eqb_spec (month tc) 1); lia).
  pose proof (MakeDay_month_start py pm Hpm) as Hnext.
  assert (Hwithin :
    isWithinInterval (localMidnight tz c) (localMidnight tz (mkCivil py pm 1))
      ((if pm =? 12
        then localMidnight tz (mkCivil (py + 1) 1 1)
        else localMidnight tz (mkCivil py (pm + 1) 1)) - 1) = true
    <-> MakeDay (mkCivil py pm 1) <= MakeDay c
        < MakeDay (mkCivil py pm 1) + DaysInMonth py pm).
  { unfold isWithinInterval. rewrite Bool.andb_true_iff, !Z.leb_le.
    unfold MakeDay in *. cbn [year month day] in *.
    destruct (Z.eqb_spec pm 12) as [H12 | H12];
      unfold localMidnight, fromLocal, MakeDay, msPerDay, msPerMinute;
      cbn [year month day];
      [change (DaysBeforeMonth (py + 1) 1) with 0 |]; lia. }
  rewrite Hwithin, (MakeDay_within_month c py pm Hc Hpm).
  unfold Spec.isPreviousMonthOf. split.
  - intros [Hy Hmo]. exists c. split; [reflexivity |].
    unfold py, pm in *. destruct (Z.eqb_spec (month tc) 1); lia.
  - intros (c' & Hc' & Hprev). injection Hc' as <-.
    unfold py, pm. destruct (Z.eqb_spec (month tc) 1); lia.
Qed.

Lemma inSelectedMonth_on_the_calendar selectedMonth r :
  EmployeeDashboard.inSelectedMonth tz today selectedMonth r = true
  <-> Facts.inChosenMonth selectedMonth tc r.
Proof.
  destruct selectedMonth;
    [apply inSelectedMonth_current | apply inSelectedMonth_previous].
Qed.

End Render.

End MonthOfTheView.

(** X15.  The month view.  For records whose [date] has the form
    [YYYY-MM-DD] of [types.ts], and [tc] the date on the actor's calendar:
    the month filter of the dashboards keeps a record exactly when its
    [date] is a date of the calendar in the month of [tc] (this month) or
    in the month before it (last month).  [filteredRecords] of the employee
    dashboard holds exactly the records of the local set that belong to the
    employee and fall in that month, each as often as the set holds it, and
    runs from the most recent date to the oldest; the manager's
    [filteredRecords] is the same over the records of all employees. *)
Theorem X15_month_view_is_filtered_and_sorted :
  forall tz uid records today selectedMonth tc,
    Facts.plainDates records ->
    JS.validCivil tc = true ->
    JS.MakeDay tc = JS.localDay tz today ->
    let mine := EmployeeDashboard.filteredRecords tz uid records today
                  selectedMonth in
    let team := ManagerDashboard.filteredRecords tz records today
                  selectedMonth in
    (forall r,
       EmployeeDashboard.inSelectedMonth tz today selectedMonth r = true
       <-> Facts.inChosenMonth selectedMonth tc r)
    /\ (forall r,
          In r mine
          <-> In r records /\ employeeId r = uid
              /\ Facts.inChosenMonth selectedMonth tc r)
    /\ (forall r,
          In r team
          <-> In r records /\ Facts.inChosenMonth selectedMonth tc r)
    /\ Permutation
         (filter (EmployeeDashboard.inSelectedMonth tz today selectedMonth)
            (filter (fun r => String.eqb (employeeId r) uid) records))
         mine
    /\ Permutation
         (filter (ManagerDashboard.inSelectedMonth tz today selectedMonth)
            records)
         team
    /\ StronglySorted Facts.newerOrSame mine
    /\ StronglySorted Facts.newerOrSame team.
Proof.
  intros tz uid records today selectedMonth tc _ Hvalid Htoday. cbv zeta.
  pose proof (inSelectedMonth_on_the_calendar tz today tc Hvalid Htoday
                selectedMonth) as Hmonth.
  unfold EmployeeDashboard.filteredRecords, ManagerDashboard.filteredRecords,
    EmployeeDashboard.myRecords.
  split; [exact Hmonth |].
  split; [| split; [| split; [| split; [| split]]]].
  - intros r. rewrite <- Hmonth. split.
    + intros Hr.
      apply (Permutation_in r (Permutation_sym (sortDateDesc_perm _))) in Hr.
      apply filter_In in Hr. destruct Hr as [Hr Hm].
      apply filter_In in Hr. destruct Hr as [Hr He].
      apply String.eqb_eq in He. tauto.
    + intros (Hr & He & Hm).
      apply (Permutation_in r (sortDateDesc_perm _)).
      apply filter_In. split; [| exact Hm].
      apply filter_In. split; [exact Hr | now apply String.eqb_eq].
  - intros r. rewrite <- Hmonth, <- inSelectedMonth_same. split.
    + intros Hr.
      apply (Permutation_in r (Permutation_sym (sortDateDesc_perm _))) in Hr.
      now apply filter_In in Hr.
    + intros Hr. apply (Permutation_in r (sortDateDesc_perm _)).
      now apply filter_In.
  - apply sortDateDesc_perm.
  - apply sortDateDesc_perm.
  - apply sortDateDesc_newest_first, inSelectedMonth_datesParse.
  - apply sortDateDesc_newest_first, team_inSelectedMonth_datesParse.
Qed.

(** Two days of March seen on the twentieth: both are in the view of this
    month, the fifteenth first. *)
Lemma X15_month_view_is_filtered_and_sorted_witness :
  In Scenario.shortDay
    (EmployeeDashboard.filteredRecords 0 Scenario.alice
       [Scenario.shortDay; Scenario.lateArrival] Scenario.march20 current)
  /\ StronglySorted Facts.newerOrSame
       (EmployeeDashboard.filteredRecords 0 Scenario.alice
          [Scenario.shortDay; Scenario.lateArrival] Scenario.march20 current).
Proof.
  destruct (X15_month_view_is_filtered_and_sorted 0 Scenario.alice
              [Scenario.shortDay; Scenario.lateArrival] Scenario.march20
              current (JS.mkCivil 2024 3 20))
    as (_ & Hmine & _ & _ & _ & Hsorted & _).
  - intros r [<- | [<- | []]]; reflexivity.
  - reflexivity.
  - reflexivity.
  - split; [| exact Hsorted].
    refine (proj2 (Hmine Scenario.shortDay) _).
    split; [now left |]. split; [reflexivity |].
    exists (JS.mkCivil 2024 3 14). split; [reflexivity |]. split; reflexivity.
Defined.

(** ** The charts *)

Section Charts.

Import ManagerDashboard.

Lemma mapOption_total {A B : Type} (f : A -> option B) (l : list A) :
  (forall a, In a l -> exists b, f a = Some b) ->
  exists l', mapOption f l = Some l' /\ List.length l' = List.length l.
Proof.
  induction l as [| a l IH]; intros Hf; cbn.
  - exists []. split; reflexivity.
  - destruct (Hf a (or_introl eq_refl)) as [b Hb]. rewrite Hb.
    destruct IH as (l' & Hl' & Hlen); [intros; apply Hf; now right |].
    rewrite Hl'. exists (b :: l'). split; [reflexivity | cbn; now rewrite Hlen].
Qed.

Lemma dayLabel_parses tz r :
  (exists c, JS.parseCivil (date r) = Some c) ->
  exists d, dayLabel tz (date r) = Some d.
Proof.
  intros [c Hc]. unfold dayLabel, DateFns.parseISO. rewrite Hc. eauto.
Qed.

Lemma aggregateByDay_total tz recs :
  Facts.datesParse recs ->
  forall o, exists o', aggregateByDay tz recs o = Some o'.
Proof.
  induction recs as [| r recs IH]; intros Hparse o; cbn; [eauto |].
  destruct (dayLabel_parses tz r) as [d Hd]; [apply Hparse; now left |].
  rewrite Hd. apply IH. intros x Hx. apply Hparse. now right.
Qed.











Lemma pointAt_In k p o : Facts.pointAt k o = Some p -> In (k, p) o.
Proof.
  induction o as [| [k' v] o IH]; cbn; [discriminate |].
  destruct (String.eqb k' k) eqn:Hk.
  - apply String.eqb_eq in Hk. intros [= ->]. left. now subst.
  - intros H. right. now apply IH.
Qed.














(** The label and the hours of a bar of the employee's chart. *)
Lemma bars_total tz (l : list AttendanceRecord) :
  Facts.datesParse l ->
  exists series,
    mapOption (fun record =>
                 match dayLabel tz (date record) with
                 | Some d => Some (d, durationHours record)
                 | None => None
                 end) l = Some series
    /\ map snd series = map durationHours l
    /\ map (fun b => Some (fst b)) series
       = map (fun r => dayLabel tz (date r)) l.
Proof.
  induction l as [| r l IH]; intros Hparse; cbn.
  - exists []. repeat split.
  - destruct (dayLabel_parses tz r) as [d Hd]; [apply Hparse; now left |].
    rewrite Hd.
    destruct IH as (series & Hs & Hsnd & Hfst);
      [intros x Hx; apply Hparse; now right |].
    rewrite Hs. exists ((d, durationHours r) :: series).
    cbn. rewrite Hsnd, Hfst. repeat split.
Qed.

Lemma In_firstn {A : Type} (n : nat) (a : A) (l : list A) :
  In a (firstn n l) -> In a l.
Proof.
  intros Hin. rewrite <- (firstn_skipn n l). apply in_or_app. now left.
Qed.

Lemma datesParse_incl l l' :
  incl l' l -> Facts.datesParse l -> Facts.datesParse l'.
Proof.
  intros Hincl Hparse r Hr. apply Hparse, Hincl, Hr.
Qed.

End Charts.

(** X16.  The charts of a month view are always drawn.  Every record of
    [filteredRecords] has a date that parses, so no day label throws: the
    employee's chart has one bar for each of the ten most recent records of
    the month, oldest first, with the hours of the record; the manager's
    chart is drawn too, with at most 14 points. *)
Theorem X16_month_charts_are_always_drawn :
  forall tz uid records today selectedMonth,
    (exists bars,
       EmployeeDashboard.chartData tz uid records today selectedMonth
       = Some bars
       /\ map snd bars
          = map durationHours
              (rev (firstn 10
                      (EmployeeDashboard.filteredRecords tz uid records today
                         selectedMonth)))
       /\ List.length bars
          = Nat.min 10
              (List.length
                 (EmployeeDashboard.filteredRecords tz uid records today
                    selectedMonth)))
    /\ (exists points,
          ManagerDashboard.chartData tz records today selectedMonth
          = Some points
          /\ (List.length points <= 14)%nat).
Proof.
  intros tz uid records today selectedMonth. split.
  - unfold EmployeeDashboard.chartData.
    set (shown := EmployeeDashboard.filteredRecords tz uid records today
                    selectedMonth).
    assert (Hparse : Facts.datesParse (rev (firstn 10 shown))).
    { apply (datesParse_incl shown).
      - intros r Hr. apply in_rev in Hr. eapply In_firstn; exact Hr.
      - unfold shown, EmployeeDashboard.filteredRecords.
        eapply datesParse_perm; [apply sortDateDesc_perm |].
        apply inSelectedMonth_datesParse. }
    destruct (bars_total tz _ Hparse) as (bars & Hbars & Hsnd & _).
    exists bars. split; [exact Hbars |]. split; [exact Hsnd |].
    rewrite <- (length_map snd), Hsnd, length_map, length_rev, length_firstn.
    reflexivity.
  - unfold ManagerDashboard.chartData.
    set (shown := ManagerDashboard.filteredRecords tz records today
                    selectedMonth).
    assert (Hparse : Facts.datesParse shown).
    { unfold shown, ManagerDashboard.filteredRecords.
      eapply datesParse_perm; [apply sortDateDesc_perm |].
      apply team_inSelectedMonth_datesParse. }
    destruct (aggregateByDay_total tz shown Hparse []) as [o Ho].
    exists (firstn 14 (rev (ManagerDashboard.Object_values o))). split.
    + unfold ManagerDashboard.chartDataOf. now rewrite Ho.
    + rewrite length_firstn. lia.
Qed.





(** ** Loading the session *)

Section Loading.

Import Load.

Variable reply : nat -> ProfileReply.
Variable empReply : QueryReply (list ProfileRow.t).
Variable recordReply : QueryReply (list DbRecord.t).

Lemma fetchAppData_run s :
  execState (fetchAppData empReply recordReply) s
  = mkApp (user s) (authView s)
      (match empReply, recordReply with
       | Data _, Data (Some rows) => map toRecord rows
       | _, _ => attendanceRecords s
       end)
      (match empReply with
       | Data (Some rows) => map toEmployee rows
       | _ => employees s
       end)
      false (profileQueries s).
Proof.
  unfold fetchAppData, execState.
  destruct empReply as [[rows |] |], recordReply as [[rows' |] |]; reflexivity.
Qed.

(** One attempt of [fetchProfile]. *)
Lemma fetchProfile_step attempt retries s :
  execState (fetchProfile reply empReply recordReply attempt retries) s
  = match reply attempt with
    | ProfileData data =>
        execState (fetchAppData empReply recordReply)
          (execState (setUser (Some data)) (execState queryProfile s))
    | _ =>
        match retries with
        | S retries' =>
            execState (fetchProfile reply empReply recordReply (S attempt)
                         retries')
              (execState queryProfile s)
        | O => execState (setLoading false) (execState queryProfile s)
        end
    end.
Proof.
  destruct retries; unfold execState; cbn; destruct (reply attempt);
    reflexivity.
Qed.

Lemma fetchProfile_earlier_step attempt retries s :
  execState (fetchProfile_earlier reply empReply recordReply attempt retries) s
  = match reply attempt with
    | ProfileData data =>
        execState (fetchAppData empReply recordReply)
          (execState (setUser (Some data)) (execState queryProfile s))
    | ProfileError =>
        match retries with
        | S retries' =>
            execState (fetchProfile_earlier reply empReply recordReply
                         (S attempt) retries')
              (execState queryProfile s)
        | O => execState (setLoading false) (execState queryProfile s)
        end
    | ProfileNone => execState queryProfile s
    | ProfileThrows =>
        match retries with
        | S _ => execState queryProfile s
        | O => execState (setLoading false) (execState queryProfile s)
        end
    end.
Proof.
  destruct retries; unfold execState; cbn; destruct (reply attempt);
    reflexivity.
Qed.

(** Whatever the replies, [fetchProfile] ends with [loading] off, after
    at least one and at most [retries + 1] queries. *)
Lemma fetchProfile_bounds retries :
  forall attempt s,
    let s' := execState (fetchProfile reply empReply recordReply attempt
                           retries) s in
    loading s' = false
    /\ (profileQueries s < profileQueries s'
        <= profileQueries s + S retries)%nat
    /\ authView s' = authView s.
Proof.
  induction retries as [| retries IH]; intros attempt s; cbv zeta;
    rewrite fetchProfile_step.
  - destruct (reply attempt); rewrite ?fetchAppData_run; cbn; repeat split; lia.
  - destruct (reply attempt);
      try (rewrite fetchAppData_run; cbn; repeat split; lia);
      destruct (IH (S attempt) (execState queryProfile s)) as (Hl & Hq & Hv);
      change (profileQueries (execState queryProfile s))
        with (S (profileQueries s)) in Hq;
      change (authView (execState queryProfile s)) with (authView s) in Hv;
      (split; [exact Hl |]); (split; [lia | exact Hv]).
Qed.

Lemma noProfile_head attempt n :
  Facts.noProfile reply attempt (S n) ->
  (forall data, reply attempt <> ProfileData data)
  /\ Facts.noProfile reply (S attempt) n.
Proof.
  intros Hno. split.
  - intros data. specialize (Hno 0%nat (Nat.lt_0_succ n) data).
    now rewrite Nat.add_0_r in Hno.
  - intros i Hi data. specialize (Hno (S i) (proj1 (Nat.succ_lt_mono i n) Hi) data).
    now rewrite Nat.add_succ_r in Hno.
Qed.

(** Without a profile in any reply, every attempt is spent and nothing
    but [loading] changes. *)
Lemma fetchProfile_exhausted retries :
  forall attempt s,
    Facts.noProfile reply attempt (S retries) ->
    execState (fetchProfile reply empReply recordReply attempt retries) s
    = mkApp (user s) (authView s) (attendanceRecords s) (employees s) false
        (profileQueries s + S retries).
Proof.
  induction retries as [| retries IH]; intros attempt s Hno;
    rewrite fetchProfile_step;
    destruct (noProfile_head _ _ Hno) as [Hhead Htail].
  - destruct (reply attempt) as [data | | |]; try (now destruct (Hhead data));
      cbn; f_equal; lia.
  - destruct (reply attempt) as [data | | |]; try (now destruct (Hhead data));
      rewrite (IH _ _ Htail); cbn; f_equal; lia.
Qed.

(** The first reply with a profile ends the attempts. *)
Lemma fetchProfile_found k :
  forall attempt retries s data,
    (k <= retries)%nat ->
    Facts.noProfile reply attempt k ->
    reply (attempt + k)%nat = ProfileData data ->
    execState (fetchProfile reply empReply recordReply attempt retries) s
    = execState (fetchAppData empReply recordReply)
        (mkApp (Some data) (authView s) (attendanceRecords s) (employees s)
           (loading s) (profileQueries s + S k)).
Proof.
  induction k as [| k IH]; intros attempt retries s data Hk Hno Hdata;
    rewrite fetchProfile_step.
  - rewrite Nat.add_0_r in Hdata. rewrite Hdata. cbn.
    do 2 f_equal. lia.
  - destruct retries as [| retries]; [lia |].
    destruct (noProfile_head _ _ Hno) as [Hhead Htail].
    rewrite Nat.add_succ_r in Hdata.
    destruct (reply attempt) as [data' | | |];
      try (now destruct (Hhead data'));
      rewrite (IH (S attempt) retries _ data) by (lia || assumption);
      cbn; do 2 f_equal; lia.
Qed.

End Loading.

(** X19.  Loading the profile always comes to an end.  Whatever the
    replies of the store, [fetchProfile] ends with [loading] off, having
    sent at least one and at most [retries + 1] profile queries and left
    the view as it was.  When no reply brings a profile it sends them all
    and changes nothing else; the first reply that brings one ends the
    attempts and sets the user. *)
Theorem X19_fetchProfile_always_stops_loading :
  forall reply empReply recordReply retries s,
    let s' := execState (Load.fetchProfile reply empReply recordReply 0 retries)
                s in
    Load.loading s' = false
    /\ (Load.profileQueries s < Load.profileQueries s'
        <= Load.profileQueries s + S retries)%nat
    /\ Load.authView s' = Load.authView s
    /\ (Facts.noProfile reply 0 (S retries) ->
        s' = Load.mkApp (Load.user s) (Load.authView s)
               (Load.attendanceRecords s) (Load.employees s) false
               (Load.profileQueries s + S retries))
    /\ (forall k data,
          (k <= retries)%nat ->
          Facts.noProfile reply 0 k ->
          reply k = ProfileData data ->
          Load.user s' = Some data
          /\ Load.profileQueries s' = (Load.profileQueries s + S k)%nat).
Proof.
  intros reply empReply recordReply retries s. cbv zeta.
  destruct (fetchProfile_bounds reply empReply recordReply retries 0%nat s)
    as (Hl & Hq & Hv).
  split; [exact Hl |]. split; [exact Hq |]. split; [exact Hv |]. split.
  - intros Hno. now apply fetchProfile_exhausted.
  - intros k data Hk Hno Hdata.
    rewrite (fetchProfile_found reply empReply recordReply k 0%nat retries s
               data Hk Hno Hdata), fetchAppData_run.
    split; reflexivity.
Qed.

Lemma X19_fetchProfile_always_stops_loading_witness :
  Load.profileQueries
    (execState
       (Load.fetchProfile (fun _ => ProfileError) Throws Throws 0 3)
       Load.initial)
  = 4%nat.
Proof.
  destruct (X19_fetchProfile_always_stops_loading (fun _ => ProfileError)
              Throws Throws 3 Load.initial) as (_ & _ & _ & Hall & _).
  rewrite Hall; [reflexivity |].
  intros i _ data. discriminate.
Defined.

(** X20.  The earlier [fetchProfile] can leave the loading screen on.
    When the profile query throws while retries remain, or answers with
    neither a profile nor an error, the earlier [fetchProfile] sends no
    further query and leaves [loading] as it was; on the same replies the
    later [fetchProfile] ends with [loading] off. *)
Theorem X20_earlier_fetchProfile_can_stay_loading :
  forall reply empReply recordReply attempt retries s,
    reply attempt = ProfileNone
    \/ (reply attempt = ProfileThrows /\ (0 < retries)%nat) ->
    execState
      (Load.fetchProfile_earlier reply empReply recordReply attempt retries) s
    = execState Load.queryProfile s
    /\ Load.loading
         (execState
            (Load.fetchProfile_earlier reply empReply recordReply attempt
               retries) s)
       = Load.loading s
    /\ Load.loading
         (execState
            (Load.fetchProfile reply empReply recordReply attempt retries) s)
       = false.
Proof.
  intros reply empReply recordReply attempt retries s Hreply.
  assert (Hrun :
    execState
      (Load.fetchProfile_earlier reply empReply recordReply attempt retries) s
    = execState Load.queryProfile s).
  { rewrite fetchProfile_earlier_step.
    destruct Hreply as [-> | [-> Hretries]]; [reflexivity |].
    destruct retries; [lia | reflexivity]. }
  split; [exact Hrun |]. split; [now rewrite Hrun |].
  apply fetchProfile_bounds.
Qed.

Lemma X20_earlier_fetchProfile_can_stay_loading_witness :
  Load.loading
    (execState
       (Load.fetchProfile_earlier (fun _ => ProfileThrows) Throws Throws 0 3)
       Load.initial)
  = true.
Proof.
  destruct (X20_earlier_fetchProfile_can_stay_loading (fun _ => ProfileThrows)
              Throws Throws 0%nat 3%nat Load.initial) as (_ & Hsame & _).
  - right. split; [reflexivity | lia].
  - rewrite Hsame. reflexivity.
Defined.

(** X21.  Fetching the data.  [fetchAppData] always ends with [loading]
    off and touches neither the user nor the view.  Employees that were
    read keep their ids, in the order of the rows, and none has an empty
    department; the records that were read replace the local set, field by
    field; a throw of the employees query leaves employees and records as
    they were, whatever the records query would have answered. *)
Theorem X21_fetchAppData_outcome :
  forall empReply recordReply s,
    let s' := execState (Load.fetchAppData empReply recordReply) s in
    Load.loading s' = false
    /\ Load.user s' = Load.user s
    /\ Load.authView s' = Load.authView s
    /\ (forall rows,
          empReply = Data (Some rows) ->
          map Employee.id (Load.employees s') = map ProfileRow.id rows
          /\ forall emp,
               In emp (Load.employees s') -> Employee.department emp <> ""%string)
    /\ (forall rows,
          empReply <> Throws -> recordReply = Data (Some rows) ->
          map id (Load.attendanceRecords s') = map DbRecord.id rows
          /\ map durationHours (Load.attendanceRecords s')
             = map DbRecord.duration_hours rows)
    /\ (empReply = Throws ->
        Load.employees s' = Load.employees s
        /\ Load.attendanceRecords s' = Load.attendanceRecords s).
Proof.
  intros empReply recordReply s. cbv zeta. rewrite fetchAppData_run. cbn.
  split; [reflexivity |]. split; [reflexivity |]. split; [reflexivity |].
  split; [| split].
  - intros rows ->. split.
    + rewrite map_map. reflexivity.
    + intros emp Hin. apply in_map_iff in Hin. destruct Hin as (p & <- & _).
      cbn. unfold Load.departmentOf, App.orElse.
      destruct (ProfileRow.department p) as [d |]; [| discriminate].
      destruct (String.eqb d "") eqn:Hd; [discriminate |].
      intros ->. discriminate.
  - intros rows Hemp ->.
    destruct empReply as [empData |]; [| congruence].
    rewrite !map_map. split; reflexivity.
  - intros ->. split; reflexivity.
Qed.

Lemma X21_fetchAppData_outcome_witness :
  Load.attendanceRecords
    (execState (Load.fetchAppData Throws (Data (Some []))) Load.initial)
  = Load.attendanceRecords Load.initial.
Proof.
  apply (X21_fetchAppData_outcome Throws (Data (Some [])) Load.initial).
  reflexivity.
Defined.

(** ** The figures of the report *)

Section ReportFigures.









Lemma statOf_counts records emp :
  Report.presentCount (Report.statOf records emp)
  = Facts.countOf (fun r => AttendanceStatus_eqb (status r) PRESENT) records emp
  /\ Report.lateCount (Report.statOf records emp)
     = Facts.countOf (fun r => AttendanceStatus_eqb (status r) LATE) records emp.
Proof.
  split; reflexivity.
Qed.

End ReportFigures.


